(** * py-github-analyzer: the file selection and prioritisation pipeline

    A shallow embedding of [config.py], [utils.py] and [file_processor.py].

    Conventions of the embedding.
    - A Python [str] is a [string]: a sequence of code points below 256.
    - A Python [int] is a [Z].
    - A Python [float] is an IEEE-754 binary64 value, module [Float64]; every
      operation is the exact result rounded to nearest, ties to even.
    - A file record is a dict with the keys ["path"], ["size"], ["content"]
      supplied by the caller; a key may be absent and its value may have any
      of the types [PyNone], [PyInt], [PyStr].
    - A Python exception is the [Raise] outcome of the [py] monad.
    - [pathlib.Path] is [PurePosixPath] with the suffix rules of Python 3.8
      to 3.13.
    - The modules [re] and [json] are not part of the repository; they are
      the class [Engine]. *)

From Stdlib Require Import ZArith Lia Bool Ascii.
From stdpp Require Import base list strings gmap sorting.

Local Open Scope Z_scope.

(** ** Python values and exceptions *)

Inductive pyval :=
  | PyNone
  | PyInt (z : Z)
  | PyStr (s : string).

Inductive exn :=
  | TypeError
  | OverflowError
  | ValueError
  | AttributeError
  | ZeroDivisionError.

Inductive py (A : Type) :=
  | Ok (a : A)
  | Raise (e : exn).
Arguments Ok {A} a.
Arguments Raise {A} e.

Global Instance py_ret : MRet py := fun A a => Ok a.

Global Instance py_bind : MBind py := fun A B k c =>
  match c with
  | Ok a => k a
  | Raise e => Raise e
  end.

(** [bool(v)] *)
Definition truthy (v : pyval) : bool :=
  match v with
  | PyNone => false
  | PyInt z => negb (z =? 0)
  | PyStr s => negb (String.eqb s "")
  end.

(** ** Python string methods *)

Module Str.

Definition code (c : ascii) : N := N_of_ascii c.

(** [str.lower] on code points below 256: A-Z and the Latin-1 capitals
    U+00C0..U+00DE except the multiplication sign U+00D7. *)
Definition lower_char (c : ascii) : ascii :=
  let n := code c in
  if ((65 <=? n) && (n <=? 90))%N then ascii_of_N (n + 32)
  else if ((192 <=? n) && (n <=? 222) && negb (n =? 215))%N then ascii_of_N (n + 32)
  else c.

Fixpoint lower (s : string) : string :=
  match s with
  | EmptyString => EmptyString
  | String c r => String (lower_char c) (lower r)
  end.

(** [str.isspace] on one code point below 256 *)
Definition is_space (c : ascii) : bool :=
  let n := code c in
  (((9 <=? n) && (n <=? 13)) || ((28 <=? n) && (n <=? 32)) || (n =? 133) || (n =? 160))%N.

Fixpoint lstrip (s : string) : string :=
  match s with
  | EmptyString => EmptyString
  | String c r => if is_space c then lstrip r else s
  end.

Fixpoint rstrip (s : string) : string :=
  match s with
  | EmptyString => EmptyString
  | String c r =>
      match rstrip r with
      | EmptyString => if is_space c then EmptyString else String c EmptyString
      | r' => String c r'
      end
  end.

Definition strip (s : string) : string := rstrip (lstrip s).

(** [s.lstrip(c)] for a single character [c] *)
Fixpoint lstrip_char (c : ascii) (s : string) : string :=
  match s with
  | EmptyString => EmptyString
  | String a r => if Ascii.eqb a c then lstrip_char c r else s
  end.

Definition startswith (s p : string) : bool := String.prefix p s.

Fixpoint contains (sub s : string) : bool :=
  String.prefix sub s ||
  match s with
  | EmptyString => false
  | String _ r => contains sub r
  end.

Definition endswith (s p : string) : bool :=
  let n := String.length s in
  let k := String.length p in
  (k <=? n)%nat && String.eqb (String.substring (n - k) k s) p.

(** [s.split(c)] for a single character [c]: never the empty list *)
Fixpoint split (c : ascii) (s : string) : list string :=
  match s with
  | EmptyString => [EmptyString]
  | String a r =>
      if Ascii.eqb a c then EmptyString :: split c r
      else match split c r with
           | [] => [String a EmptyString]
           | w :: ws => String a w :: ws
           end
  end.

(** [s.rfind(c)]: the index of the last occurrence *)
Fixpoint rfind (c : ascii) (s : string) : option nat :=
  match s with
  | EmptyString => None
  | String a r =>
      match rfind c r with
      | Some i => Some (S i)
      | None => if Ascii.eqb a c then Some O else None
      end
  end.

(** [s[i:]] and [s[:n]] *)
Fixpoint drop (i : nat) (s : string) : string :=
  match i, s with
  | O, _ => s
  | S i', String _ r => drop i' r
  | S _, EmptyString => EmptyString
  end.

Fixpoint take (n : nat) (s : string) : string :=
  match n, s with
  | S n', String a r => String a (take n' r)
  | _, _ => EmptyString
  end.

(** [s[i]] *)
Definition nth (i : nat) (s : string) : option ascii := String.get i s.

Fixpoint concat (l : list string) : string :=
  match l with
  | [] => EmptyString
  | x :: r => x +:+ concat r
  end.

(** the line boundaries of [str.splitlines] below code point 256 *)
Definition is_linebreak (c : ascii) : bool :=
  let n := code c in
  ((n =? 10) || (n =? 11) || (n =? 12) || (n =? 13) || (n =? 28) || (n =? 29) || (n =? 30) || (n =? 133))%N.

(** [len(s.splitlines())]: a carriage return followed by a line feed is one
    boundary, and a final boundary opens no further line *)
Fixpoint count_lines_from (in_line : bool) (s : string) : nat :=
  match s with
  | EmptyString => if in_line then 1%nat else 0%nat
  | String c r =>
      if is_linebreak c then
        match r with
        | String d r' =>
            if ((code c =? 13) && (code d =? 10))%N
            then S (count_lines_from false r')
            else S (count_lines_from false r)
        | EmptyString => 1%nat
        end
      else count_lines_from true r
  end.

Definition count_lines (s : string) : nat := count_lines_from false s.

Definition mem (x : string) (l : list string) : bool :=
  existsb (String.eqb x) l.

Definition backslash : string := String (ascii_of_nat 92) EmptyString.
Definition dquote : string := String (ascii_of_nat 34) EmptyString.
Definition newline : string := String (ascii_of_nat 10) EmptyString.

End Str.

(** ** [pathlib.PurePosixPath] *)

Module Pathlib.

Definition is_component (c : string) : bool :=
  negb (String.eqb c "") && negb (String.eqb c ".").

(** the components after the root: empty and ["."] components are dropped *)
Definition components (p : string) : list string :=
  List.filter is_component (Str.split "/" p).

(** exactly two leading slashes are kept as the root ["//"] *)
Definition root (p : string) : list string :=
  if Str.startswith p "///" then ["/"]
  else if Str.startswith p "//" then ["//"]
  else if Str.startswith p "/" then ["/"]
  else [].

(** [Path(p).parts] *)
Definition parts (p : string) : list string := root p ++ components p.

(** [Path(p).name] *)
Definition name (p : string) : string := List.last (components p) "".

(** [Path(p).suffix]:
    [i = name.rfind('.')], and [name[i:]] when [0 < i < len(name) - 1] *)
Definition suffix (p : string) : string :=
  let n := name p in
  match Str.rfind "." n with
  | Some i =>
      if ((0 <? i) && (i <? String.length n - 1))%nat then Str.drop i n else ""
  | None => ""
  end.

(** [Path(p).suffixes] *)
Definition suffixes (p : string) : list string :=
  let n := name p in
  if Str.endswith n "." then []
  else List.map (fun s => "." +:+ s) (List.tl (Str.split "." (Str.lstrip_char "." n))).

End Pathlib.

(** ** [config.py] *)

Module Config.

Definition MAX_FILE_SIZE : Z := 10 * 1024 * 1024.
Definition MAX_REPOSITORY_SIZE : Z := 500 * 1024 * 1024.
Definition MAX_FILES_COUNT : Z := 10000.
Definition MAX_TOTAL_SIZE_BYTES : Z := MAX_REPOSITORY_SIZE.

Definition SPECIAL_FILES : list (string * string) :=
  [
    ("dockerfile", "dockerfile"); ("dockerfile.dev", "dockerfile");
    ("dockerfile.prod", "dockerfile"); ("dockerfile.test", "dockerfile");
    (".dockerignore", "config"); ("docker-compose.yml", "config");
    ("docker-compose.yaml", "config"); ("makefile", "config");
    ("cmake", "config"); ("cmakelists.txt", "config");
    ("build.gradle", "java"); ("build.gradle.kts", "kotlin");
    ("pom.xml", "java"); ("cargo.toml", "rust"); ("cargo.lock", "rust");
    ("package.json", "javascript"); ("package-lock.json", "javascript");
    ("yarn.lock", "javascript"); ("requirements.txt", "python");
    ("pipfile", "python"); ("pipfile.lock", "python");
    ("setup.py", "python"); ("setup.cfg", "python");
    ("pyproject.toml", "python"); ("poetry.lock", "python");
    ("gemfile", "ruby"); ("gemfile.lock", "ruby"); ("composer.json", "php");
    ("composer.lock", "php"); ("go.mod", "go"); ("go.sum", "go");
    ("jenkinsfile", "config"); ("vagrantfile", "config");
    (".travis.yml", "config"); (".github", "config");
    ("appveyor.yml", "config"); ("circle.yml", "config");
    ("azure-pipelines.yml", "config"); ("webpack.config.js", "javascript");
    ("rollup.config.js", "javascript"); ("babel.config.js", "javascript");
    ("jest.config.js", "javascript"); ("tsconfig.json", "typescript");
    ("tslint.json", "typescript"); ("eslint.json", "javascript");
    (".eslintrc", "config"); (".eslintrc.js", "javascript");
    (".eslintrc.json", "config"); (".prettierrc", "config");
    (".editorconfig", "config"); ("license", "text"); ("licence", "text");
    ("readme", "markdown"); ("readme.md", "markdown");
    ("readme.txt", "text"); ("changelog", "text");
    ("changelog.md", "markdown"); ("changes", "text"); ("authors", "text");
    ("contributors", "text")
  ].

Definition MULTI_PART_EXTENSIONS : list (string * string) :=
  [
    (".tar.gz", "binary"); (".tar.bz2", "binary"); (".tar.xz", "binary");
    (".tar.Z", "binary"); (".backup", "binary"); (".bak", "binary");
    (".old", "binary"); (".orig", "binary"); (".sample", "config");
    (".template", "config"); (".example", "config"); (".gitkeep", "config");
    (".gitattributes", "config"); (".gitignore", "config");
    (".gitmodules", "config")
  ].

Definition SUPPORTED_EXTENSIONS : list (string * list string) :=
  [
    ("python", [".py"; ".pyx"; ".pyi"; ".pyw"]);
    ("javascript", [".js"; ".jsx"; ".mjs"; ".cjs"]);
    ("typescript", [".ts"; ".tsx"; ".d.ts"]); ("java", [".java"]);
    ("kotlin", [".kt"; ".kts"]); ("scala", [".scala"]);
    ("cpp", [".cpp"; ".cxx"; ".cc"; ".c"; ".hpp"; ".h"; ".hxx"]);
    ("csharp", [".cs"; ".csx"]); ("go", [".go"]); ("rust", [".rs"]);
    ("php", [".php"; ".phtml"; ".php3"; ".php4"; ".php5"; ".phps"]);
    ("ruby", [".rb"; ".rbw"; ".rake"]); ("swift", [".swift"]);
    ("shell", [".sh"; ".bash"; ".zsh"; ".fish"; ".csh"; ".tcsh"]);
    ("powershell", [".ps1"; ".psm1"; ".psd1"]); ("sql", [".sql"]);
    ("html", [".html"; ".htm"; ".xhtml"]);
    ("css", [".css"; ".scss"; ".sass"; ".less"; ".styl"]);
    ("markdown", [".md"; ".markdown"; ".mdown"; ".mkd"]);
    ("yaml", [".yml"; ".yaml"]); ("json", [".json"; ".jsonc"; ".json5"]);
    ("xml", [".xml"; ".xsd"; ".xsl"; ".xslt"]); ("toml", [".toml"]);
    ("ini", [".ini"; ".cfg"; ".conf"]); ("dockerfile", [".dockerfile"]);
    ("text", [".txt"; ".text"; ".readme"]); ("perl", [".pl"; ".pm"; ".t"]);
    ("lua", [".lua"]); ("r", [".r"; ".R"]); ("matlab", [".m"]);
    ("haskell", [".hs"; ".lhs"]); ("erlang", [".erl"; ".hrl"]);
    ("elixir", [".ex"; ".exs"]); ("clojure", [".clj"; ".cljs"; ".cljc"]);
    ("scheme", [".scm"; ".ss"]); ("lisp", [".lisp"; ".lsp"]);
    ("fortran", [".f"; ".for"; ".f90"; ".f95"]); ("pascal", [".pas"]);
    ("ada", [".adb"; ".ads"]); ("dart", [".dart"]); ("julia", [".jl"]);
    ("nim", [".nim"]); ("crystal", [".cr"]); ("zig", [".zig"])
  ].

Definition BINARY_EXTENSIONS : list string :=
  [
    ".exe"; ".dll"; ".so"; ".dylib"; ".a"; ".lib"; ".o"; ".obj"; ".com";
    ".bat"; ".cmd"; ".msi"; ".dmg"; ".pkg"; ".deb"; ".rpm"; ".zip"; ".tar";
    ".gz"; ".bz2"; ".xz"; ".7z"; ".rar"; ".ace"; ".arj"; ".cab"; ".lzh";
    ".lha"; ".sit"; ".sea"; ".bin"; ".hqx"; ".uu"; ".jpg"; ".jpeg"; ".png";
    ".gif"; ".bmp"; ".svg"; ".ico"; ".tiff"; ".tif"; ".webp"; ".psd"; ".ai";
    ".eps"; ".raw"; ".cr2"; ".nef"; ".orf"; ".sr2"; ".mp3"; ".mp4"; ".avi";
    ".mov"; ".wmv"; ".flv"; ".mkv"; ".webm"; ".m4v"; ".3gp"; ".ogv"; ".wav";
    ".flac"; ".aac"; ".ogg"; ".wma"; ".pdf"; ".doc"; ".docx"; ".xls";
    ".xlsx"; ".ppt"; ".pptx"; ".odt"; ".ods"; ".odp"; ".rtf"; ".pages";
    ".numbers"; ".key"; ".woff"; ".woff2"; ".ttf"; ".eot"; ".otf"; ".pfb";
    ".pfm"; ".class"; ".jar"; ".war"; ".ear"; ".pyc"; ".pyo"; ".pyd";
    ".node"; ".so"; ".bundle"
  ].

Definition SKIP_FILES : list string :=
  [
    ".gitignore"; ".gitattributes"; ".gitmodules"; ".gitkeep"; ".DS_Store";
    "Thumbs.db"; "desktop.ini"; ".npmrc"; ".yarnrc"; ".bowerrc";
    ".travis.yml"; ".appveyor.yml"; ".circleci"; ".gitlab-ci.yml";
    ".buildkite"; "__pycache__"; "*.pyc"; "*.pyo"; "*.pyd"; ".coverage";
    "coverage.xml"; ".nyc_output"; "node_modules"; "bower_components";
    "vendor"; ".sass-cache"; ".tmp"; ".temp"; "logs"; "*.log";
    "npm-debug.log*"; "yarn-debug.log*"; "yarn-error.log*"
  ].

(** [d.get(k)] on a dict literal *)
Fixpoint lookup {A} (k : string) (d : list (string * A)) : option A :=
  match d with
  | [] => None
  | (k', v) :: r => if String.eqb k k' then Some v else lookup k r
  end.

(** the first entry of [MULTI_PART_EXTENSIONS], in the order of the literal,
    whose lower-cased key ends the name *)
Fixpoint multi_part_category (normalized_name : string)
    (d : list (string * string)) : option string :=
  match d with
  | [] => None
  | (multi_ext, category) :: r =>
      if Str.endswith normalized_name (Str.lower multi_ext) then Some category
      else multi_part_category normalized_name r
  end.

(** the first category of [SUPPORTED_EXTENSIONS] that lists the suffix *)
Fixpoint supported_category (suffix : string)
    (d : list (string * list string)) : option string :=
  match d with
  | [] => None
  | (category, extensions) :: r =>
      if Str.mem suffix extensions then Some category
      else supported_category suffix r
  end.

Definition any_keyword (keywords : list string) (s : string) : bool :=
  existsb (fun keyword => Str.contains keyword s) keywords.

(** Steps 3 and 4 of [get_file_category] *)
Definition category_by_suffix (filename normalized_name : string) : string :=
  let suffixes := Pathlib.suffixes filename in
  let fallback :=
    if any_keyword ["test"; "spec"] normalized_name then "text"
    else if any_keyword ["config"; "conf"; "cfg"] normalized_name then "config"
    else if any_keyword ["readme"; "license"; "changelog"] normalized_name then "text"
    else "text" in
  match suffixes with
  | [] => fallback
  | _ =>
      let last_suffix := Str.lower (List.last suffixes "") in
      if Str.mem last_suffix BINARY_EXTENSIONS then "binary"
      else match supported_category last_suffix SUPPORTED_EXTENSIONS with
           | Some category => category
           | None =>
               if (1 <? List.length suffixes)%nat then
                 match supported_category (Str.lower (Str.concat suffixes))
                         SUPPORTED_EXTENSIONS with
                 | Some category => category
                 | None => fallback
                 end
               else fallback
           end
  end.

Definition get_file_category (filename : string) : string :=
  if String.eqb filename "" then "unknown"
  else
    let normalized_name := Str.strip (Str.lower filename) in
    if Str.mem normalized_name SKIP_FILES then "skip"
    else match lookup normalized_name SPECIAL_FILES with
         | Some category => category
         | None =>
             match multi_part_category normalized_name MULTI_PART_EXTENSIONS with
             | Some category => category
             | None => category_by_suffix filename normalized_name
             end
         end.

Definition should_skip_file (filename : string) : bool :=
  Str.mem (get_file_category filename) ["skip"; "binary"].

Definition is_binary_file (filepath : string) : bool :=
  Str.mem (get_file_category filepath) ["binary"; "skip"].

End Config.

(** ** IEEE-754 binary64, the Python [float]

    A finite value is [Fin m e], the number [m * 2^e], kept canonical:
    [2^52 <= |m| < 2^53] with [-1074 <= e <= 971], or [|m| < 2^52] with
    [e = -1074], or [Fin 0 0] for zero.  Every operation computes the exact
    rational result and rounds it to nearest, ties to even.  The sign of a
    zero is not recorded: no operation of the program observes it. *)

Module Float64.

Inductive float :=
  | NaN
  | Inf (neg : bool)
  | Fin (m e : Z).

Definition emin : Z := -1074.
Definition emax_fin : Z := 971.

Definition scale_num (n e : Z) : Z := if e <? 0 then n * 2 ^ (- e) else n.
Definition scale_den (d e : Z) : Z := if e <? 0 then d else d * 2 ^ e.

(** [floor (log2 (n / d))] for positive [n] and [d] *)
Definition ilog2_ratio (n d : Z) : Z :=
  let l := Z.log2 n - Z.log2 d in
  if scale_den d l <=? scale_num n l then l else l - 1.

(** the integer nearest to [N / D], ties to even *)
Definition round_half_even (N D : Z) : Z :=
  let q := N / D in
  match 2 * (N mod D) ?= D with
  | Lt => q
  | Gt => q + 1
  | Eq => if Z.even q then q else q + 1
  end.

(** the binary64 value nearest to [n / d], for positive [n] and [d] *)
Definition round_pos (n d : Z) : float :=
  let e := Z.max (ilog2_ratio n d - 52) emin in
  let m := round_half_even (scale_num n e) (scale_den d e) in
  let m' := if m =? 2 ^ 53 then 2 ^ 52 else m in
  let e' := if m =? 2 ^ 53 then e + 1 else e in
  if m' =? 0 then Fin 0 0
  else if emax_fin <? e' then Inf false
  else Fin m' e'.

Definition opp (x : float) : float :=
  match x with
  | NaN => NaN
  | Inf s => Inf (negb s)
  | Fin m e => Fin (- m) e
  end.

(** the binary64 value nearest to [n / d], for positive [d] *)
Definition round_ratio (n d : Z) : float :=
  match n ?= 0 with
  | Eq => Fin 0 0
  | Gt => round_pos n d
  | Lt => opp (round_pos (- n) d)
  end.

(** the value of the decimal literal [n / d] *)
Definition lit (n d : Z) : float := round_ratio n d.

(** numerator and denominator of the dyadic number [m * 2^e] *)
Definition dy_num (m e : Z) : Z := if e <? 0 then m else m * 2 ^ e.
Definition dy_den (e : Z) : Z := if e <? 0 then 2 ^ (- e) else 1.

(** [m * 2^e] rounded; exact when the value is representable *)
Definition round_dyadic (m e : Z) : float :=
  round_ratio (dy_num m e) (dy_den e).

Definition add (x y : float) : float :=
  match x, y with
  | NaN, _ | _, NaN => NaN
  | Inf s, Inf t => if Bool.eqb s t then x else NaN
  | Inf _, _ => x
  | _, Inf _ => y
  | Fin m1 e1, Fin m2 e2 =>
      let e := Z.min e1 e2 in
      round_dyadic (m1 * 2 ^ (e1 - e) + m2 * 2 ^ (e2 - e)) e
  end.

Definition sub (x y : float) : float := add x (opp y).

Definition mul (x y : float) : float :=
  match x, y with
  | NaN, _ | _, NaN => NaN
  | Inf s, Inf t => Inf (xorb s t)
  | Inf s, Fin m _ | Fin m _, Inf s =>
      if m =? 0 then NaN else Inf (xorb s (m <? 0))
  | Fin m1 e1, Fin m2 e2 => round_dyadic (m1 * m2) (e1 + e2)
  end.

(** [x / y] on floats; Python raises on a zero divisor *)
Definition div (x y : float) : py float :=
  match x, y with
  | _, Fin 0 _ => Raise ZeroDivisionError
  | NaN, _ | _, NaN => Ok NaN
  | Inf _, Inf _ => Ok NaN
  | Inf s, Fin m _ => Ok (Inf (xorb s (m <? 0)))
  | Fin _ _, Inf _ => Ok (Fin 0 0)
  | Fin m1 e1, Fin m2 e2 =>
      let e := Z.min e1 e2 in
      let n := m1 * 2 ^ (e1 - e) in
      let d := m2 * 2 ^ (e2 - e) in
      Ok (if 0 <? d then round_ratio n d else round_ratio (- n) (- d))
  end.

(** [float(z)] *)
Definition of_int (z : Z) : py float :=
  match round_ratio z 1 with
  | Fin m e => Ok (Fin m e)
  | _ => Raise OverflowError
  end.

(** [float(z)] for the integers the program writes as constants *)
Definition of_small (z : Z) : float := round_ratio z 1.

(** [a / b] on integers: the exact quotient, correctly rounded *)
Definition int_truediv (a b : Z) : py float :=
  if b =? 0 then Raise ZeroDivisionError
  else match (if 0 <? b then round_ratio a b else round_ratio (- a) (- b)) with
       | Fin m e => Ok (Fin m e)
       | _ => Raise OverflowError
       end.

(** comparison of two finite values [m1 * 2^e1] and [m2 * 2^e2] *)
Definition compare_fin (m1 e1 m2 e2 : Z) : comparison :=
  let e := Z.min e1 e2 in
  (m1 * 2 ^ (e1 - e)) ?= (m2 * 2 ^ (e2 - e)).

Definition compare (x y : float) : option comparison :=
  match x, y with
  | NaN, _ | _, NaN => None
  | Inf s, Inf t =>
      Some (if s then (if t then Eq else Lt) else (if t then Gt else Eq))
  | Inf s, Fin _ _ => Some (if s then Lt else Gt)
  | Fin _ _, Inf s => Some (if s then Gt else Lt)
  | Fin m1 e1, Fin m2 e2 => Some (compare_fin m1 e1 m2 e2)
  end.

Definition ltb (x y : float) : bool :=
  match compare x y with Some Lt => true | _ => false end.
Definition leb (x y : float) : bool :=
  match compare x y with Some Lt | Some Eq => true | _ => false end.
Definition gtb (x y : float) : bool := ltb y x.
Definition geb (x y : float) : bool := leb y x.

(** Python compares an [int] with a [float] exactly, without rounding the
    integer *)
Definition compare_int (z : Z) (y : float) : option comparison :=
  compare (Fin z 0) y.

Definition int_ltb (z : Z) (y : float) : bool :=
  match compare_int z y with Some Lt => true | _ => false end.
Definition int_gtb (z : Z) (y : float) : bool :=
  match compare_int z y with Some Gt => true | _ => false end.
Definition int_geb (z : Z) (y : float) : bool :=
  match compare_int z y with Some Gt | Some Eq => true | _ => false end.

(** [min(x, y)]: the first argument unless the second is smaller *)
Definition min (x y : float) : float := if ltb y x then y else x.

(** [int(x)]: truncation towards zero *)
Definition trunc (x : float) : py Z :=
  match x with
  | Fin m e => Ok (if e <? 0 then Z.quot m (2 ^ (- e)) else m * 2 ^ e)
  | Inf _ => Raise OverflowError
  | NaN => Raise ValueError
  end.

(** [round(x, ndigits)] for [ndigits = 1, 2]: the exact value rounded to the
    decimal grid, ties to even, then converted back *)
Definition round_digits (ndigits : Z) (x : float) : float :=
  match x with
  | Fin m e =>
      let p := 10 ^ ndigits in
      let n := dy_num (m * p) e in
      let d := dy_den e in
      let k := if 0 <=? m then round_half_even n d
               else - round_half_even (- n) d in
      round_ratio k p
  | _ => x
  end.

End Float64.

(** ** File records *)

(** the [priority_breakdown] dict of [_calculate_priority_score] *)
Module Breakdown.
Record t := mk {
  base : Z;
  language : Z;
  importance : Z;
  framework : Z;
  complexity : Z;
  size : Z;
  content : Z;
  depth_penalty : Z
}.

(** the sum of the eight contributions *)
Definition total (b : t) : Z :=
  base b + language b + importance b + framework b + complexity b
  + size b + content b + depth_penalty b.
End Breakdown.

(** A file dict.  The first three keys come from the caller; the last four
    are written by the prioritizer. *)
Record FileRecord := mkFile {
  f_path : option pyval;
  f_size : option pyval;
  f_content : option pyval;
  f_priority : option Z;
  f_language : option string;
  f_complexity : option Float64.float;
  f_priority_breakdown : option Breakdown.t
}.

(** [file_info.get("path", "")], [.get("size", 0)], [.get("content", "")],
    [.get("priority", 100)] *)
Definition get_path (f : FileRecord) : pyval := default (PyStr "") (f_path f).
Definition get_size (f : FileRecord) : pyval := default (PyInt 0) (f_size f).
Definition get_content (f : FileRecord) : pyval := default (PyStr "") (f_content f).
Definition get_priority (f : FileRecord) : Z := default 100 (f_priority f).

(** a record as the retrieval layer builds it *)
Definition file (path : string) (content : string) (size : Z) : FileRecord :=
  mkFile (Some (PyStr path)) (Some (PyInt size)) (Some (PyStr content))
         None None None None.

(** ** [utils.py] *)

Module ValidationUtils.

(** [validate_file_path]: a falsy value is rejected before any string
    operation; any other value that is not a [str] makes [in] raise. *)
Definition validate_file_path (file_path : pyval) : py bool :=
  if negb (truthy file_path) then Ok false
  else match file_path with
       | PyStr s =>
           Ok (if Str.contains ".." s then false
               else if Str.startswith s "/" then false
               else if ((1 <? String.length s)%nat
                        && bool_decide (Str.nth 1 s = Some ":"%char)) then false
               else if Str.contains Str.backslash s then false
               else if Str.startswith s "./" || Str.contains "/./" s then false
               else true)
       | _ => Raise TypeError
       end.

End ValidationUtils.

(** ** The modules [re] and [json] *)

Inductive re_flag := IGNORECASE | MULTILINE | DOTALL.

#[warnings="-register-all"]
Inductive json :=
  | JNull
  | JBool (b : bool)
  | JNumber
  | JString (s : string)
  | JArray (l : list json)
  | JObject (items : list (string * json)).

Class Engine := {
  (** [re.search(pattern, text, flags)]: [None], or the groups of the
      first match *)
  re_search : string -> list re_flag -> string -> option (list string);
  (** [re.match(pattern, text)] *)
  re_match : string -> string -> option (list string);
  (** [re.findall(pattern, text, flags)]: the groups of every match, the
      whole match for a pattern without groups *)
  re_findall : string -> list re_flag -> string -> list (list string);
  (** [json.loads(text)]: [None] for [JSONDecodeError]; an object lists
      each key once *)
  json_loads : string -> option json
}.

Section WithEngine.
Context `{Engine}.

(** [re.search(...)] as a condition *)
Definition re_found (pattern : string) (flags : list re_flag) (text : string) : bool :=
  bool_decide (is_Some (re_search pattern flags text)).

(** [len(re.findall(...))] *)
Definition re_count (pattern : string) (flags : list re_flag) (text : string) : Z :=
  Z.of_nat (List.length (re_findall pattern flags text)).

(** [sum(len(re.findall(p, text, flags)) for p in patterns)] *)
Definition re_count_all (patterns : list string) (flags : list re_flag) (text : string) : Z :=
  List.fold_left (fun acc p => acc + re_count p flags text) patterns 0.

End WithEngine.

(** ** [file_processor.py]: [LanguageDetector] *)

Module LanguageDetector.

Definition framework_patterns : list (string * list (string * list string)) :=
  [
    ("python",
      [("django", ["from django"; "import django"; "DJANGO_SETTINGS_MODULE"; "manage\.py"; "settings\.py"]);
       ("flask", ["from flask"; "import flask"; "Flask\(__name__\)"; "@app\.route"]);
       ("fastapi", ["from fastapi"; "import fastapi"; "FastAPI\("; "@app\.(get|post|put|delete)"]);
       ("pytest", ["import pytest"; "def test_"; "@pytest\."; "conftest\.py"])]);
    ("javascript",
      [("react", ["import.*react"; "from.*react"; "React\."; "jsx|tsx"; "useState|useEffect"]);
       ("vue", ["import.*vue"; "from.*vue"; "Vue\."; "<template>"; "\.vue"]);
       ("angular", ["@angular"; "@Component"; "@Injectable"; "@NgModule"]);
       ("express", ["require.*express"; "import.*express"; "app\.get|app\.post"; "express\(\)"]);
       ("nextjs", ["next/"; "getStaticProps"; "getServerSideProps"; "next\.config"])]);
    ("typescript",
      [("angular", ["@angular"; "@Component"; "@Injectable"]);
       ("nestjs", ["@nestjs"; "@Controller"; "@Injectable"; "@Module"])])
  ].

Definition code_extensions : list string :=
  [
    ".py"; ".js"; ".ts"; ".tsx"; ".jsx"; ".java"; ".cpp"; ".c"; ".h"; ".hpp";
    ".cs"; ".go"; ".rs"; ".php"; ".rb"; ".swift"; ".kt"; ".scala"; ".clj";
    ".hs"; ".ml"; ".elm"; ".dart"; ".lua"; ".r"; ".m"; ".sh"; ".ps1"; ".bat"
  ].

Definition data_extensions : list string :=
  [
    ".json"; ".xml"; ".yaml"; ".yml"; ".toml"; ".ini"; ".conf"; ".cfg";
    ".csv"; ".tsv"; ".sql"; ".log"; ".txt"
  ].

Definition markup_extensions : list string :=
  [
    ".html"; ".htm"; ".xhtml"; ".xml"; ".svg"; ".md"; ".rst"; ".tex"
  ].

Definition extension_map : list (string * string) :=
  [
    (".py", "python"); (".pyx", "python"); (".pyi", "python");
    (".js", "javascript"); (".jsx", "javascript"); (".mjs", "javascript");
    (".ts", "typescript"); (".tsx", "typescript"); (".java", "java");
    (".cpp", "cpp"); (".cxx", "cpp"); (".cc", "cpp"); (".c", "cpp");
    (".hpp", "cpp"); (".h", "cpp"); (".hxx", "cpp"); (".cs", "csharp");
    (".go", "go"); (".rs", "rust"); (".php", "php"); (".phtml", "php");
    (".rb", "ruby"); (".rake", "ruby"); (".swift", "swift");
    (".kt", "kotlin"); (".kts", "kotlin"); (".scala", "scala");
    (".sh", "shell"); (".bash", "shell"); (".zsh", "shell");
    (".ps1", "powershell"); (".psm1", "powershell"); (".html", "html");
    (".htm", "html"); (".xhtml", "html"); (".css", "css"); (".scss", "css");
    (".sass", "css"); (".less", "css"); (".json", "json"); (".xml", "xml");
    (".yml", "yaml"); (".yaml", "yaml"); (".md", "markdown");
    (".markdown", "markdown"); (".txt", "text"); (".sql", "sql");
    (".dockerfile", "dockerfile")
  ].

Definition content_patterns : list (string * list string) :=
  [
    ("python",
     ["def\s+\w+\s*\("; "import\s+\w+"; "from\s+\w+\s+import"; "class\s+\w+"]);
    ("javascript",
     ["function\s+\w+\s*\("; "var\s+\w+\s*="; "let\s+\w+\s*="; "const\s+\w+\s*="; "require\s*\("]);
    ("typescript",
     ["interface\s+\w+"; "type\s+\w+\s*="; "enum\s+\w+"; ":\s*(string|number|boolean)"]);
    ("java",
     ["public\s+class\s+\w+"; "public\s+static\s+void\s+main"; "import\s+java\."]);
    ("cpp",
     ["#include\s*<\w+>"; "using\s+namespace"; "std::"; "int\s+main\s*\("]);
    ("csharp",
     ["using\s+System"; "namespace\s+\w+"; "public\s+class\s+\w+"; "Console\.WriteLine"]);
    ("go",
     ["package\s+\w+"; "import\s*\("; "func\s+\w+\s*\("; "var\s+\w+\s+\w+"]);
    ("rust",
     ["fn\s+\w+\s*\("; "use\s+\w+"; "struct\s+\w+"; "impl\s+\w+"]);
    ("php",
     ["<\?php"; "\$\w+\s*="; "function\s+\w+\s*\("; "class\s+\w+"]);
    ("ruby",
     ["def\s+\w+"; "class\s+\w+"; "require\s+"; "puts\s+"]);
    ("html",
     ["<[^>]+>.*</\w+>"]);
    ("css",
     ["[\w-]+\s*:\s*[^;]+\s*;"; "@media"; "\.[\w-]+\s*\{"; "#[\w-]+\s*\{"]);
    ("json",
     ["^\s*{.*}\s*$"; "^\s*\[.*\]\s*$"]);
    ("yaml",
     ["^\s*\w+\s*:"; "^\s*-\s+\w+"]);
    ("xml",
     ["<\?xml"; "<\w+.*?>.*</\w+>"]);
    ("sql",
     ["SELECT\s+"; "INSERT\s+INTO"; "UPDATE\s+"; "DELETE\s+FROM"]);
    ("dockerfile",
     ["FROM\s+"; "RUN\s+"; "COPY\s+"; "WORKDIR\s+"])
  ].

Definition complexity_indicators : list (string * list string) :=
  [
    ("python",
     ["\bif\b"; "\belse\b"; "\belif\b"; "\bfor\b"; "\bwhile\b"; "\btry\b"; "\bexcept\b"; "\bwith\b"; "\bclass\b"; "\bdef\b"]);
    ("javascript",
     ["\bif\b"; "\belse\b"; "\bfor\b"; "\bwhile\b"; "\bswitch\b"; "\bcatch\b"; "\bfunction\b"; "\bclass\b"; "=>"; "\?.*:"]);
    ("typescript",
     ["\bif\b"; "\belse\b"; "\bfor\b"; "\bwhile\b"; "\bswitch\b"; "\bcatch\b"; "\bfunction\b"; "\bclass\b"; "=>"; "\?.*:"]);
    ("java",
     ["\bif\b"; "\belse\b"; "\bfor\b"; "\bwhile\b"; "\bswitch\b"; "\bcatch\b"; "\bclass\b"; "\bpublic\b"; "\bprivate\b"]);
    ("cpp",
     ["\bif\b"; "\belse\b"; "\bfor\b"; "\bwhile\b"; "\bswitch\b"; "\bcatch\b"; "\bclass\b"; "\bstruct\b"; "\btemplate\b"])
  ].

Definition primary_extension_mapping : list (string * string) :=
  [
    ("python", ".py"); ("javascript", ".js"); ("typescript", ".ts");
    ("java", ".java"); ("cpp", ".cpp"); ("csharp", ".cs"); ("go", ".go");
    ("rust", ".rs"); ("php", ".php"); ("ruby", ".rb"); ("json", ".json");
    ("xml", ".xml"); ("yaml", ".yml"); ("html", ".html"); ("css", ".css");
    ("markdown", ".md")
  ].

Definition detect_language_by_extension (filename : string) : string :=
  if String.eqb filename "" then "unknown"
  else
    let ext := Str.lower (Pathlib.suffix filename) in
    default "unknown" (Config.lookup ext extension_map).

(** the same call on a dict value: [Path(5)] raises, a falsy value returns
    before [Path] is built *)
Definition detect_language_by_extension_val (filename : pyval) : py string :=
  if negb (truthy filename) then Ok "unknown"
  else match filename with
       | PyStr s => Ok (detect_language_by_extension s)
       | _ => Raise TypeError
       end.

(** [Path(path).suffix.lower()] on a dict value *)
Definition suffix_val (path : pyval) : py string :=
  match path with
  | PyStr s => Ok (Str.lower (Pathlib.suffix s))
  | _ => Raise TypeError
  end.

Definition _get_primary_extension_for_language (language : string) : string :=
  default ".txt" (Config.lookup language primary_extension_mapping).

(** [max(scores.items(), key=lambda x: x[1])]: the first entry with the
    greatest score *)
Fixpoint max_score (best : string * Z) (scores : list (string * Z)) : string * Z :=
  match scores with
  | [] => best
  | (l, s) :: r => if best.2 <? s then max_score (l, s) r else max_score best r
  end.

Section WithEngine.
Context `{Engine}.

Definition shebang_language (content : string) : option string :=
  if re_found "^#!/usr/bin/env python|^#!/usr/bin/python|^#.*python" [] content
  then Some "python"
  else if re_found "^#!/bin/bash|^#!/bin/sh" [] content then Some "shell"
  else if re_found "^#!/usr/bin/env node" [] content then Some "javascript"
  else None.

(** the [scores] dict: the languages with a positive score, in the order of
    [patterns] *)
Definition content_scores (content_sample : string) : list (string * Z) :=
  List.filter (fun ls => 0 <? ls.2)
    (List.map (fun lp => (lp.1, re_count_all lp.2 [IGNORECASE; MULTILINE] content_sample))
       content_patterns).

Definition detect_language_by_content (content filename : string) : string :=
  if String.eqb content "" then "unknown"
  else
    let ext_lang :=
      if String.eqb filename "" then "unknown"
      else detect_language_by_extension filename in
    if negb (String.eqb ext_lang "unknown") then ext_lang
    else
      let content_sample := Str.take 1000 content in
      match shebang_language content with
      | Some language => language
      | None =>
          match content_scores content_sample with
          | [] => "text"
          | first :: rest => (max_score first rest).1
          end
      end.

(** the call [detect_language_by_content(content, path)] on dict values, at
    the two call sites: [content] is truthy and [path] did not resolve by
    extension, so a [content] that is not a [str] reaches [content[:1000]] *)
Definition detect_language_by_content_val (content path : pyval) : py string :=
  match content with
  | PyStr c =>
      Ok (detect_language_by_content c (match path with PyStr s => s | _ => "" end))
  | _ => Raise TypeError
  end.

Definition calculate_complexity (content language : string) : py Float64.float :=
  if String.eqb content "" || String.eqb (Str.strip content) "" then
    Ok (Float64.lit 1 1)
  else
    let total_lines := Z.of_nat (Str.count_lines content) in
    if total_lines =? 0 then Ok (Float64.lit 1 1)
    else
      let patterns :=
        default (default [] (Config.lookup "python" complexity_indicators))
                (Config.lookup language complexity_indicators) in
      let complexity_count := re_count_all patterns [IGNORECASE] content in
      complexity_ratio ← Float64.int_truediv complexity_count total_lines;
      let base_complexity :=
        Float64.add (Float64.lit 1 1) (Float64.mul complexity_ratio (Float64.lit 9 1)) in
      Ok (Float64.min base_complexity (Float64.lit 10 1)).

(** *** [detect_languages] *)

(** one value of the [language_stats] defaultdict *)
Record lang_stats := mkStats {
  ls_size : Z;
  ls_count : Z;
  ls_code_size : Z;
  ls_code_count : Z
}.

(** the defaultdict, in insertion order, and the four running totals *)
Record lang_acc := mkAcc {
  language_stats : list (string * lang_stats);
  total_size : Z;
  total_count : Z;
  total_code_size : Z;
  total_code_count : Z
}.

Definition add_file (size : Z) (is_code_file : bool) (st : lang_stats) : lang_stats :=
  mkStats (ls_size st + size) (ls_count st + 1)
          (if is_code_file then ls_code_size st + size else ls_code_size st)
          (if is_code_file then ls_code_count st + 1 else ls_code_count st).

(** [language_stats[language]] updated in place; a new key goes last *)
Fixpoint bump (language : string) (size : Z) (is_code_file : bool)
    (d : list (string * lang_stats)) : list (string * lang_stats) :=
  match d with
  | [] => [(language, add_file size is_code_file (mkStats 0 0 0 0))]
  | (l, st) :: r =>
      if String.eqb l language then (l, add_file size is_code_file st) :: r
      else (l, st) :: bump language size is_code_file r
  end.

(** the body of the loop over [files] *)
Definition scan_file (acc : lang_acc) (file_item : FileRecord) : py lang_acc :=
  let path := get_path file_item in
  let content := get_content file_item in
  match get_size file_item with
  | PyInt size =>
      if size <? 10 then Ok acc
      else
        by_ext ← detect_language_by_extension_val path;
        language ← (if String.eqb by_ext "unknown" && truthy content
                    then detect_language_by_content_val content path
                    else Ok by_ext);
        ext ← suffix_val path;
        let is_code_file := Str.mem ext code_extensions in
        Ok (mkAcc (bump language size is_code_file (language_stats acc))
                  (total_size acc + size) (total_count acc + 1)
                  (if is_code_file then total_code_size acc + size else total_code_size acc)
                  (if is_code_file then total_code_count acc + 1 else total_code_count acc))
  | _ => Raise TypeError
  end.

Fixpoint scan_files (acc : lang_acc) (files : list FileRecord) : py lang_acc :=
  match files with
  | [] => Ok acc
  | f :: r => acc' ← scan_file acc f; scan_files acc' r
  end.

(** [part / whole * 100 if whole > 0 else 0] *)
Definition percentage (part whole : Z) : py Float64.float :=
  if 0 <? whole then
    r ← Float64.int_truediv part whole;
    Ok (Float64.mul r (Float64.of_small 100))
  else Ok (Float64.Fin 0 0).

Definition weighted_percentage (acc : lang_acc) (stats : lang_stats) : py Float64.float :=
  size_percentage ← percentage (ls_size stats) (total_size acc);
  count_percentage ← percentage (ls_count stats) (total_count acc);
  if (0 <? total_code_size acc) && (0 <? ls_code_size stats) then
    r ← Float64.int_truediv (ls_code_size stats) (total_code_size acc);
    let code_size_percentage := Float64.mul r (Float64.of_small 100) in
    code_count_percentage ← percentage (ls_code_count stats) (total_code_count acc);
    Ok (Float64.add
          (Float64.add
             (Float64.add (Float64.mul size_percentage (Float64.lit 4 10))
                          (Float64.mul count_percentage (Float64.lit 2 10)))
             (Float64.mul code_size_percentage (Float64.lit 3 10)))
          (Float64.mul code_count_percentage (Float64.lit 1 10)))
  else
    Ok (Float64.add (Float64.mul size_percentage (Float64.lit 6 10))
                    (Float64.mul count_percentage (Float64.lit 4 10))).

(** the entry of [language_percentages] for one language, if it clears the
    threshold *)
Definition language_entry (acc : lang_acc) (language : string) (stats : lang_stats)
    : py (option Float64.float) :=
  w ← weighted_percentage acc stats;
  if Float64.geb w (Float64.lit 3 1) then
    let w' :=
      if (ls_code_count stats =? 0) && (0 <? ls_count stats)
         && Str.mem (_get_primary_extension_for_language language) data_extensions
      then Float64.mul w (Float64.lit 7 10)
      else w in
    Ok (Some (Float64.round_digits 1 w'))
  else Ok None.

Fixpoint language_percentages (acc : lang_acc) (d : list (string * lang_stats))
    : py (list (string * Float64.float)) :=
  match d with
  | [] => Ok []
  | (language, stats) :: r =>
      e ← language_entry acc language stats;
      rest ← language_percentages acc r;
      Ok (match e with Some v => (language, v) :: rest | None => rest end)
  end.

(** [sorted(d.items(), key=lambda x: x[1], reverse=True)]: stable *)
Fixpoint insert_desc (x : string * Float64.float)
    (l : list (string * Float64.float)) : list (string * Float64.float) :=
  match l with
  | [] => [x]
  | y :: r => if Float64.ltb x.2 y.2 then y :: insert_desc x r else x :: l
  end.

Definition sort_desc (l : list (string * Float64.float)) : list (string * Float64.float) :=
  List.fold_right insert_desc [] l.

(** [d[k] = f(d[k])] *)
Fixpoint update {A} (k : string) (f : A -> A) (d : list (string * A)) : list (string * A) :=
  match d with
  | [] => []
  | (k', v) :: r => if String.eqb k' k then (k', f v) :: r else (k', v) :: update k f r
  end.

(** [min(top_percentage - 50, 20)]: the integer [20], or the float *)
Definition redistribution (top_percentage : Float64.float) : Z + Float64.float :=
  let d := Float64.sub top_percentage (Float64.of_small 50) in
  if Float64.int_ltb 20 d then inl 20 else inr d.

Definition redistribution_float (r : Z + Float64.float) : Float64.float :=
  match r with
  | inl z => Float64.of_small z
  | inr d => d
  end.

(** [redistribution / len(code_languages)] *)
Definition boost_per_lang (r : Z + Float64.float) (n : Z) : py Float64.float :=
  match r with
  | inl z => Float64.int_truediv z n
  | inr d => fn ← Float64.of_int n; Float64.div d fn
  end.

(** the final balancing step on the sorted dict *)
Definition rebalance (acc : lang_acc) (sorted_languages : list (string * Float64.float))
    : py (list (string * Float64.float)) :=
  match sorted_languages with
  | [] => Ok []
  | (top_lang, top_percentage) :: _ =>
      let top_code_count :=
        default 0 (ls_code_count <$> Config.lookup top_lang (language_stats acc)) in
      if Float64.int_ltb 70 top_percentage && (top_code_count =? 0) then
        let red := redistribution top_percentage in
        let lowered :=
          update top_lang
            (fun _ => Float64.sub top_percentage (redistribution_float red))
            sorted_languages in
        let code_languages :=
          List.map fst
            (List.filter
               (fun ls => (0 <? ls_code_count ls.2)
                          && bool_decide (is_Some (Config.lookup ls.1 sorted_languages)))
               (language_stats acc)) in
        match code_languages with
        | [] => Ok lowered
        | _ =>
            boost ← boost_per_lang red (Z.of_nat (List.length code_languages));
            Ok (List.fold_left
                  (fun d lang => update lang (fun v => Float64.add v boost) d)
                  code_languages lowered)
        end
      else Ok sorted_languages
  end.

Definition detect_languages (files : list FileRecord)
    : py (list (string * Float64.float)) :=
  acc ← scan_files (mkAcc [] 0 0 0 0) files;
  percentages ← language_percentages acc (language_stats acc);
  balanced ← rebalance acc (sort_desc percentages);
  Ok (sort_desc (List.map (fun kv => (kv.1, Float64.round_digits 1 kv.2)) balanced)).

Definition detect_primary_language (files : list FileRecord) : py string :=
  languages ← detect_languages files;
  Ok (match languages with
      | [] => "unknown"
      | (language, _) :: _ => language
      end).

(** *** [detect_frameworks] *)

(** the score of one framework on one file *)
Definition framework_score (patterns : list string) (filename content_sample : string) : Z :=
  List.fold_left
    (fun score pattern =>
       score + (if re_found pattern [IGNORECASE] filename then 2 else 0)
       + re_count pattern [IGNORECASE; MULTILINE] content_sample)
    patterns 0.

(** [framework_scores[framework] += score] on the defaultdict *)
Fixpoint add_score (framework : string) (score : Z) (d : list (string * Z))
    : list (string * Z) :=
  match d with
  | [] => [(framework, score)]
  | (k, v) :: r =>
      if String.eqb k framework then (k, v + score) :: r
      else (k, v) :: add_score framework score r
  end.

Definition score_file (patterns : list (string * list string))
    (framework_scores : list (string * Z)) (file_info : FileRecord)
    : py (list (string * Z)) :=
  let content := get_content file_info in
  if negb (truthy content) then Ok framework_scores
  else
    match get_path file_info, content with
    | PyStr path, PyStr c =>
        let filename := Str.lower (Pathlib.name path) in
        Ok (List.fold_left
              (fun scores fp =>
                 let score := framework_score fp.2 filename (Str.take 5000 c) in
                 if 0 <? score then add_score fp.1 score scores else scores)
              patterns framework_scores)
    | _, _ => Raise TypeError
    end.

Fixpoint score_files (patterns : list (string * list string))
    (framework_scores : list (string * Z)) (files : list FileRecord)
    : py (list (string * Z)) :=
  match files with
  | [] => Ok framework_scores
  | f :: r => scores ← score_file patterns framework_scores f; score_files patterns scores r
  end.

(** [list.sort(key=score, reverse=True)]: stable *)
Fixpoint insert_by_score (x : string * Z) (l : list (string * Z)) : list (string * Z) :=
  match l with
  | [] => [x]
  | y :: r => if x.2 <? y.2 then y :: insert_by_score x r else x :: l
  end.

Definition detect_frameworks (files : list FileRecord) (primary_language : string)
    : py (list string) :=
  primary_language ← (if String.eqb primary_language ""
                      then detect_primary_language files
                      else Ok primary_language);
  match Config.lookup primary_language framework_patterns with
  | None => Ok []
  | Some patterns =>
      framework_scores ← score_files patterns [] files;
      let detected := List.filter (fun fs => 3 <=? fs.2) framework_scores in
      Ok (List.map fst (take 3 (List.fold_right insert_by_score [] detected)))
  end.

End WithEngine.

End LanguageDetector.

(** ** [file_processor.py]: [DependencyExtractor] *)

Module DependencyExtractor.

(** [Path(path).name.lower()] on a dict value *)
Definition filename_of (path : pyval) : py string :=
  match path with
  | PyStr s => Ok (Str.lower (Pathlib.name s))
  | _ => Raise TypeError
  end.

(** a [str] method or a [re] call on a dict value *)
Definition str_of (e : exn) (v : pyval) : py string :=
  match v with
  | PyStr s => Ok s
  | _ => Raise e
  end.

(** [match[i]] of a [findall] result *)
Definition group (i : nat) (m : list string) : string := default "" (m !! i).

(** [match[0] or match[1]] *)
Definition group_0_or_1 (m : list string) : string :=
  if String.eqb (group 0 m) "" then group 1 m else group 0 m.

Section WithEngine.
Context `{Engine}.

Definition requirement_of_line (line : string) : list string :=
  let line := Str.strip line in
  if negb (String.eqb line "") && negb (Str.startswith line "#")
     && negb (Str.startswith line "-")
  then match re_match "^([a-zA-Z0-9_-]+)" line with
       | Some m => [group 0 m]
       | None => []
       end
  else [].

Definition quoted_names (text : string) : list string :=
  List.map (group 0)
    (re_findall ("[" +:+ Str.dquote +:+ "\']([a-zA-Z0-9_-]+)") [] text).

Definition _extract_python_deps (file_info : FileRecord) : py (list string) :=
  let content := get_content file_info in
  filename ← filename_of (get_path file_info);
  if Str.mem filename ["requirements.txt"; "requirements-dev.txt"; "dev-requirements.txt"]
  then
    c ← str_of AttributeError content;
    Ok (List.concat (List.map requirement_of_line (Str.split (ascii_of_nat 10) c)))
  else if String.eqb filename "setup.py" then
    c ← str_of TypeError content;
    Ok (match re_search "install_requires\s*=\s*\[(.*?)\]" [DOTALL] c with
        | Some m => quoted_names (group 0 m)
        | None => []
        end)
  else if String.eqb filename "pyproject.toml" then
    c ← str_of TypeError content;
    Ok (match re_search "dependencies\s*=\s*\[(.*?)\]" [DOTALL] c with
        | Some m => quoted_names (group 0 m)
        | None => []
        end)
  else if Str.endswith filename ".py" then
    c ← str_of TypeError content;
    Ok (List.filter
          (fun dep => negb (String.eqb dep "") && negb (Str.startswith dep "_"))
          (List.map group_0_or_1
             (re_findall "(?:^from\s+([a-zA-Z0-9_]+)|^import\s+([a-zA-Z0-9_]+))"
                [MULTILINE] c)))
  else Ok [].

(** [package_data[dep_type].keys()] under the guard
    [dep_type in package_data] *)
Definition package_keys (package_data : json) (dep_type : string) : py (list string) :=
  match package_data with
  | JObject items =>
      match Config.lookup dep_type items with
      | None => Ok []
      | Some (JObject deps) => Ok (List.map fst deps)
      | Some _ => Raise AttributeError
      end
  | JArray l =>
      if existsb (fun v => match v with
                           | JString s => String.eqb s dep_type
                           | _ => false
                           end) l
      then Raise TypeError else Ok []
  | JString s => if Str.contains dep_type s then Raise TypeError else Ok []
  | _ => Raise TypeError
  end.

Definition js_import_patterns : list string :=
  [ "import.*?from\s+[\'" +:+ Str.dquote +:+ "]([^\'" +:+ Str.dquote +:+ "]+)[\'"
      +:+ Str.dquote +:+ "]";
    "require\([\'" +:+ Str.dquote +:+ "]([^\'" +:+ Str.dquote +:+ "]+)[\'"
      +:+ Str.dquote +:+ "]\)";
    "import\([\'" +:+ Str.dquote +:+ "]([^\'" +:+ Str.dquote +:+ "]+)[\'"
      +:+ Str.dquote +:+ "]\)";
    "import\s+[\'" +:+ Str.dquote +:+ "]([^\'" +:+ Str.dquote +:+ "]+)[\'"
      +:+ Str.dquote +:+ "]" ].

(** the package name of one import target; relative imports give nothing *)
Definition base_package (target : string) : list string :=
  if Str.startswith target "." then []
  else
    let parts := Str.split "/" target in
    let base_pkg := default "" (parts !! 0%nat) in
    if Str.startswith base_pkg "@" && (2 <=? List.length parts)%nat
    then [default "" (parts !! 0%nat) +:+ "/" +:+ default "" (parts !! 1%nat)]
    else [base_pkg].

Definition _extract_js_deps (file_info : FileRecord) : py (list string) :=
  let content := get_content file_info in
  filename ← filename_of (get_path file_info);
  if String.eqb filename "package.json" then
    c ← str_of TypeError content;
    match json_loads c with
    | None => Ok []
    | Some package_data =>
        d1 ← package_keys package_data "dependencies";
        d2 ← package_keys package_data "devDependencies";
        d3 ← package_keys package_data "peerDependencies";
        Ok (d1 ++ d2 ++ d3)
    end
  else if existsb (Str.endswith filename) [".js"; ".ts"; ".jsx"; ".tsx"] then
    c ← str_of TypeError content;
    Ok (List.concat
          (List.map
             (fun pattern =>
                List.concat (List.map (fun m => base_package (group 0 m))
                               (re_findall pattern [] c)))
             js_import_patterns))
  else Ok [].

Definition _extract_java_deps (file_info : FileRecord) : py (list string) :=
  let content := get_content file_info in
  filename ← filename_of (get_path file_info);
  if String.eqb filename "pom.xml" then
    c ← str_of TypeError content;
    Ok (List.map (group 0) (re_findall "<artifactId>(.*?)</artifactId>" [] c))
  else if Str.mem filename ["build.gradle"; "build.gradle.kts"] then
    c ← str_of TypeError content;
    Ok (List.map (group 1)
          (re_findall
             ("(?:implementation|compile|api)\s+[\'" +:+ Str.dquote +:+ "]([^:]+):([^:\'"
                +:+ Str.dquote +:+ "]+)") [] c))
  else Ok [].

Definition _extract_go_deps (file_info : FileRecord) : py (list string) :=
  let content := get_content file_info in
  filename ← filename_of (get_path file_info);
  if String.eqb filename "go.mod" then
    c ← str_of TypeError content;
    Ok (List.map (group 0) (re_findall "require\s+([^\s]+)" [] c))
  else if Str.endswith filename ".go" then
    c ← str_of TypeError content;
    Ok (List.map group_0_or_1
          (re_findall
             ("import\s+(?:" +:+ Str.dquote +:+ "([^" +:+ Str.dquote +:+ "]+)"
                +:+ Str.dquote +:+ "|`([^`]+)`)") [] c))
  else Ok [].

Definition cargo_dep_of_line (line : string) : list string :=
  let line := Str.strip line in
  if Str.contains "=" line && negb (Str.startswith line "#")
  then [Str.strip (default "" (Str.split "=" line !! 0%nat))]
  else [].

Definition _extract_rust_deps (file_info : FileRecord) : py (list string) :=
  let content := get_content file_info in
  filename ← filename_of (get_path file_info);
  if String.eqb filename "cargo.toml" then
    c ← str_of TypeError content;
    Ok (match re_search "\[dependencies\](.*?)(?:\[|$)" [DOTALL] c with
        | Some m =>
            List.concat (List.map cargo_dep_of_line
                           (Str.split (ascii_of_nat 10) (group 0 m)))
        | None => []
        end)
  else Ok [].

Definition _extract_csharp_deps (file_info : FileRecord) : py (list string) :=
  let content := get_content file_info in
  filename ← filename_of (get_path file_info);
  if Str.endswith filename ".csproj" then
    c ← str_of TypeError content;
    Ok (List.map (group 0)
          (re_findall
             ("<PackageReference\s+Include=" +:+ Str.dquote +:+ "([^" +:+ Str.dquote
                +:+ "]+)" +:+ Str.dquote) [] c))
  else Ok [].

(** the [extractors] dict *)
Definition extractors : list (string * (FileRecord -> py (list string))) :=
  [ ("python", _extract_python_deps);
    ("javascript", _extract_js_deps);
    ("typescript", _extract_js_deps);
    ("java", _extract_java_deps);
    ("go", _extract_go_deps);
    ("rust", _extract_rust_deps);
    ("csharp", _extract_csharp_deps) ].

(** the loop over [files]: a file whose extractor raises is skipped, and
    the loop stops once the set holds more than 100 names *)
Fixpoint collect (extractor : FileRecord -> py (list string))
    (all_deps : gset string) (files : list FileRecord) : gset string :=
  match files with
  | [] => all_deps
  | file_info :: rest =>
      match extractor file_info with
      | Ok deps =>
          let all_deps' := all_deps ∪ list_to_set deps in
          if (100 <? size all_deps')%nat then all_deps'
          else collect extractor all_deps' rest
      | Raise _ => collect extractor all_deps rest
      end
  end.

Definition keep_dep (dep : string) : bool :=
  (1 <? String.length dep)%nat && (String.length dep <? 50)%nat
  && negb (Str.startswith dep ".").

Definition extract_dependencies (files : list FileRecord) (primary_language : string)
    : list string :=
  match Config.lookup primary_language extractors with
  | None => []
  | Some extractor =>
      let all_deps := collect extractor ∅ files in
      let filtered_deps := List.filter keep_dep (elements all_deps) in
      take 30 (merge_sort String.le filtered_deps)
  end.

End WithEngine.

End DependencyExtractor.

(** ** [file_processor.py]: [FilePrioritizer] *)

Module FilePrioritizer.

(** the [weights] dict *)
Definition weight_language_match : Z := 200.
Definition weight_complexity : Z := 50.
Definition weight_depth_penalty : Z := 25.

Definition category_priorities : list (string * Z) :=
  [
    ("python", 800); ("javascript", 750); ("typescript", 750); ("java", 700);
    ("cpp", 650); ("csharp", 650); ("go", 650); ("rust", 650); ("php", 600);
    ("ruby", 600); ("swift", 580); ("kotlin", 580); ("scala", 570);
    ("dockerfile", 900); ("makefile", 800); ("config", 550); ("yaml", 500);
    ("json", 500); ("xml", 400); ("markdown", 400); ("text", 300);
    ("binary", 0); ("skip", 0)
  ].

Definition importance_patterns : list (string * Z) :=
  [
    ("readme.md", 300); ("readme.txt", 250); ("changelog.md", 150);
    ("license", 100); ("contributing.md", 100); ("dockerfile", 400);
    ("docker-compose.yml", 350); ("makefile", 300); ("package.json", 250);
    ("requirements.txt", 200); ("setup.py", 200); ("pyproject.toml", 200);
    ("cargo.toml", 200); ("go.mod", 200); ("pom.xml", 180);
    ("build.gradle", 180); (".gitignore", 100); ("main.py", 300);
    ("main.js", 300); ("index.js", 300); ("index.html", 250);
    ("app.py", 300); ("server.py", 250); ("manage.py", 200);
    ("config.py", 180); ("settings.py", 200); ("wsgi.py", 150);
    ("asgi.py", 150)
  ].

Definition framework_bonus_patterns : list (string * Z) :=
  [
    ("\bfrom django\b|\bimport django\b", 150);
    ("\bfrom flask\b|\bFlask\(", 150);
    ("\bfrom fastapi\b|\bFastAPI\(", 150);
    ("\bfastapi\b.*\bApp", 100);
    (("\bfrom ['" +:+ Str.backslash +:+ Str.dquote +:+ "]react['" +:+ Str.backslash +:+ Str.dquote +:+ "]|\bimport.*react"), 150);
    (("\bfrom ['" +:+ Str.backslash +:+ Str.dquote +:+ "]vue['" +:+ Str.backslash +:+ Str.dquote +:+ "]|\bVue\."), 150);
    ("\b@angular\b|\bAngular", 150);
    ("\bexpress\(\)|\brequire.*express", 120);
    ("\bnext/|\bgetStaticProps", 130);
    ("\bwebpack\b|\brollup\b|\bvite\b", 100);
    ("\bbabel\b|\b@babel", 80);
    ("\bjest\b|\bcypress\b", 70);
    ("\bsqlalchemy\b|\bdjango\.db", 100);
    ("\bmongoose\b|\bmongodb", 90);
    ("\bexport default\b|\bmodule\.exports", 50);
    ("\bclass\s+\w+.*Component", 100)
  ].

Definition comment_patterns : list (string * string) :=
  [
    (".py", "^\s*#"); (".js", "^\s*//|/\*.*?\*/");
    (".ts", "^\s*//|/\*.*?\*/"); (".java", "^\s*//|/\*.*?\*/");
    (".cpp", "^\s*//|/\*.*?\*/"); (".c", "^\s*//|/\*.*?\*/")
  ].

Definition _get_base_priority_by_category (category : string) : Z :=
  default 200 (Config.lookup category category_priorities).

(** [_calculate_size_factor] on a dict value: [==] never raises, [>] raises
    on a value that is not a number *)
Definition _calculate_size_factor (size : pyval) : py Z :=
  match size with
  | PyInt size =>
      Ok (if size =? 0 then -50
          else if Config.MAX_FILE_SIZE <? size then -200
          else if size <? 100 then -30
          else if (100 <=? size) && (size <=? 5000) then 30
          else if (5000 <? size) && (size <=? 20000) then 10
          else if (20000 <? size) && (size <=? 50000) then -10
          else -30)
  | _ => Raise TypeError
  end.

Section WithEngine.
Context `{Engine}.

Definition _calculate_importance_bonus (filename full_path : string) : Z :=
  match Config.lookup filename importance_patterns with
  | Some bonus => bonus
  | None =>
      (if re_found "\b(main|index|app|server)\b" [] filename then 200 else 0)
      + (if re_found "\b(test|spec)s?\b" [] filename
            && negb (Str.contains "node_modules" full_path) then 50 else 0)
      + (if re_found "\b(config|settings|env)\b" [] filename then 100 else 0)
      + (if re_found "\b(api|endpoint|route|view)s?\b" [] filename then 150 else 0)
      + (if re_found "\b(model|schema|entity)s?\b" [] filename then 120 else 0)
  end.

Definition _calculate_framework_bonus (content : pyval) (language : string) : py Z :=
  if negb (truthy content) then Ok 0
  else match content with
       | PyStr c =>
           let content_sample := Str.take 2000 c in
           let bonus :=
             List.fold_left
               (fun bonus pb =>
                  if re_found pb.1 [IGNORECASE] content_sample then bonus + pb.2
                  else bonus)
               framework_bonus_patterns 0 in
           Ok (Z.min bonus 300)
       | _ => Raise TypeError
       end.

Definition _calculate_comment_ratio (content file_ext : string) : py Float64.float :=
  if String.eqb content "" then Ok (Float64.Fin 0 0)
  else
    let total_lines := Z.of_nat (Str.count_lines content) in
    if total_lines =? 0 then Ok (Float64.Fin 0 0)
    else match Config.lookup file_ext comment_patterns with
         | None => Ok (Float64.Fin 0 0)
         | Some pattern =>
             Float64.int_truediv (re_count pattern [MULTILINE] content) total_lines
         end.

Definition _calculate_content_quality_bonus (content : pyval) (file_ext : string) : py Z :=
  if negb (truthy content) then Ok 0
  else match content with
       | PyStr c =>
           let b1 := if (50 <? String.length (Str.strip c))%nat then 20 else 0 in
           b2 ← (if Str.mem file_ext [".py"; ".js"; ".ts"; ".java"; ".cpp"]
                 then
                   comment_ratio ← _calculate_comment_ratio c file_ext;
                   Ok (if Float64.gtb comment_ratio (Float64.lit 1 10) then 30 else 0)
                 else Ok 0);
           let b3 :=
             if re_found "\b(class|function|def|interface|struct)\s+\w+" [IGNORECASE] c
             then 40 else 0 in
           let b4 :=
             if re_found "\b(import|include|require|from)\s+" [IGNORECASE] c
             then 20 else 0 in
           Ok (b1 + b2 + b3 + b4)
       | _ => Raise AttributeError
       end.

(** Factor 4: the complexity score, when one is computed, and the bonus *)
Definition complexity_factor (content : pyval) (detected_language : string)
    : py (option Float64.float * Z) :=
  if truthy content
     && Str.mem detected_language ["python"; "javascript"; "typescript"; "java"; "cpp"]
  then match content with
       | PyStr c =>
           complexity_score ← LanguageDetector.calculate_complexity c detected_language;
           scaled ← Float64.trunc
                      (Float64.mul complexity_score (Float64.of_small weight_complexity));
           Ok (Some complexity_score, Z.min scaled 200)
       | _ => Raise AttributeError
       end
  else Ok (None, 0).

Definition _calculate_priority_score (file_info : FileRecord) (target_language : string)
    : py FileRecord :=
  let path := get_path file_info in
  let size := get_size file_info in
  let content := get_content file_info in
  if negb (truthy path) then
    Ok (mkFile (f_path file_info) (f_size file_info) (f_content file_info)
               (Some 50) (f_language file_info) (f_complexity file_info)
               (f_priority_breakdown file_info))
  else
    match path with
    | PyStr path =>
        let filename := Str.lower (Pathlib.name path) in
        let file_ext := Str.lower (Pathlib.suffix path) in
        let directory_depth := Z.of_nat (List.length (Pathlib.parts path)) - 1 in
        let category := Config.get_file_category filename in
        let base_priority := _get_base_priority_by_category category in
        let by_ext := LanguageDetector.detect_language_by_extension filename in
        detected_language ←
          (if String.eqb by_ext "unknown" && truthy content
           then LanguageDetector.detect_language_by_content_val content (PyStr filename)
           else Ok by_ext);
        let language_bonus :=
          if String.eqb detected_language target_language then weight_language_match
          else if Str.mem detected_language ["python"; "javascript"; "typescript"; "java"]
               then weight_language_match / 2
               else 0 in
        let importance_bonus := _calculate_importance_bonus filename path in
        framework_bonus ← _calculate_framework_bonus content detected_language;
        cf ← complexity_factor content detected_language;
        let complexity_bonus := cf.2 in
        size_factor ← _calculate_size_factor size;
        let depth_penalty := Z.min (directory_depth * weight_depth_penalty) 150 in
        content_bonus ← _calculate_content_quality_bonus content file_ext;
        let final_priority :=
          base_priority + language_bonus + importance_bonus + framework_bonus
          + complexity_bonus + size_factor + content_bonus - depth_penalty in
        let final_priority := Z.max final_priority 10 in
        Ok (mkFile (f_path file_info) (f_size file_info) (f_content file_info)
                   (Some final_priority)
                   (Some detected_language)
                   (match cf.1 with
                    | Some c => Some c
                    | None => f_complexity file_info
                    end)
                   (Some (Breakdown.mk base_priority language_bonus importance_bonus
                            framework_bonus complexity_bonus size_factor content_bonus
                            (- depth_penalty))))
    | _ => Raise TypeError
    end.

(** the body of the loop of [prioritize_files]: on any exception the
    original dict gets [priority = 100] and is appended itself *)
Definition prioritize_one (target_language : string) (file_info : FileRecord) : FileRecord :=
  match _calculate_priority_score file_info target_language with
  | Ok enhanced_file => enhanced_file
  | Raise _ =>
      mkFile (f_path file_info) (f_size file_info) (f_content file_info)
             (Some 100) (f_language file_info) (f_complexity file_info)
             (f_priority_breakdown file_info)
  end.

(** [list.sort(key=lambda x: x.get("priority", 100), reverse=True)]: stable *)
Fixpoint insert_by_priority (x : FileRecord) (l : list FileRecord) : list FileRecord :=
  match l with
  | [] => [x]
  | y :: r =>
      if get_priority x <? get_priority y then y :: insert_by_priority x r else x :: l
  end.

Definition sort_by_priority (l : list FileRecord) : list FileRecord :=
  List.fold_right insert_by_priority [] l.

(** [target_language] is [None], or a string *)
Definition prioritize_files (files : list FileRecord) (target_language : option string)
    : py (list FileRecord) :=
  match files with
  | [] => Ok []
  | _ =>
      target ← (match target_language with
                | Some t => if String.eqb t ""
                            then LanguageDetector.detect_primary_language files
                            else Ok t
                | None => LanguageDetector.detect_primary_language files
                end);
      Ok (sort_by_priority (List.map (prioritize_one target) files))
  end.

End WithEngine.

End FilePrioritizer.

(** ** [file_processor.py]: [FileProcessor] *)

Module FileProcessor.

(** the [context] dict: both keys are optional *)
Record Context := mkContext {
  max_total_size : option Z;
  max_files : option Z
}.

Definition empty_context : Context := mkContext None None.

Definition binary_extensions : list string :=
  [
    ".exe"; ".dll"; ".so"; ".dylib"; ".bin"; ".img"; ".iso"; ".zip"; ".tar";
    ".gz"; ".rar"; ".7z"; ".jpg"; ".jpeg"; ".png"; ".gif"; ".bmp"; ".svg";
    ".ico"; ".mp3"; ".mp4"; ".avi"; ".mov"; ".pdf"; ".doc"; ".docx"; ".xls";
    ".xlsx"; ".ppt"; ".pptx"
  ].

(** [ord(char) < 32 and char not in "\n\r\t"] *)
Definition is_non_printable (c : ascii) : bool :=
  let n := Str.code c in
  ((n <? 32) && negb ((n =? 10) || (n =? 13) || (n =? 9)))%N.

Fixpoint count_non_printable (s : string) : Z :=
  match s with
  | EmptyString => 0
  | String c r => (if is_non_printable c then 1 else 0) + count_non_printable r
  end.

(** [_is_likely_binary], called on a path that passed validation.  A string
    of code points below 256 always encodes as UTF-8. *)
Definition _is_likely_binary (path : string) (content : pyval) : py bool :=
  if String.eqb path "" then Ok false
  else
    let ext := Str.lower (Pathlib.suffix path) in
    if Str.mem ext binary_extensions then Ok true
    else if truthy content then
      match content with
      | PyStr c =>
          if Str.contains (String (ascii_of_nat 0) EmptyString) c then Ok true
          else
            let sample := Str.take 1000 c in
            let non_printable := count_non_printable sample in
            let limit :=
              Float64.mul (Float64.of_small (Z.of_nat (String.length sample)))
                          (Float64.lit 3 10) in
            Ok (Float64.int_gtb non_printable limit)
      | _ => Raise TypeError
      end
    else Ok false.

Definition _is_important_empty_file (path : string) : bool :=
  Str.mem (Str.lower (Pathlib.name path)) ["__init__.py"; ".gitkeep"; ".keep"].

(** the body of the loop of [_apply_basic_filtering]: [true] when the file
    is appended to [valid_files] *)
Definition passes_basic_filter (file_info : FileRecord) : py bool :=
  let path := get_path file_info in
  let size := get_size file_info in
  let content := get_content file_info in
  valid ← ValidationUtils.validate_file_path path;
  if negb valid then Ok false
  else
    match path, size with
    | PyStr path, PyInt size =>
        if Config.MAX_FILE_SIZE <? size then Ok false
        else if Config.should_skip_file path then Ok false
        else
          binary ← _is_likely_binary path content;
          if (binary : bool) then Ok false
          else if (size =? 0) && negb (_is_important_empty_file path) then Ok false
          else Ok true
    | _, _ => Raise TypeError
    end.

Fixpoint _apply_basic_filtering (files : list FileRecord) : py (list FileRecord) :=
  match files with
  | [] => Ok []
  | file_info :: rest =>
      keep ← passes_basic_filter file_info;
      valid_files ← _apply_basic_filtering rest;
      Ok (if (keep : bool) then file_info :: valid_files else valid_files)
  end.

(** *** Selection *)

(** the four tiers, in the order of the dict literal *)
Definition _group_by_priority_tiers (files : list FileRecord) : list (list FileRecord) :=
  [ List.filter (fun f => 800 <=? get_priority f) files;
    List.filter (fun f => (get_priority f <? 800) && (600 <=? get_priority f)) files;
    List.filter (fun f => (get_priority f <? 600) && (400 <=? get_priority f)) files;
    List.filter (fun f => get_priority f <? 400) files ].

(** [file_size < size_limit * 0.1] *)
Definition under_tenth (file_size size_limit : Z) : py bool :=
  limit ← Float64.of_int size_limit;
  Ok (Float64.int_ltb file_size (Float64.mul limit (Float64.lit 1 10))).

(** [total_size >= size_limit * 0.9] *)
Definition reached_ninety (total_size size_limit : Z) : py bool :=
  limit ← Float64.of_int size_limit;
  Ok (Float64.int_geb total_size (Float64.mul limit (Float64.lit 9 10))).

(** the inner loop over one tier, from the state [(selected_files,
    total_size)]: [continue] goes on with the rest, [break] returns *)
Fixpoint select_from_tier (size_limit count_limit : Z) (tier_files : list FileRecord)
    (selected_files : list FileRecord) (total_size : Z)
    : py (list FileRecord * Z) :=
  match tier_files with
  | [] => Ok (selected_files, total_size)
  | file_info :: rest =>
      match get_size file_info with
      | PyInt file_size =>
          if size_limit <? total_size + file_size then
            small ← under_tenth file_size size_limit;
            if (small : bool)
            then select_from_tier size_limit count_limit rest selected_files total_size
            else Ok (selected_files, total_size)
          else if count_limit <=? Z.of_nat (List.length selected_files) then
            Ok (selected_files, total_size)
          else
            select_from_tier size_limit count_limit rest
              (selected_files ++ [file_info]) (total_size + file_size)
      | _ => Raise TypeError
      end
  end.

(** the outer loop over the tiers *)
Fixpoint select_from_tiers (size_limit count_limit : Z) (tiers : list (list FileRecord))
    (selected_files : list FileRecord) (total_size : Z) : py (list FileRecord) :=
  match tiers with
  | [] => Ok selected_files
  | tier_files :: rest =>
      st ← select_from_tier size_limit count_limit tier_files selected_files total_size;
      stop ← (if count_limit <=? Z.of_nat (List.length st.1) then Ok true
              else reached_ninety st.2 size_limit);
      if (stop : bool) then Ok st.1
      else select_from_tiers size_limit count_limit rest st.1 st.2
  end.

Definition _perform_smart_selection (prioritized_files : list FileRecord)
    (context : Context) : py (list FileRecord) :=
  match prioritized_files with
  | [] => Ok []
  | _ =>
      let size_limit := default Config.MAX_TOTAL_SIZE_BYTES (max_total_size context) in
      let count_limit := default Config.MAX_FILES_COUNT (max_files context) in
      select_from_tiers size_limit count_limit
        (_group_by_priority_tiers prioritized_files) [] 0
  end.

(** [sum(f.get("size", 0) for f in files)] *)
Fixpoint sum_sizes (files : list FileRecord) : py Z :=
  match files with
  | [] => Ok 0
  | f :: r =>
      match get_size f with
      | PyInt z => s ← sum_sizes r; Ok (z + s)
      | _ => Raise TypeError
      end
  end.

(** *** The analysis record *)

(** one value of the [language_breakdown] dict *)
Record breakdown_entry := mkEntry {
  be_files : Z;
  be_size : Z;
  be_lines : Z
}.

(** the [complexity_distribution] dict; [None] is the empty dict *)
Record distribution := mkDistribution {
  simple : Z;
  moderate : Z;
  complex : Z;
  very_complex : Z
}.

(** the dict built by [_generate_analysis_info].  The key
    ["processing_stats"] holds the counters of the run and the wall-clock
    [processing_time], which is not part of the model. *)
Record analysis := mkAnalysis {
  primary_language : string;
  languages : list (string * Float64.float);
  detected_frameworks : list string;
  dependencies : list string;
  total_files_processed : Z;
  files_filtered : Z;
  selected_files_count : Z;
  total_size : Z;
  total_lines : Z;
  average_complexity : Float64.float;
  complexity_distribution : option distribution;
  language_breakdown : list (string * breakdown_entry);
  file_type_distribution : list (string * Z)
}.

(** the second component of the result of [process_files] *)
Inductive analysis_info :=
  | ErrorInfo (error : string)
  | Analysis (info : analysis).

(** [len(f.get("content", "").splitlines())] *)
Definition line_count (f : FileRecord) : py Z :=
  match get_content f with
  | PyStr c => Ok (Z.of_nat (Str.count_lines c))
  | _ => Raise AttributeError
  end.

Fixpoint sum_lines (files : list FileRecord) : py Z :=
  match files with
  | [] => Ok 0
  | f :: r => n ← line_count f; s ← sum_lines r; Ok (n + s)
  end.

(** a float is truthy when it is not zero *)
Definition float_truthy (x : Float64.float) : bool :=
  match x with
  | Float64.Fin 0 _ => false
  | _ => true
  end.

Definition complexity_scores_of (files : list FileRecord) : list Float64.float :=
  List.concat
    (List.map (fun f => match f_complexity f with
                        | Some c => if float_truthy c then [c] else []
                        | None => []
                        end) files).

Definition float_sum (l : list Float64.float) : Float64.float :=
  List.fold_left Float64.add l (Float64.Fin 0 0).

Definition _analyze_complexity_distribution (scores : list Float64.float)
    : option distribution :=
  match scores with
  | [] => None
  | _ =>
      Some (List.fold_left
              (fun d score =>
                 if Float64.leb score (Float64.lit 2 1)
                 then mkDistribution (simple d + 1) (moderate d) (complex d) (very_complex d)
                 else if Float64.leb score (Float64.lit 4 1)
                 then mkDistribution (simple d) (moderate d + 1) (complex d) (very_complex d)
                 else if Float64.leb score (Float64.lit 7 1)
                 then mkDistribution (simple d) (moderate d) (complex d + 1) (very_complex d)
                 else mkDistribution (simple d) (moderate d) (complex d) (very_complex d + 1))
              scores (mkDistribution 0 0 0 0))
  end.

Fixpoint add_breakdown (language : string) (size lines : Z)
    (d : list (string * breakdown_entry)) : list (string * breakdown_entry) :=
  match d with
  | [] => [(language, mkEntry 1 size lines)]
  | (k, e) :: r =>
      if String.eqb k language
      then (k, mkEntry (be_files e + 1) (be_size e + size) (be_lines e + lines)) :: r
      else (k, e) :: add_breakdown language size lines r
  end.

Fixpoint _generate_language_breakdown (acc : list (string * breakdown_entry))
    (files : list FileRecord) : py (list (string * breakdown_entry)) :=
  match files with
  | [] => Ok acc
  | f :: r =>
      let language := default "unknown" (f_language f) in
      lines ← (if truthy (get_content f) then line_count f else Ok 0);
      match get_size f with
      | PyInt size => _generate_language_breakdown (add_breakdown language size lines acc) r
      | _ => Raise TypeError
      end
  end.

Fixpoint count_type (ext : string) (d : list (string * Z)) : list (string * Z) :=
  match d with
  | [] => [(ext, 1)]
  | (k, n) :: r => if String.eqb k ext then (k, n + 1) :: r else (k, n) :: count_type ext r
  end.

Fixpoint _analyze_file_types (acc : list (string * Z)) (files : list FileRecord)
    : py (list (string * Z)) :=
  match files with
  | [] => Ok acc
  | f :: r =>
      if truthy (get_path f) then
        match get_path f with
        | PyStr path =>
            let ext := Str.lower (Pathlib.suffix path) in
            _analyze_file_types
              (count_type (if String.eqb ext "" then "no_extension" else ext) acc) r
        | _ => Raise TypeError
        end
      else _analyze_file_types acc r
  end.

Definition _generate_analysis_info (processed filtered : Z)
    (selected_files : list FileRecord) (languages : list (string * Float64.float))
    (frameworks dependencies : list string) (primary_language : string)
    : py analysis :=
  total_size ← sum_sizes selected_files;
  total_lines ← sum_lines selected_files;
  let complexity_scores := complexity_scores_of selected_files in
  avg_complexity ←
    (match complexity_scores with
     | [] => Ok (Float64.lit 1 1)
     | _ =>
         n ← Float64.of_int (Z.of_nat (List.length complexity_scores));
         Float64.div (float_sum complexity_scores) n
     end);
  breakdown ← _generate_language_breakdown [] selected_files;
  types ← _analyze_file_types [] selected_files;
  Ok (mkAnalysis primary_language languages frameworks dependencies
        processed filtered (Z.of_nat (List.length selected_files))
        total_size total_lines (Float64.round_digits 2 avg_complexity)
        (_analyze_complexity_distribution complexity_scores)
        breakdown types).

Section WithEngine.
Context `{Engine}.

(** [process_files(files, context)]; [context] may be [None] *)
Definition process_files (files : list FileRecord) (context : option Context)
    : py (list FileRecord * analysis_info) :=
  let context := default empty_context context in
  valid_files ← _apply_basic_filtering files;
  match valid_files with
  | [] => Ok ([], ErrorInfo "No valid files to process")
  | _ =>
      languages ← LanguageDetector.detect_languages valid_files;
      let primary_language :=
        match languages with
        | [] => "unknown"
        | (language, _) :: _ => language
        end in
      frameworks ← LanguageDetector.detect_frameworks valid_files primary_language;
      let dependencies :=
        DependencyExtractor.extract_dependencies valid_files primary_language in
      prioritized_files ←
        FilePrioritizer.prioritize_files valid_files (Some primary_language);
      selected_files ← _perform_smart_selection prioritized_files context;
      info ← _generate_analysis_info
               (Z.of_nat (List.length files))
               (Z.of_nat (List.length files) - Z.of_nat (List.length valid_files))
               selected_files languages frameworks dependencies primary_language;
      Ok (selected_files, Analysis info)
  end.

End WithEngine.

End FileProcessor.

(** ** A sample engine

    An instance of [Engine] to run the model on concrete inputs:
    [re.match] knows the one pattern it is called with, a leading run of
    [[a-zA-Z0-9_-]]; [re.search] and [re.findall] find a pattern that occurs
    literally in the text; [json.loads] rejects every text. *)

Module SampleEngine.

Definition is_name_char (c : ascii) : bool :=
  let n := Str.code c in
  (((48 <=? n) && (n <=? 57)) || ((65 <=? n) && (n <=? 90))
   || ((97 <=? n) && (n <=? 122)) || (n =? 95) || (n =? 45))%N.

Fixpoint name_prefix (s : string) : string :=
  match s with
  | EmptyString => EmptyString
  | String c r => if is_name_char c then String c (name_prefix r) else EmptyString
  end.

Definition engine : Engine := {|
  re_search pattern _ text :=
    if Str.contains pattern text then Some [pattern] else None;
  re_match pattern text :=
    if String.eqb pattern "^([a-zA-Z0-9_-]+)" then
      match name_prefix text with
      | EmptyString => None
      | name => Some [name]
      end
    else None;
  re_findall pattern _ text :=
    if Str.contains pattern text then [[pattern]] else [];
  json_loads _ := None
|}.

End SampleEngine.

(** * Properties

    ** Predicates and inputs of the statements *)

(** the byte budget and the count budget that [_perform_smart_selection]
    reads from the context *)
Definition size_limit_of (context : FileProcessor.Context) : Z :=
  default Config.MAX_TOTAL_SIZE_BYTES (FileProcessor.max_total_size context).
Definition count_limit_of (context : FileProcessor.Context) : Z :=
  default Config.MAX_FILES_COUNT (FileProcessor.max_files context).

(** the state of the selection loops: the running total is the sum of the
    selected sizes, every non-empty prefix of the selection fitted the byte
    budget when its last file was appended, and a non-empty selection fits
    the count budget *)
Definition within (size_limit count_limit : Z) (selected : list FileRecord)
    (total : Z) : Prop :=
  FileProcessor.sum_sizes selected = Ok total
  /\ (forall n, (0 < n <= List.length selected)%nat ->
        exists s, FileProcessor.sum_sizes (take n selected) = Ok s /\ s <= size_limit)
  /\ (selected = [] \/ Z.of_nat (List.length selected) <= count_limit).

(** the paths that [validate_file_path] rejects *)
Definition unsafe_path (p : string) : Prop :=
  p = "" \/ Str.contains ".." p = true \/ Str.contains Str.backslash p = true
  \/ Str.startswith p "/" = true \/ Str.startswith p "./" = true
  \/ Str.contains "/./" p = true \/ Str.nth 1 p = Some ":"%char.

(** a record that went through the prioritizer *)
Definition ranked (path : string) (size priority : Z) : FileRecord :=
  mkFile (Some (PyStr path)) (Some (PyInt size)) (Some (PyStr "")) (Some priority)
         None None None.

(** a tier in which the second file is skipped by the small-file rule and
    the third still fits *)
Definition sample_ranked : list FileRecord :=
  [ ranked "main.py" 95 900; ranked "app.py" 8 880; ranked "setup.py" 4 870;
    ranked "notes.txt" 50 300 ].

Definition sample_context : FileProcessor.Context :=
  FileProcessor.mkContext (Some 100) (Some 3).

(** files that the basic filter drops: a traversal path, a binary
    extension, an empty file, and a dict without a path *)
Definition rejected_files : list FileRecord :=
  [ file "../secret.py" "import os" 9;
    file "image.jpg" "" 500000;
    file "empty.py" "" 0;
    mkFile None (Some (PyInt 20)) (Some (PyStr "print('no_path')")) None None None None ].

Definition mixed_files : list FileRecord :=
  [ file "a..b.txt" "text" 4; file "src/ok.py" "x = 1" 5 ].

(** a batch with a well-formed record, a record whose size is [None], and a
    record without a path *)
Definition sample_batch : list FileRecord :=
  [ file "main.py" "import os" 40;
    mkFile (Some (PyStr "lib/util.py")) (Some PyNone) (Some (PyStr "x = 1")) None None None None;
    mkFile None (Some (PyInt 20)) (Some (PyStr "print('no_path')")) None None None None ].

Definition requirements_files : list FileRecord :=
  [ file "requirements.txt"
      ("requests>=2.25.0" +:+ Str.newline +:+ "flask==2.3.2" +:+ Str.newline
       +:+ "# comment" +:+ Str.newline) 40;
    file "src/.hidden" "" 0 ].

(** ** [prioritize_files] *)

(** [prioritize_files] returns, and its output is what the loop over [files]
    builds with the target language [t]: one record per input file, each
    with an integer priority of at least 10; a record with a non-empty path
    that is scored without exception carries the sum of its eight breakdown
    entries, raised to 10 when the sum is lower; a record whose scoring
    raises carries 100 *)
Definition prioritized `{Engine} (files : list FileRecord) (target : option string)
    (t : string) : Prop :=
  exists out,
    FilePrioritizer.prioritize_files files target = Ok out
    /\ out ≡ₚ List.map (FilePrioritizer.prioritize_one t) files
    /\ (forall r, In r out -> exists p, f_priority r = Some p /\ 10 <= p)
    /\ (forall f e, In f files -> truthy (get_path f) = true ->
          FilePrioritizer._calculate_priority_score f t = Ok e ->
          FilePrioritizer.prioritize_one t f = e
          /\ exists b, f_priority_breakdown e = Some b
                       /\ f_priority e = Some (Z.max (Breakdown.total b) 10))
    /\ (forall f x, In f files ->
          FilePrioritizer._calculate_priority_score f t = Raise x ->
          f_priority (FilePrioritizer.prioritize_one t f) = Some 100).

(** ** Predicates on [Float64] *)

(** [n / d >= 2^k] and [n / d < 2^k], on integers *)
Definition ge2 (n d k : Z) : Prop := Float64.scale_den d k <= Float64.scale_num n k.
Definition lt2 (n d k : Z) : Prop := Float64.scale_num n k < Float64.scale_den d k.

(** the exponent and the significand that [round_pos] chooses *)
Definition round_exp (n d : Z) : Z := Z.max (Float64.ilog2_ratio n d - 52) Float64.emin.
Definition round_sig (n d : Z) : Z :=
  Float64.round_half_even (Float64.scale_num n (round_exp n d))
                          (Float64.scale_den d (round_exp n d)).

(** the last step of [round_pos]: renormalise, flush, overflow *)
Definition finish (m e : Z) : Float64.float :=
  let m' := if m =? 2 ^ 53 then 2 ^ 52 else m in
  let e' := if m =? 2 ^ 53 then e + 1 else e in
  if m' =? 0 then Float64.Fin 0 0
  else if Float64.emax_fin <? e' then Float64.Inf false
  else Float64.Fin m' e'.

(** a float that is neither NaN nor negative *)
Definition nonneg (x : Float64.float) : Prop :=
  match x with
  | Float64.Fin m _ => 0 <= m
  | Float64.Inf s => s = false
  | Float64.NaN => False
  end.

Definition finite (x : Float64.float) : Prop :=
  match x with Float64.Fin _ _ => True | _ => False end.

(** [x] is a finite non-negative float at most the finite float [c] *)
Definition bounded (x c : Float64.float) : Prop :=
  nonneg x /\ finite x /\ finite c /\ Float64.leb x c = true.

(** ** [calculate_complexity] *)

(** the pattern list that [calculate_complexity] selects, and the number of
    matches it counts *)
Definition complexity_patterns (language : string) : list string :=
  default (default [] (Config.lookup "python" LanguageDetector.complexity_indicators))
          (Config.lookup language LanguageDetector.complexity_indicators).

Definition complexity_count `{Engine} (content language : string) : Z :=
  re_count_all (complexity_patterns language) [IGNORECASE] content.

Definition sample_source : string :=
  "if x:" +:+ Str.newline +:+ "    y = 1" +:+ Str.newline +:+ "else:" +:+ Str.newline
  +:+ "    y = 2" +:+ Str.newline.

(** two lines of JavaScript with one arrow function *)
Definition arrow_source : string :=
  "f = x => 1" +:+ Str.newline +:+ "y = 2".

(** ** [detect_languages] *)

(** the sum of one field over the [language_stats] dict *)
Definition sum_by (f : LanguageDetector.lang_stats -> Z)
    (d : list (string * LanguageDetector.lang_stats)) : Z :=
  List.fold_right (fun kv s => f kv.2 + s) 0 d.

(** what the scan guarantees of each entry: it counts files of at least ten
    bytes *)
Definition stats_ok (st : LanguageDetector.lang_stats) : Prop :=
  0 < LanguageDetector.ls_size st /\ 0 < LanguageDetector.ls_count st
  /\ 0 <= LanguageDetector.ls_code_size st /\ 0 <= LanguageDetector.ls_code_count st
  /\ (LanguageDetector.ls_code_count st = 0 -> LanguageDetector.ls_code_size st = 0).

(** the invariant of the loop over [files]: the keys are distinct and the
    four running totals are the sums over the dict *)
Record acc_ok (acc : LanguageDetector.lang_acc) : Prop := mk_acc_ok {
  ok_keys : NoDup (fmap fst (LanguageDetector.language_stats acc));
  ok_stats : Forall (fun kv => stats_ok kv.2) (LanguageDetector.language_stats acc);
  ok_size : sum_by LanguageDetector.ls_size (LanguageDetector.language_stats acc)
            = LanguageDetector.total_size acc;
  ok_count : sum_by LanguageDetector.ls_count (LanguageDetector.language_stats acc)
             = LanguageDetector.total_count acc;
  ok_code_size : sum_by LanguageDetector.ls_code_size (LanguageDetector.language_stats acc)
                 = LanguageDetector.total_code_size acc;
  ok_code_count : sum_by LanguageDetector.ls_code_count (LanguageDetector.language_stats acc)
                  = LanguageDetector.total_code_count acc
}.

(** [part / whole * 100] for a share of [P] percent *)
Definition pct_of (P : Z) : Float64.float :=
  Float64.mul (Float64.round_ratio P 100) (Float64.of_small 100).

(** the two weighted averages of [detect_languages] *)
Definition weighted_code (sp cp csp ccp : Float64.float) : Float64.float :=
  Float64.add
    (Float64.add
       (Float64.add (Float64.mul sp (Float64.lit 4 10)) (Float64.mul cp (Float64.lit 2 10)))
       (Float64.mul csp (Float64.lit 3 10)))
    (Float64.mul ccp (Float64.lit 1 10)).

Definition weighted_plain (sp cp : Float64.float) : Float64.float :=
  Float64.add (Float64.mul sp (Float64.lit 6 10)) (Float64.mul cp (Float64.lit 4 10)).

(** the rounded value of [W], with and without the data-file penalty, is
    finite and at most [U] *)
Definition fits (W U : Float64.float) : Prop :=
  finite (Float64.round_digits 1 W)
  /\ finite (Float64.round_digits 1 (Float64.mul W (Float64.lit 7 10)))
  /\ Float64.leb (Float64.round_digits 1 W) U = true
  /\ Float64.leb (Float64.round_digits 1 (Float64.mul W (Float64.lit 7 10))) U = true.

(** [(language, v)] is the entry that [language_percentages] computes for a
    key of the [language_stats] dict *)
Definition entry_of `{Engine} (acc : LanguageDetector.lang_acc) (kv : string * Float64.float) : Prop :=
  exists stats, (kv.1, stats) ∈ LanguageDetector.language_stats acc
                /\ LanguageDetector.language_entry acc kv.1 stats = Ok (Some kv.2).

(** the state of the boosting loop: every value is at most 100, and the
    values of the languages still to be boosted are at most 80 *)
Definition boost_inv (rem : list string) (d : list (string * Float64.float)) : Prop :=
  Forall (fun kv => bounded kv.2 (Float64.of_small 100)
                    /\ (kv.1 ∈ rem -> bounded kv.2 (Float64.of_small 80))) d.

(** a percentage: a float between 0 and 100 *)
Definition in_range (v : Float64.float) : Prop :=
  Float64.leb (Float64.of_small 0) v = true /\ Float64.leb v (Float64.of_small 100) = true.

(** a Markdown guide that dominates one Python file *)
Definition dominated_files : list FileRecord :=
  [ file "docs/guide.md" "# Guide" 9000; file "main.py" "import os" 100 ].

(** [language_stats[top_lang]["code_count"]] *)
Definition top_code_count (acc : LanguageDetector.lang_acc) (top_lang : string) : Z :=
  default 0 (LanguageDetector.ls_code_count
               <$> Config.lookup top_lang (LanguageDetector.language_stats acc)).

(** the languages with code files that are present in the sorted map *)
Definition code_languages_of (acc : LanguageDetector.lang_acc)
    (sorted : list (string * Float64.float)) : list string :=
  List.map fst
    (List.filter
       (fun ls => (0 <? LanguageDetector.ls_code_count ls.2)
                  && bool_decide (is_Some (Config.lookup ls.1 sorted)))
       (LanguageDetector.language_stats acc)).

(** the anti-domination correction: a top language above 70 without code
    files gives up [min(top - 50, 20)], which is the integer 20, and every
    language of [code_languages_of] gets the same share [20 / n] of it;
    otherwise the map is left as it is *)
Definition anti_domination (acc : LanguageDetector.lang_acc)
    (sorted balanced : list (string * Float64.float)) : Prop :=
  match sorted with
  | [] => balanced = []
  | (top_lang, top) :: _ =>
      if Float64.int_ltb 70 top && (top_code_count acc top_lang =? 0) then
        LanguageDetector.redistribution top = inl 20
        /\ let lowered :=
             LanguageDetector.update top_lang
               (fun _ => Float64.sub top (Float64.of_small 20)) sorted in
           match code_languages_of acc sorted with
           | [] => balanced = lowered
           | langs =>
               exists boost,
                 Float64.int_truediv 20 (Z.of_nat (List.length langs)) = Ok boost
                 /\ balanced
                    = List.fold_left
                        (fun d lang =>
                           LanguageDetector.update lang (fun v => Float64.add v boost) d)
                        langs lowered
           end
      else balanced = sorted
  end.

(** a record whose path and content are [str] and whose size is an [int],
    when they are present *)
Definition well_typed (f : FileRecord) : Prop :=
  (exists p, get_path f = PyStr p) /\ (exists z, get_size f = PyInt z)
  /\ (exists c, get_content f = PyStr c).

(** ** Tactics and list facts *)

(** one step of a [py] computation that is known to return *)
Ltac step_bind :=
  match goal with
  | |- (?c ≫= _) = _ -> _ =>
      let x := fresh "x" in destruct c as [x | x]; simpl; [| discriminate]
  end.

Lemma mem_In (x : string) (l : list string) : Str.mem x l = true <-> In x l.
Proof.
  unfold Str.mem. rewrite existsb_exists. split.
  - intros (y & Hy & E). apply String.eqb_eq in E. subst. exact Hy.
  - intros Hx. exists x. split; [exact Hx | apply String.eqb_refl].
Qed.

Lemma StronglySorted_take {A} (R : relation A) (n : nat) (l : list A) :
  StronglySorted R l -> StronglySorted R (take n l).
Proof.
  intros Hl. revert n. induction Hl as [| x l Hl IH Hx]; intros [| n]; simpl;
    try constructor.
  - apply IH.
  - apply Forall_take. exact Hx.
Qed.

(** ** The category classifier *)

(** C5: a filename whose lower-cased, trimmed form is in the skip-set is
    classified ["skip"], whatever the special-files table, the multi-part
    extensions and the suffix rules say about it. *)
Theorem skip_set_takes_precedence (filename : string) :
  In (Str.strip (Str.lower filename)) Config.SKIP_FILES ->
  Config.get_file_category filename = "skip".
Proof.
  intros Hin. unfold Config.get_file_category.
  destruct (String.eqb filename "") eqn:E.
  - apply String.eqb_eq in E. subst filename.
    apply mem_In in Hin. vm_compute in Hin. discriminate.
  - apply mem_In in Hin. rewrite Hin. reflexivity.
Qed.

Lemma skip_set_takes_precedence_witness :
  In (Str.strip (Str.lower " .GitIgnore ")) Config.SKIP_FILES
  /\ Config.get_file_category " .GitIgnore " = "skip".
Proof.
  assert (H : In (Str.strip (Str.lower " .GitIgnore ")) Config.SKIP_FILES).
  { apply mem_In. vm_compute. reflexivity. }
  split; [exact H | exact (skip_set_takes_precedence " .GitIgnore " H)].
Defined.

(** [.travis.yml] is in the special-files table and [.gitignore] is a
    multi-part extension; both are skipped. *)
Example category_gitignore : Config.get_file_category ".gitignore" = "skip".
Proof. vm_compute. reflexivity. Qed.
Example category_travis : Config.get_file_category ".travis.yml" = "skip".
Proof. vm_compute. reflexivity. Qed.
Example lookup_travis : Config.lookup ".travis.yml" Config.SPECIAL_FILES = Some "config".
Proof. vm_compute. reflexivity. Qed.

(** The entries of the skip-set that hold a capital letter are compared
    with a lower-cased name, so no filename matches them. *)
Example category_DS_Store : Config.get_file_category ".DS_Store" = "text".
Proof. vm_compute. reflexivity. Qed.
Example category_Thumbs : Config.get_file_category "Thumbs.db" = "text".
Proof. vm_compute. reflexivity. Qed.

Example category_dts : Config.get_file_category "types.d.ts" = "typescript".
Proof. vm_compute. reflexivity. Qed.
Example category_targz : Config.get_file_category "archive.tar.gz" = "binary".
Proof. vm_compute. reflexivity. Qed.
Example category_dotdot : Config.get_file_category ".." = "text".
Proof. vm_compute. reflexivity. Qed.
Example category_Dockerfile : Config.get_file_category "Dockerfile" = "dockerfile".
Proof. vm_compute. reflexivity. Qed.
Example category_jpg : Config.get_file_category "image.jpg" = "binary".
Proof. vm_compute. reflexivity. Qed.
Example category_xyz : Config.get_file_category "unknown.xyz" = "text".
Proof. vm_compute. reflexivity. Qed.

(** ** Path validation and basic filtering *)

Example validate_ok : ValidationUtils.validate_file_path (PyStr "src/file.py") = Ok true.
Proof. vm_compute. reflexivity. Qed.
Example validate_dotdot : ValidationUtils.validate_file_path (PyStr "a..b.txt") = Ok false.
Proof. vm_compute. reflexivity. Qed.
Example validate_drive : ValidationUtils.validate_file_path (PyStr "C:x") = Ok false.
Proof. vm_compute. reflexivity. Qed.
Example validate_none : ValidationUtils.validate_file_path PyNone = Ok false.
Proof. vm_compute. reflexivity. Qed.
Example validate_int : ValidationUtils.validate_file_path (PyInt 7) = Raise TypeError.
Proof. vm_compute. reflexivity. Qed.

Lemma validate_true_safe (v : pyval) :
  ValidationUtils.validate_file_path v = Ok true ->
  exists p, v = PyStr p /\ ~ unsafe_path p.
Proof.
  unfold ValidationUtils.validate_file_path.
  destruct (truthy v) eqn:T; simpl; [| discriminate].
  destruct v as [| z | p]; try discriminate.
  intros Hv. exists p. split; [reflexivity |].
  destruct (Str.contains ".." p) eqn:E1; [discriminate |].
  destruct (Str.startswith p "/") eqn:E2; [discriminate |].
  destruct ((1 <? String.length p)%nat && bool_decide (Str.nth 1 p = Some ":"%char)) eqn:E3;
    [discriminate |].
  destruct (Str.contains Str.backslash p) eqn:E4; [discriminate |].
  destruct (Str.startswith p "./" || Str.contains "/./" p) eqn:E5; [discriminate |].
  apply orb_false_iff in E5 as [E5 E6].
  unfold unsafe_path. intros [-> | [? | [? | [? | [? | [? | Hc]]]]]]; try congruence.
  - simpl in T. discriminate.
  - apply andb_false_iff in E3 as [E3 | E3].
    + apply Nat.ltb_ge in E3. unfold Str.nth in Hc.
      destruct p as [| a [| b r]]; simpl in *; try discriminate; lia.
    + apply bool_decide_eq_false in E3. contradiction.
Qed.

Lemma validate_unsafe (p : string) :
  unsafe_path p -> ValidationUtils.validate_file_path (PyStr p) = Ok false.
Proof.
  intros Hu.
  destruct (ValidationUtils.validate_file_path (PyStr p)) as [[|] | e] eqn:V.
  - apply validate_true_safe in V as (q & [= <-] & Hq). contradiction.
  - reflexivity.
  - unfold ValidationUtils.validate_file_path in V.
    destruct (negb (truthy (PyStr p))); discriminate.
Qed.

Lemma filtering_In (files valid : list FileRecord) (f : FileRecord) :
  FileProcessor._apply_basic_filtering files = Ok valid ->
  In f valid -> In f files /\ FileProcessor.passes_basic_filter f = Ok true.
Proof.
  revert valid. induction files as [| g files IH]; intros valid Hv Hin.
  - simpl in Hv. injection Hv as <-. destruct Hin.
  - simpl in Hv.
    destruct (FileProcessor.passes_basic_filter g) as [keep | e] eqn:K; simpl in Hv;
      [| discriminate].
    destruct (FileProcessor._apply_basic_filtering files) as [rest | e] eqn:R; simpl in Hv;
      [| discriminate].
    injection Hv as <-.
    destruct keep.
    + destruct Hin as [<- | Hin].
      * split; [left; reflexivity | exact K].
      * destruct (IH rest eq_refl Hin) as [H1 H2]. split; [right; exact H1 | exact H2].
    + destruct (IH rest eq_refl Hin) as [H1 H2]. split; [right; exact H1 | exact H2].
Qed.

(** C10: a file whose path is empty, holds [".."] or a backslash, starts
    with ["/"] or ["./"], holds ["/./"] or has [":"] as its second character
    is dropped, and every record of the output has a path with none of these
    features. *)
Theorem basic_filtering_rejects_unsafe_paths :
  (forall f p, get_path f = PyStr p -> unsafe_path p ->
     FileProcessor.passes_basic_filter f = Ok false)
  /\ (forall files valid, FileProcessor._apply_basic_filtering files = Ok valid ->
        forall f, In f valid ->
          In f files /\ exists p, get_path f = PyStr p /\ ~ unsafe_path p).
Proof.
  split.
  - intros f p Hp Hu. unfold FileProcessor.passes_basic_filter.
    rewrite Hp, (validate_unsafe p Hu). reflexivity.
  - intros files valid Hv f Hin.
    destruct (filtering_In files valid f Hv Hin) as [H1 H2]. split; [exact H1 |].
    unfold FileProcessor.passes_basic_filter in H2.
    destruct (ValidationUtils.validate_file_path (get_path f)) as [[|] | e] eqn:V;
      simpl in H2; try discriminate.
    apply validate_true_safe. exact V.
Qed.

Lemma basic_filtering_rejects_unsafe_paths_witness :
  FileProcessor.passes_basic_filter (file "a..b.txt" "text" 4) = Ok false
  /\ FileProcessor._apply_basic_filtering mixed_files = Ok [file "src/ok.py" "x = 1" 5]
  /\ exists p, get_path (file "src/ok.py" "x = 1" 5) = PyStr p /\ ~ unsafe_path p.
Proof.
  assert (Hu : unsafe_path "a..b.txt").
  { right. left. vm_compute. reflexivity. }
  assert (Hv : FileProcessor._apply_basic_filtering mixed_files
               = Ok [file "src/ok.py" "x = 1" 5]).
  { vm_compute. reflexivity. }
  split; [| split; [exact Hv |]].
  - exact (proj1 basic_filtering_rejects_unsafe_paths
             (file "a..b.txt" "text" 4) "a..b.txt" eq_refl Hu).
  - exact (proj2 (proj2 basic_filtering_rejects_unsafe_paths mixed_files _ Hv
                    (file "src/ok.py" "x = 1" 5) (or_introl eq_refl))).
Defined.

Lemma filtering_all_fail (files : list FileRecord) :
  Forall (fun f => FileProcessor.passes_basic_filter f = Ok false) files ->
  FileProcessor._apply_basic_filtering files = Ok [].
Proof.
  induction 1 as [| f files Hf _ IH]; simpl.
  - reflexivity.
  - rewrite Hf. simpl. rewrite IH. reflexivity.
Qed.

(** ** The empty result of [process_files] *)

(** C3: when every file of the input fails the basic filter, and so for the
    empty input, [process_files] returns the empty selection with the error
    entry, and raises nothing. *)
Theorem process_files_no_valid_files `{Engine} (files : list FileRecord)
    (context : option FileProcessor.Context) :
  Forall (fun f => FileProcessor.passes_basic_filter f = Ok false) files ->
  FileProcessor.process_files files context
  = Ok ([], FileProcessor.ErrorInfo "No valid files to process").
Proof.
  intros Hall. unfold FileProcessor.process_files.
  rewrite (filtering_all_fail files Hall). reflexivity.
Qed.

Lemma process_files_no_valid_files_witness :
  Forall (fun f => FileProcessor.passes_basic_filter f = Ok false) rejected_files
  /\ @FileProcessor.process_files SampleEngine.engine rejected_files None
     = Ok ([], FileProcessor.ErrorInfo "No valid files to process").
Proof.
  assert (H : Forall (fun f => FileProcessor.passes_basic_filter f = Ok false) rejected_files).
  { repeat constructor. }
  split; [exact H |].
  exact (@process_files_no_valid_files SampleEngine.engine rejected_files None H).
Defined.

Example process_files_empty `{Engine} :
  FileProcessor.process_files [] None
  = Ok ([], FileProcessor.ErrorInfo "No valid files to process").
Proof. reflexivity. Qed.

(** ** Language detection by content *)

(** C6 as stated fails on the empty content: the guard on [content] comes
    before the look at the extension. *)
Lemma detect_language_by_content_empty_counterexample :
  ~ (forall (E : Engine) (content filename : string),
       LanguageDetector.detect_language_by_extension filename <> "unknown" ->
       LanguageDetector.detect_language_by_content content filename
       = LanguageDetector.detect_language_by_extension filename).
Proof.
  intros Hclaim.
  specialize (Hclaim SampleEngine.engine "" "main.py").
  vm_compute in Hclaim.
  assert (Hne : "python" <> "unknown") by discriminate.
  specialize (Hclaim Hne). discriminate.
Qed.

(** a filename that resolves by extension decides for every non-empty
    content, whatever the engine finds in it *)
Lemma detect_language_by_content_resolved `{Engine} (content filename : string) :
  content <> "" ->
  LanguageDetector.detect_language_by_extension filename <> "unknown" ->
  LanguageDetector.detect_language_by_content content filename
  = LanguageDetector.detect_language_by_extension filename.
Proof.
  intros Hc Hext. unfold LanguageDetector.detect_language_by_content.
  destruct (String.eqb content "") eqn:Ec.
  { apply String.eqb_eq in Ec. contradiction. }
  destruct (String.eqb filename "") eqn:Ef.
  - apply String.eqb_eq in Ef. subst filename. exfalso. apply Hext. reflexivity.
  - destruct (String.eqb (LanguageDetector.detect_language_by_extension filename) "unknown")
      eqn:Eu.
    + apply String.eqb_eq in Eu. contradiction.
    + reflexivity.
Qed.

(** when the filename does not resolve, the content decides: the shebang
    lines first, then the pattern scores, then ["text"] *)
Lemma detect_language_by_content_sniffing `{Engine} (content filename : string) :
  content <> "" ->
  LanguageDetector.detect_language_by_extension filename = "unknown" ->
  LanguageDetector.detect_language_by_content content filename
  = match LanguageDetector.shebang_language content with
    | Some language => language
    | None =>
        match LanguageDetector.content_scores (Str.take 1000 content) with
        | [] => "text"
        | first :: rest => (LanguageDetector.max_score first rest).1
        end
    end.
Proof.
  intros Hc Hext. unfold LanguageDetector.detect_language_by_content.
  destruct (String.eqb content "") eqn:Ec.
  { apply String.eqb_eq in Ec. contradiction. }
  rewrite Hext. destruct (String.eqb filename ""); reflexivity.
Qed.

(** C6, amended: the empty content gives ["unknown"] whatever the filename;
    for a non-empty content, a filename that resolves by extension gives the
    language of the extension, whatever the engine finds in the content; and
    the content is sniffed (the shebang lines, then the pattern scores, then
    ["text"]) exactly when it is not empty and the filename does not
    resolve. *)
Theorem detect_language_by_content_extension_first `{Engine} (content filename : string) :
  LanguageDetector.detect_language_by_content "" filename = "unknown"
  /\ (content <> "" ->
      LanguageDetector.detect_language_by_extension filename <> "unknown" ->
      LanguageDetector.detect_language_by_content content filename
      = LanguageDetector.detect_language_by_extension filename)
  /\ (content <> "" ->
      LanguageDetector.detect_language_by_extension filename = "unknown" ->
      LanguageDetector.detect_language_by_content content filename
      = match LanguageDetector.shebang_language content with
        | Some language => language
        | None =>
            match LanguageDetector.content_scores (Str.take 1000 content) with
            | [] => "text"
            | first :: rest => (LanguageDetector.max_score first rest).1
            end
        end).
Proof.
  split; [reflexivity |]. split.
  - apply detect_language_by_content_resolved.
  - apply detect_language_by_content_sniffing.
Qed.

(** a resolving name with a shebang line of another language, the empty
    content under a name that does not resolve, and a style sheet without
    an extension *)
Lemma detect_language_by_content_extension_first_witness :
  @LanguageDetector.detect_language_by_content SampleEngine.engine
    "#!/bin/bash" "main.py" = "python"
  /\ @LanguageDetector.detect_language_by_content SampleEngine.engine "" "README"
     = "unknown"
  /\ @LanguageDetector.detect_language_by_content SampleEngine.engine
       "@media print" "notes" = "css".
Proof.
  destruct (@detect_language_by_content_extension_first SampleEngine.engine
              "#!/bin/bash" "main.py") as (_ & H2 & _).
  destruct (@detect_language_by_content_extension_first SampleEngine.engine
              "#!/bin/bash" "README") as (H1 & _ & _).
  destruct (@detect_language_by_content_extension_first SampleEngine.engine
              "@media print" "notes") as (_ & _ & H3).
  split; [| split].
  - rewrite H2; [reflexivity | discriminate | vm_compute; discriminate].
  - exact H1.
  - rewrite H3; [reflexivity | discriminate | reflexivity].
Defined.

(** ** The prioritizer *)

Lemma insert_by_priority_perm (x : FileRecord) (l : list FileRecord) :
  FilePrioritizer.insert_by_priority x l ≡ₚ x :: l.
Proof.
  induction l as [| y l IH]; simpl; [reflexivity |].
  destruct (get_priority x <? get_priority y); [| reflexivity].
  rewrite IH. apply Permutation_swap.
Qed.

Lemma sort_by_priority_perm (l : list FileRecord) :
  FilePrioritizer.sort_by_priority l ≡ₚ l.
Proof.
  induction l as [| x l IH]; simpl; [reflexivity |].
  rewrite insert_by_priority_perm. rewrite IH. reflexivity.
Qed.

Section Scoring.
Context `{Engine}.




Lemma prioritize_files_target (files : list FileRecord) (target : option string)
    (out : list FileRecord) :
  FilePrioritizer.prioritize_files files target = Ok out ->
  exists t, out = FilePrioritizer.sort_by_priority
                    (List.map (FilePrioritizer.prioritize_one t) files).
Proof.
  unfold FilePrioritizer.prioritize_files. destruct files as [| f files].
  - intros [= <-]. exists "". reflexivity.
  - step_bind. intros [= <-]. exists x. reflexivity.
Qed.




End Scoring.


(** the record whose size is [None] raises in [_calculate_size_factor] *)
Example score_raises :
  @FilePrioritizer._calculate_priority_score SampleEngine.engine
    (mkFile (Some (PyStr "lib/util.py")) (Some PyNone) (Some (PyStr "x = 1"))
       None None None None) "python"
  = Raise TypeError.
Proof. vm_compute. reflexivity. Qed.

(** ** The selection engine *)

Lemma sum_sizes_app (l : list FileRecord) (f : FileRecord) (s z : Z) :
  FileProcessor.sum_sizes l = Ok s -> get_size f = PyInt z ->
  FileProcessor.sum_sizes (l ++ [f]) = Ok (s + z).
Proof.
  revert s. induction l as [| g l IH]; intros s Hs Hz; simpl in *.
  - injection Hs as <-. rewrite Hz. simpl. f_equal. lia.
  - destruct (get_size g) as [| y |]; try discriminate.
    destruct (FileProcessor.sum_sizes l) as [s' |] eqn:E; simpl in Hs; [| discriminate].
    injection Hs as <-. rewrite (IH s' eq_refl Hz). simpl. f_equal. lia.
Qed.

Lemma within_empty (size_limit count_limit : Z) : within size_limit count_limit [] 0.
Proof.
  split; [reflexivity | split].
  - intros n [Hn Hle]. simpl in Hle. lia.
  - left. reflexivity.
Qed.

(** the only place where a file is appended *)
Lemma within_append (size_limit count_limit : Z) (selected : list FileRecord)
    (total : Z) (f : FileRecord) (z : Z) :
  within size_limit count_limit selected total ->
  get_size f = PyInt z ->
  total + z <= size_limit ->
  Z.of_nat (List.length selected) < count_limit ->
  within size_limit count_limit (selected ++ [f]) (total + z).
Proof.
  intros (Hsum & Hpre & Hlen) Hz Hfit Hcount. split; [| split].
  - exact (sum_sizes_app selected f total z Hsum Hz).
  - intros n [Hn Hle]. destruct (decide (n <= List.length selected)%nat) as [Hn' | Hn'].
    + rewrite take_app_le by exact Hn'. apply Hpre. lia.
    + rewrite take_ge by (rewrite length_app; simpl; lia).
      exists (total + z).
      split; [exact (sum_sizes_app selected f total z Hsum Hz) | exact Hfit].
  - right. rewrite length_app. simpl. lia.
Qed.

(** one tier: the new selection extends the old one by files of the tier,
    in their order *)
Lemma select_from_tier_within (size_limit count_limit : Z) (tier : list FileRecord) :
  forall selected total selected' total',
    within size_limit count_limit selected total ->
    FileProcessor.select_from_tier size_limit count_limit tier selected total
    = Ok (selected', total') ->
    within size_limit count_limit selected' total'
    /\ exists picked, selected' = selected ++ picked /\ picked `sublist_of` tier.
Proof.
  induction tier as [| f tier IH]; intros selected total selected' total' Hw; simpl.
  - intros [= <- <-]. split; [exact Hw |]. exists []. rewrite app_nil_r.
    split; [reflexivity | constructor].
  - destruct (get_size f) as [| z |] eqn:Hz; try discriminate.
    destruct (size_limit <? total + z) eqn:Hover.
    + step_bind. destruct x.
      * intros Hrec. destruct (IH _ _ _ _ Hw Hrec) as (Hw' & picked & -> & Hsub).
        split; [exact Hw' |]. exists picked.
        split; [reflexivity | apply sublist_cons; exact Hsub].
      * intros [= <- <-]. split; [exact Hw |]. exists []. rewrite app_nil_r.
        split; [reflexivity | apply sublist_nil_l].
    + destruct (count_limit <=? Z.of_nat (List.length selected)) eqn:Hfull.
      * intros [= <- <-]. split; [exact Hw |]. exists []. rewrite app_nil_r.
        split; [reflexivity | apply sublist_nil_l].
      * intros Hrec.
        assert (Hw1 : within size_limit count_limit (selected ++ [f]) (total + z)).
        { apply within_append; [exact Hw | exact Hz | lia | lia]. }
        destruct (IH _ _ _ _ Hw1 Hrec) as (Hw' & picked & -> & Hsub).
        split; [exact Hw' |]. exists (f :: picked). split.
        -- rewrite <- app_assoc. reflexivity.
        -- apply sublist_skip. exact Hsub.
Qed.

Lemma select_from_tiers_within (size_limit count_limit : Z)
    (tiers : list (list FileRecord)) :
  forall selected total selected',
    within size_limit count_limit selected total ->
    FileProcessor.select_from_tiers size_limit count_limit tiers selected total
    = Ok selected' ->
    (exists total', within size_limit count_limit selected' total')
    /\ exists picked, selected' = selected ++ picked
                      /\ picked `sublist_of` List.concat tiers.
Proof.
  induction tiers as [| tier tiers IH]; intros selected total selected' Hw; simpl.
  - intros [= <-]. split; [exists total; exact Hw |]. exists []. rewrite app_nil_r.
    split; [reflexivity | constructor].
  - destruct (FileProcessor.select_from_tier size_limit count_limit tier selected total)
      as [[sel tot] |] eqn:Htier; simpl; [| discriminate].
    destruct (select_from_tier_within _ _ _ _ _ _ _ Hw Htier) as (Hw' & p1 & -> & Hp1).
    step_bind. destruct x.
    + intros [= <-]. split; [exists tot; exact Hw' |]. exists p1. split; [reflexivity |].
      apply sublist_inserts_r. exact Hp1.
    + intros Hrec. destruct (IH _ _ _ Hw' Hrec) as (Htot & p2 & -> & Hp2).
      split; [exact Htot |]. exists (p1 ++ p2). split.
      * rewrite <- app_assoc. reflexivity.
      * apply sublist_app; assumption.
Qed.

Lemma selection_within (files : list FileRecord) (context : FileProcessor.Context)
    (selected : list FileRecord) :
  FileProcessor._perform_smart_selection files context = Ok selected ->
  (exists total, within (size_limit_of context) (count_limit_of context) selected total)
  /\ selected `sublist_of` List.concat (FileProcessor._group_by_priority_tiers files).
Proof.
  unfold FileProcessor._perform_smart_selection. destruct files as [| f files].
  - intros [= <-]. split; [exists 0; apply within_empty | apply sublist_nil_l].
  - intros Hsel.
    destruct (select_from_tiers_within _ _ _ _ _ _ (within_empty _ _) Hsel)
      as (Htot & picked & -> & Hsub).
    split; [exact Htot | exact Hsub].
Qed.

Lemma within_total (size_limit count_limit : Z) (selected : list FileRecord) (total : Z) :
  0 <= size_limit -> within size_limit count_limit selected total -> total <= size_limit.
Proof.
  intros Hs (Hsum & Hpre & _). destruct selected as [| f selected].
  - simpl in Hsum. injection Hsum as <-. exact Hs.
  - destruct (Hpre (List.length (f :: selected))) as (s & Hs' & Hle); [simpl; lia |].
    rewrite take_ge in Hs' by lia. congruence.
Qed.

(** C1: for a byte budget and a count budget that are not negative, the
    sizes of the selected records add up to at most [max_total_size] and
    there are at most [max_files] of them. *)
Theorem selection_respects_budgets (files : list FileRecord)
    (context : FileProcessor.Context) (selected : list FileRecord) :
  0 <= size_limit_of context -> 0 <= count_limit_of context ->
  FileProcessor._perform_smart_selection files context = Ok selected ->
  (exists total, FileProcessor.sum_sizes selected = Ok total
                 /\ total <= size_limit_of context)
  /\ Z.of_nat (List.length selected) <= count_limit_of context.
Proof.
  intros Hs Hc Hsel.
  destruct (selection_within files context selected Hsel) as ((total & Hw) & _).
  split.
  - exists total. split; [exact (proj1 Hw) | exact (within_total _ _ _ _ Hs Hw)].
  - destruct (proj2 (proj2 Hw)) as [-> | Hlen]; [simpl; exact Hc | exact Hlen].
Qed.

Lemma selection_respects_budgets_witness :
  0 <= size_limit_of sample_context /\ 0 <= count_limit_of sample_context
  /\ FileProcessor._perform_smart_selection sample_ranked sample_context
     = Ok [ranked "main.py" 95 900; ranked "setup.py" 4 870]
  /\ (exists total,
        FileProcessor.sum_sizes [ranked "main.py" 95 900; ranked "setup.py" 4 870] = Ok total
        /\ total <= size_limit_of sample_context)
  /\ Z.of_nat (List.length [ranked "main.py" 95 900; ranked "setup.py" 4 870])
     <= count_limit_of sample_context.
Proof.
  assert (Hs : 0 <= size_limit_of sample_context) by (vm_compute; discriminate).
  assert (Hc : 0 <= count_limit_of sample_context) by (vm_compute; discriminate).
  assert (Hsel : FileProcessor._perform_smart_selection sample_ranked sample_context
                 = Ok [ranked "main.py" 95 900; ranked "setup.py" 4 870]).
  { vm_compute. reflexivity. }
  split; [exact Hs | split; [exact Hc | split; [exact Hsel |]]].
  exact (selection_respects_budgets sample_ranked sample_context _ Hs Hc Hsel).
Defined.

(** C9: a file is appended only when the running total plus its size is at
    most [max_total_size]: the selection is a subsequence of the tiers, every
    non-empty prefix of it fits the byte budget, and so does the whole
    selection for a budget that is not negative.  The small-file rule only
    skips. *)
Theorem selection_never_overflows (files : list FileRecord)
    (context : FileProcessor.Context) (selected : list FileRecord) :
  FileProcessor._perform_smart_selection files context = Ok selected ->
  selected `sublist_of` List.concat (FileProcessor._group_by_priority_tiers files)
  /\ (forall n, (0 < n <= List.length selected)%nat ->
        exists s, FileProcessor.sum_sizes (take n selected) = Ok s
                  /\ s <= size_limit_of context)
  /\ (0 <= size_limit_of context ->
        exists total, FileProcessor.sum_sizes selected = Ok total
                      /\ total <= size_limit_of context).
Proof.
  intros Hsel.
  destruct (selection_within files context selected Hsel) as ((total & Hw) & Hsub).
  split; [exact Hsub | split; [exact (proj1 (proj2 Hw)) |]].
  intros Hs. exists total. split; [exact (proj1 Hw) | exact (within_total _ _ _ _ Hs Hw)].
Qed.

Lemma selection_never_overflows_witness :
  FileProcessor._perform_smart_selection sample_ranked sample_context
  = Ok [ranked "main.py" 95 900; ranked "setup.py" 4 870]
  /\ [ranked "main.py" 95 900; ranked "setup.py" 4 870]
       `sublist_of` List.concat (FileProcessor._group_by_priority_tiers sample_ranked)
  /\ (forall n, (0 < n <= 2)%nat ->
        exists s, FileProcessor.sum_sizes
                    (take n [ranked "main.py" 95 900; ranked "setup.py" 4 870]) = Ok s
                  /\ s <= 100)
  /\ (0 <= 100 ->
        exists total,
          FileProcessor.sum_sizes [ranked "main.py" 95 900; ranked "setup.py" 4 870]
          = Ok total /\ total <= 100).
Proof.
  assert (Hsel : FileProcessor._perform_smart_selection sample_ranked sample_context
                 = Ok [ranked "main.py" 95 900; ranked "setup.py" 4 870]).
  { vm_compute. reflexivity. }
  split; [exact Hsel |].
  exact (selection_never_overflows sample_ranked sample_context _ Hsel).
Defined.

(** with a negative budget nothing is selected, and the empty sum, zero, is
    above the budget *)
Example selection_negative_budget :
  FileProcessor._perform_smart_selection sample_ranked
    (FileProcessor.mkContext (Some (-1)) (Some 3)) = Ok [].
Proof. vm_compute. reflexivity. Qed.

(** ** The dependency extractor *)

Lemma keep_dep_spec (dep : string) :
  DependencyExtractor.keep_dep dep = true ->
  (2 <= String.length dep <= 49)%nat /\ Str.startswith dep "." = false.
Proof.
  unfold DependencyExtractor.keep_dep. intros Hk.
  apply andb_true_iff in Hk as [Hk H3]. apply andb_true_iff in Hk as [H1 H2].
  apply Nat.ltb_lt in H1. apply Nat.ltb_lt in H2. apply negb_true_iff in H3.
  split; [lia | exact H3].
Qed.

(** C8: the result is sorted, without duplicates and at most 30 long; each
    entry has 2 to 49 characters and does not start with a dot; a language
    without a parser gives the empty list. *)
Theorem extract_dependencies_contract `{Engine} (files : list FileRecord)
    (primary_language : string) :
  let deps := DependencyExtractor.extract_dependencies files primary_language in
  StronglySorted String.le deps
  /\ NoDup deps
  /\ (List.length deps <= 30)%nat
  /\ (forall dep, In dep deps ->
        (2 <= String.length dep <= 49)%nat /\ Str.startswith dep "." = false)
  /\ (~ In primary_language
          ["python"; "javascript"; "typescript"; "java"; "go"; "rust"; "csharp"] ->
      deps = []).
Proof.
  unfold DependencyExtractor.extract_dependencies.
  destruct (Config.lookup primary_language DependencyExtractor.extractors)
    as [extractor |] eqn:Hlang; simpl.
  - set (all_deps := DependencyExtractor.collect extractor ∅ files).
    set (filtered := List.filter DependencyExtractor.keep_dep (elements all_deps)).
    assert (Hperm : merge_sort String.le filtered ≡ₚ filtered)
      by apply merge_sort_Permutation.
    split; [| split; [| split; [| split]]].
    + apply StronglySorted_take. apply StronglySorted_merge_sort; apply _.
    + apply (sublist_NoDup _ (merge_sort String.le filtered)); [| apply sublist_take].
      rewrite Hperm. apply NoDup_ListNoDup. apply List.NoDup_filter.
      apply NoDup_ListNoDup. apply NoDup_elements.
    + rewrite length_take. lia.
    + intros dep Hin. apply keep_dep_spec.
      apply list_elem_of_In in Hin.
      pose proof (elem_of_sublist _ _ _ Hin (sublist_take _ _)) as Hin'.
      rewrite Hperm in Hin'. apply list_elem_of_In in Hin'.
      apply filter_In in Hin' as [_ Hk]. exact Hk.
    + intros Hnot. exfalso. apply Hnot.
      unfold DependencyExtractor.extractors in Hlang. simpl in Hlang.
      repeat match type of Hlang with
             | (if String.eqb ?a ?b then _ else _) = _ =>
                 let E := fresh "E" in
                 destruct (String.eqb a b) eqn:E;
                 [apply String.eqb_eq in E; subst; simpl; tauto |]
             end.
      discriminate.
  - split; [constructor |]. split; [constructor |]. split; [simpl; lia |].
    split; [intros dep [] | intros _; reflexivity].
Qed.

Lemma extract_dependencies_contract_witness :
  @DependencyExtractor.extract_dependencies SampleEngine.engine requirements_files "python"
  = ["flask"; "requests"]
  /\ @DependencyExtractor.extract_dependencies SampleEngine.engine requirements_files "ruby"
     = []
  /\ (forall dep, In dep ["flask"; "requests"] ->
        (2 <= String.length dep <= 49)%nat /\ Str.startswith dep "." = false).
Proof.
  assert (Hpy : @DependencyExtractor.extract_dependencies SampleEngine.engine
                  requirements_files "python" = ["flask"; "requests"]).
  { vm_compute. reflexivity. }
  assert (Hruby : ~ In "ruby"
                      ["python"; "javascript"; "typescript"; "java"; "go"; "rust"; "csharp"]).
  { simpl. intros [H | [H | [H | [H | [H | [H | [H | []]]]]]]]; discriminate. }
  pose proof (@extract_dependencies_contract SampleEngine.engine requirements_files "python")
    as Hc.
  pose proof (@extract_dependencies_contract SampleEngine.engine requirements_files "ruby")
    as Hr.
  simpl in Hc, Hr. destruct Hc as (_ & _ & _ & Hdeps & _). destruct Hr as (_ & _ & _ & _ & Hr).
  split; [exact Hpy | split; [exact (Hr Hruby) |]].
  rewrite Hpy in Hdeps. exact Hdeps.
Defined.

(** ** Facts about [Float64]: rounding is monotone *)

Module Float64Facts.
Import Float64.

Lemma scale_num_eq (n e : Z) : scale_num n e = n * 2 ^ Z.max 0 (- e).
Proof.
  unfold scale_num. destruct (Z.ltb_spec e 0).
  - rewrite Z.max_r by lia. reflexivity.
  - rewrite Z.max_l by lia. simpl. lia.
Qed.

Lemma scale_den_eq (d e : Z) : scale_den d e = d * 2 ^ Z.max 0 e.
Proof.
  unfold scale_den. destruct (Z.ltb_spec e 0).
  - rewrite Z.max_l by lia. simpl. lia.
  - rewrite Z.max_r by lia. reflexivity.
Qed.

Lemma pow2_pos (k : Z) : 0 <= k -> 0 < 2 ^ k.
Proof. intros. apply Z.pow_pos_nonneg; lia. Qed.

Lemma scale_num_pos (n e : Z) : 0 < n -> 0 < scale_num n e.
Proof.
  intros Hn. rewrite scale_num_eq. apply Z.mul_pos_pos; [exact Hn | apply pow2_pos; lia].
Qed.

Lemma scale_den_pos (d e : Z) : 0 < d -> 0 < scale_den d e.
Proof.
  intros Hd. rewrite scale_den_eq. apply Z.mul_pos_pos; [exact Hd | apply pow2_pos; lia].
Qed.

Lemma scale_num_nonneg (n e : Z) : 0 <= n -> 0 <= scale_num n e.
Proof.
  intros Hn. rewrite scale_num_eq. apply Z.mul_nonneg_nonneg; [exact Hn |].
  apply Z.lt_le_incl, pow2_pos; lia.
Qed.

(** [n / d >= 2^(e + k)] is [(n / 2^e) / d >= 2^k], for [k >= 0] *)
Lemma ge2_scale (n d e k : Z) :
  0 <= k ->
  ge2 n d (e + k) <-> scale_den d e * 2 ^ k <= scale_num n e.
Proof.
  intros Hk. unfold ge2. rewrite !scale_num_eq, !scale_den_eq.
  assert (Hpk : 0 < 2 ^ k) by (apply pow2_pos; lia).
  destruct (Z.le_gt_cases 0 e) as [He | He].
  - rewrite (Z.max_r 0 (e + k)), (Z.max_l 0 (- (e + k))), (Z.max_r 0 e), (Z.max_l 0 (- e)) by lia.
    rewrite Z.pow_add_r by lia. simpl. lia.
  - rewrite (Z.max_l 0 e), (Z.max_r 0 (- e)) by lia. simpl (2 ^ 0).
    assert (Hpe : 0 < 2 ^ (- e)) by (apply pow2_pos; lia).
    destruct (Z.le_gt_cases 0 (e + k)) as [Hek | Hek].
    + rewrite (Z.max_r 0 (e + k)), (Z.max_l 0 (- (e + k))) by lia. simpl (2 ^ 0).
      assert (E : 2 ^ k = 2 ^ (e + k) * 2 ^ (- e)).
      { rewrite <- Z.pow_add_r by lia. f_equal. lia. }
      rewrite E. split; intros Hle; nia.
    + rewrite (Z.max_l 0 (e + k)), (Z.max_r 0 (- (e + k))) by lia. simpl (2 ^ 0).
      assert (E : 2 ^ (- e) = 2 ^ (- (e + k)) * 2 ^ k).
      { rewrite <- Z.pow_add_r by lia. f_equal. lia. }
      rewrite E. split; intros Hle; nia.
Qed.

Lemma lt2_scale (n d e k : Z) :
  0 <= k ->
  lt2 n d (e + k) <-> scale_num n e < scale_den d e * 2 ^ k.
Proof.
  intros Hk. pose proof (ge2_scale n d e k Hk) as Hg. unfold ge2, lt2 in *. lia.
Qed.

Lemma ge2_0 (n d : Z) : ge2 n d 0 <-> d <= n.
Proof. unfold ge2, scale_num, scale_den. simpl. lia. Qed.

Lemma ge2_mono (n d k k' : Z) : 0 < n -> 0 < d -> ge2 n d k -> k' <= k -> ge2 n d k'.
Proof.
  intros Hn Hd Hg Hk.
  replace k with (k' + (k - k')) in Hg by lia.
  apply ge2_scale in Hg; [| lia].
  unfold ge2.
  assert (1 <= 2 ^ (k - k')) by (pose proof (pow2_pos (k - k')); lia).
  pose proof (scale_den_pos d k' Hd). nia.
Qed.

Lemma lt2_mono (n d k k' : Z) : 0 < n -> 0 < d -> lt2 n d k -> k <= k' -> lt2 n d k'.
Proof.
  intros Hn Hd Hl Hk.
  destruct (Z.lt_ge_cases (scale_num n k') (scale_den d k')) as [H | H]; [exact H |].
  exfalso. assert (Hg : ge2 n d k') by exact H.
  pose proof (ge2_mono n d k' k Hn Hd Hg Hk) as Hg'. unfold ge2, lt2 in *. lia.
Qed.

(** [ilog2_ratio n d] is the floor of the binary logarithm of [n / d] *)
Lemma ilog2_ratio_spec (n d : Z) :
  0 < n -> 0 < d ->
  ge2 n d (ilog2_ratio n d) /\ lt2 n d (ilog2_ratio n d + 1).
Proof.
  intros Hn Hd.
  destruct (Z.log2_spec n Hn) as [Hn1 Hn2]. destruct (Z.log2_spec d Hd) as [Hd1 Hd2].
  pose proof (Z.log2_nonneg n) as Ln. pose proof (Z.log2_nonneg d) as Ld.
  set (a := Z.log2 n) in *. set (b := Z.log2 d) in *.
  (* n / d lies strictly between 2^(a-b-1) and 2^(a-b+1) *)
  assert (Hlow : ge2 n d (a - b - 1)).
  { unfold ge2. rewrite scale_num_eq, scale_den_eq.
    destruct (Z.le_gt_cases 0 (a - b - 1)) as [Hs | Hs].
    - rewrite (Z.max_r 0 (a - b - 1)), (Z.max_l 0 (- (a - b - 1))) by lia. simpl (2 ^ 0).
      assert (E : 2 ^ a = 2 ^ (b + 1) * 2 ^ (a - b - 1)).
      { rewrite <- Z.pow_add_r by lia. f_equal. lia. }
      replace (Z.succ b) with (b + 1) in Hd2 by lia.
      assert (0 < 2 ^ (a - b - 1)) by (apply pow2_pos; lia). nia.
    - rewrite (Z.max_l 0 (a - b - 1)), (Z.max_r 0 (- (a - b - 1))) by lia. simpl (2 ^ 0).
      assert (E : 2 ^ (b + 1) = 2 ^ a * 2 ^ (- (a - b - 1))).
      { rewrite <- Z.pow_add_r by lia. f_equal. lia. }
      replace (Z.succ b) with (b + 1) in Hd2 by lia.
      assert (0 < 2 ^ (- (a - b - 1))) by (apply pow2_pos; lia). nia. }
  assert (Hhigh : lt2 n d (a - b + 1)).
  { unfold lt2. rewrite scale_num_eq, scale_den_eq.
    destruct (Z.le_gt_cases 0 (a - b + 1)) as [Hs | Hs].
    - rewrite (Z.max_r 0 (a - b + 1)), (Z.max_l 0 (- (a - b + 1))) by lia. simpl (2 ^ 0).
      assert (E : 2 ^ (a + 1) = 2 ^ b * 2 ^ (a - b + 1)).
      { rewrite <- Z.pow_add_r by lia. f_equal. lia. }
      replace (Z.succ a) with (a + 1) in Hn2 by lia.
      assert (0 < 2 ^ (a - b + 1)) by (apply pow2_pos; lia). nia.
    - rewrite (Z.max_l 0 (a - b + 1)), (Z.max_r 0 (- (a - b + 1))) by lia. simpl (2 ^ 0).
      assert (E : 2 ^ b = 2 ^ (a + 1) * 2 ^ (- (a - b + 1))).
      { rewrite <- Z.pow_add_r by lia. f_equal. lia. }
      replace (Z.succ a) with (a + 1) in Hn2 by lia.
      assert (0 < 2 ^ (- (a - b + 1))) by (apply pow2_pos; lia). nia. }
  unfold ilog2_ratio. fold a b.
  destruct (Z.leb_spec (scale_den d (a - b)) (scale_num n (a - b))) as [Hc | Hc].
  - split; [exact Hc | exact Hhigh].
  - split; [exact Hlow |]. replace (a - b - 1 + 1) with (a - b) by lia. exact Hc.
Qed.

(** *** rounding to the nearest integer *)

Lemma round_half_even_spec (N D : Z) :
  0 < D ->
  let q := round_half_even N D in
  2 * Z.abs (N - q * D) <= D /\ (2 * Z.abs (N - q * D) = D -> Z.even q = true).
Proof.
  intros HD. unfold round_half_even.
  pose proof (Z.div_mod N D ltac:(lia)) as E.
  pose proof (Z.mod_pos_bound N D HD) as B.
  set (q0 := N / D) in *. set (r := N mod D) in *.
  destruct (Z.compare_spec (2 * r) D) as [Heq | Hlt | Hgt]; cbv zeta.
  - destruct (Z.even q0) eqn:Hev.
    + split; [lia | intros _; exact Hev].
    + split; [lia |]. intros _. rewrite Z.even_add, Hev. reflexivity.
  - split; lia.
  - split; lia.
Qed.

(** the nearest integer is monotone in the ratio *)
Lemma round_half_even_mono (N1 D1 N2 D2 : Z) :
  0 < D1 -> 0 < D2 -> N1 * D2 <= N2 * D1 ->
  round_half_even N1 D1 <= round_half_even N2 D2.
Proof.
  intros H1 H2 Hle.
  destruct (round_half_even_spec N1 D1 H1) as [A1 T1].
  destruct (round_half_even_spec N2 D2 H2) as [A2 T2].
  set (q1 := round_half_even N1 D1) in *. set (q2 := round_half_even N2 D2) in *.
  destruct (Z.le_gt_cases q1 q2) as [Hq | Hq]; [exact Hq | exfalso].
  assert (U1 : 2 * q1 * D1 <= 2 * N1 + D1) by lia.
  assert (L2 : 2 * N2 - D2 <= 2 * q2 * D2) by lia.
  assert (Hchain : 2 * q1 * (D1 * D2) <= 2 * q2 * (D1 * D2) + 2 * (D1 * D2)) by nia.
  assert (Hpos : 0 < D1 * D2) by nia.
  assert (Hq1 : q1 = q2 + 1) by nia.
  assert (E1 : 2 * q1 * D1 = 2 * N1 + D1) by nia.
  assert (E2 : 2 * N2 - D2 = 2 * q2 * D2) by nia.
  assert (Ev1 : Z.even q1 = true) by (apply T1; lia).
  assert (Ev2 : Z.even q2 = true) by (apply T2; lia).
  rewrite Hq1, Z.even_add, Ev2 in Ev1. discriminate.
Qed.

Lemma round_half_even_nonneg (N D : Z) : 0 <= N -> 0 < D -> 0 <= round_half_even N D.
Proof.
  intros HN HD. unfold round_half_even.
  assert (0 <= N / D) by (apply Z.div_pos; lia).
  destruct (2 * (N mod D) ?= D); [destruct (Z.even _) | |]; lia.
Qed.

Lemma round_half_even_exact (K D : Z) : 0 < D -> round_half_even (K * D) D = K.
Proof.
  intros HD. unfold round_half_even.
  rewrite Z.div_mul, Z.mod_mul by lia.
  destruct (Z.compare_spec (2 * 0) D); lia.
Qed.

(** the nearest integer to a ratio at most [K] is at most [K] *)
Lemma round_half_even_le (N D K : Z) : 0 < D -> N <= K * D -> round_half_even N D <= K.
Proof.
  intros HD HN. rewrite <- (round_half_even_exact K D HD).
  apply round_half_even_mono; [lia | lia | nia].
Qed.

Lemma round_half_even_ge (N D K : Z) : 0 < D -> K * D <= N -> K <= round_half_even N D.
Proof.
  intros HD HN. rewrite <- (round_half_even_exact K D HD) at 1.
  apply round_half_even_mono; [lia | lia | nia].
Qed.

Lemma pow2_add (a b : Z) : 0 <= a -> 0 <= b -> 2 ^ (a + b) = 2 ^ a * 2 ^ b.
Proof. intros. apply Z.pow_add_r; lia. Qed.

Lemma pow2_le (a b : Z) : 0 <= a <= b -> 2 ^ a <= 2 ^ b.
Proof. intros. apply Z.pow_le_mono_r; lia. Qed.

Lemma pow2_lt_inv (a b : Z) : 0 <= a -> 0 <= b -> 2 ^ a < 2 ^ b -> a < b.
Proof. intros Ha Hb H. apply (Z.pow_lt_mono_r_iff 2); lia. Qed.

(** a larger ratio is above the same powers of two *)
Lemma ge2_ratio (n1 d1 n2 d2 k : Z) :
  0 < d1 -> 0 < d2 -> n1 * d2 <= n2 * d1 -> ge2 n1 d1 k -> ge2 n2 d2 k.
Proof.
  unfold ge2. rewrite !scale_num_eq, !scale_den_eq. intros H1 H2 Hle Hg.
  assert (Ha : 0 < 2 ^ Z.max 0 (- k)) by (apply pow2_pos; lia).
  assert (Hb : 0 < 2 ^ Z.max 0 k) by (apply pow2_pos; lia).
  set (a := 2 ^ Z.max 0 (- k)) in *. set (b := 2 ^ Z.max 0 k) in *.
  assert (d1 * (d2 * b) <= d1 * (n2 * a)); [| nia].
  assert (d2 * (d1 * b) <= d2 * (n1 * a)) by nia.
  assert (d2 * (n1 * a) <= d1 * (n2 * a)) by nia.
  lia.
Qed.

Lemma ilog2_ratio_mono (n1 d1 n2 d2 : Z) :
  0 < n1 -> 0 < d1 -> 0 < d2 -> n1 * d2 <= n2 * d1 ->
  ilog2_ratio n1 d1 <= ilog2_ratio n2 d2.
Proof.
  intros Hn1 Hd1 Hd2 Hle.
  assert (Hn2 : 0 < n2) by nia.
  destruct (ilog2_ratio_spec n1 d1 Hn1 Hd1) as [G1 _].
  destruct (ilog2_ratio_spec n2 d2 Hn2 Hd2) as [_ L2].
  destruct (Z.le_gt_cases (ilog2_ratio n1 d1) (ilog2_ratio n2 d2)) as [H | H]; [exact H |].
  exfalso.
  pose proof (ge2_ratio n1 d1 n2 d2 _ Hd1 Hd2 Hle G1) as G2.
  pose proof (ge2_mono n2 d2 _ (ilog2_ratio n2 d2 + 1) Hn2 Hd2 G2 ltac:(lia)) as G3.
  unfold ge2, lt2 in *. lia.
Qed.

Lemma round_pos_finish (n d : Z) : round_pos n d = finish (round_sig n d) (round_exp n d).
Proof. reflexivity. Qed.

Lemma round_exp_ge (n d : Z) : emin <= round_exp n d.
Proof. unfold round_exp. lia. Qed.

Lemma round_sig_bounds (n d : Z) :
  0 < n -> 0 < d ->
  0 <= round_sig n d <= 2 ^ 53 /\
  (emin < round_exp n d -> 2 ^ 52 <= round_sig n d).
Proof.
  intros Hn Hd. unfold round_sig.
  destruct (ilog2_ratio_spec n d Hn Hd) as [G L].
  pose proof (scale_den_pos d (round_exp n d) Hd) as HD.
  pose proof (scale_num_pos n (round_exp n d) Hn) as HN.
  assert (He : ilog2_ratio n d - 52 <= round_exp n d) by (unfold round_exp; lia).
  repeat split.
  - apply round_half_even_nonneg; lia.
  - apply round_half_even_le; [exact HD |].
    assert (L' : lt2 n d (round_exp n d + 53)).
    { apply (lt2_mono n d (ilog2_ratio n d + 1)); [exact Hn | exact Hd | exact L | lia]. }
    apply lt2_scale in L'; lia.
  - intros Hnorm. assert (E : round_exp n d = ilog2_ratio n d - 52) by (unfold round_exp in *; lia).
    apply round_half_even_ge; [exact HD |].
    replace (ilog2_ratio n d) with (round_exp n d + 52) in G by lia.
    apply ge2_scale in G; lia.
Qed.

(** the rounded value, scaled by [2^-emin], is monotone in the ratio *)
Lemma round_sig_mono (n1 d1 n2 d2 : Z) :
  0 < n1 -> 0 < d1 -> 0 < d2 -> n1 * d2 <= n2 * d1 ->
  round_sig n1 d1 * 2 ^ (round_exp n1 d1 - emin) <=
  round_sig n2 d2 * 2 ^ (round_exp n2 d2 - emin).
Proof.
  intros Hn1 Hd1 Hd2 Hle.
  assert (Hn2 : 0 < n2) by nia.
  pose proof (ilog2_ratio_mono n1 d1 n2 d2 Hn1 Hd1 Hd2 Hle) as Hil.
  pose proof (round_exp_ge n1 d1) as He1. pose proof (round_exp_ge n2 d2) as He2.
  assert (Hee : round_exp n1 d1 <= round_exp n2 d2) by (unfold round_exp; lia).
  destruct (Z.eq_dec (round_exp n1 d1) (round_exp n2 d2)) as [Heq | Hne].
  - rewrite <- Heq. apply Z.mul_le_mono_nonneg_r; [apply Z.lt_le_incl, pow2_pos; lia |].
    unfold round_sig. rewrite <- Heq.
    set (e := round_exp n1 d1).
    apply round_half_even_mono; [apply scale_den_pos; lia | apply scale_den_pos; lia |].
    rewrite !scale_num_eq, !scale_den_eq.
    assert (0 < 2 ^ Z.max 0 (- e)) by (apply pow2_pos; lia).
    assert (0 < 2 ^ Z.max 0 e) by (apply pow2_pos; lia).
    nia.
  - assert (Hlt : round_exp n1 d1 < round_exp n2 d2) by lia.
    destruct (round_sig_bounds n2 d2 Hn2 Hd2) as [_ Hnorm].
    specialize (Hnorm ltac:(lia)).
    assert (E2 : round_exp n2 d2 = ilog2_ratio n2 d2 - 52) by (unfold round_exp in *; lia).
    assert (E1 : ilog2_ratio n1 d1 - 52 <= round_exp n1 d1) by (unfold round_exp; lia).
    set (e1 := round_exp n1 d1) in *. set (e2 := round_exp n2 d2) in *.
    set (k := Z.max (ilog2_ratio n1 d1 + 1 - e1) 0).
    assert (Hm1 : round_sig n1 d1 <= 2 ^ k).
    { unfold round_sig. fold e1. apply round_half_even_le; [apply scale_den_pos; lia |].
      destruct (ilog2_ratio_spec n1 d1 Hn1 Hd1) as [_ L].
      assert (L' : lt2 n1 d1 (e1 + k)).
      { apply (lt2_mono n1 d1 (ilog2_ratio n1 d1 + 1)); [exact Hn1 | exact Hd1 | exact L | lia]. }
      apply lt2_scale in L'; lia. }
    assert (Hk : k <= 52 + (e2 - e1)) by lia.
    assert (Hk0 : 0 <= k) by lia.
    assert (P1 : 0 < 2 ^ (e1 - emin)) by (apply pow2_pos; lia).
    assert (P2 : 2 ^ (e2 - emin) = 2 ^ (e2 - e1) * 2 ^ (e1 - emin)).
    { rewrite <- pow2_add by lia. f_equal. lia. }
    assert (P3 : 2 ^ k <= 2 ^ (52 + (e2 - e1))) by (apply pow2_le; lia).
    rewrite pow2_add in P3 by lia.
    assert (P4 : 0 < 2 ^ (e2 - e1)) by (apply pow2_pos; lia).
    rewrite P2.
    assert (round_sig n1 d1 <= round_sig n2 d2 * 2 ^ (e2 - e1)) by nia.
    nia.
Qed.

(** *** the order on floats *)

(** two finite values compare as their significands brought to a common
    exponent [k] *)
Lemma compare_fin_scaled (m1 e1 m2 e2 k : Z) :
  k <= e1 -> k <= e2 ->
  compare_fin m1 e1 m2 e2 = (m1 * 2 ^ (e1 - k) ?= m2 * 2 ^ (e2 - k)).
Proof.
  intros H1 H2. unfold compare_fin.
  set (e := Z.min e1 e2).
  assert (P : 0 < 2 ^ (e - k)) by (apply pow2_pos; lia).
  assert (E1 : 2 ^ (e1 - k) = 2 ^ (e1 - e) * 2 ^ (e - k)).
  { rewrite <- pow2_add by lia. f_equal. lia. }
  assert (E2 : 2 ^ (e2 - k) = 2 ^ (e2 - e) * 2 ^ (e - k)).
  { rewrite <- pow2_add by lia. f_equal. lia. }
  rewrite E1, E2, !Z.mul_assoc.
  set (a := m1 * 2 ^ (e1 - e)). set (b := m2 * 2 ^ (e2 - e)). set (p := 2 ^ (e - k)) in *.
  destruct (Z.compare_spec a b), (Z.compare_spec (a * p) (b * p));
    try reflexivity; exfalso; nia.
Qed.

Lemma leb_fin (m1 e1 m2 e2 k : Z) :
  k <= e1 -> k <= e2 ->
  leb (Fin m1 e1) (Fin m2 e2) = true <-> m1 * 2 ^ (e1 - k) <= m2 * 2 ^ (e2 - k).
Proof.
  intros H1 H2. unfold leb, compare. rewrite (compare_fin_scaled m1 e1 m2 e2 k H1 H2).
  destruct (Z.compare_spec (m1 * 2 ^ (e1 - k)) (m2 * 2 ^ (e2 - k))); split; intros; try lia;
    try reflexivity; try discriminate.
Qed.

Lemma ltb_fin (m1 e1 m2 e2 k : Z) :
  k <= e1 -> k <= e2 ->
  ltb (Fin m1 e1) (Fin m2 e2) = true <-> m1 * 2 ^ (e1 - k) < m2 * 2 ^ (e2 - k).
Proof.
  intros H1 H2. unfold ltb, compare. rewrite (compare_fin_scaled m1 e1 m2 e2 k H1 H2).
  destruct (Z.compare_spec (m1 * 2 ^ (e1 - k)) (m2 * 2 ^ (e2 - k))); split; intros; try lia;
    try reflexivity; try discriminate.
Qed.

Lemma leb_refl (x : float) : x <> NaN -> leb x x = true.
Proof.
  destruct x as [| s | m e]; intros H; [congruence | destruct s; reflexivity |].
  apply (leb_fin m e m e e); lia.
Qed.

Lemma leb_trans (x y z : float) : leb x y = true -> leb y z = true -> leb x z = true.
Proof.
  intros H1 H2.
  destruct x as [| s1 | m1 e1]; [discriminate | |].
  - destruct s1; [destruct z as [| [] |]; [| reflexivity | reflexivity | reflexivity] |].
    + destruct y as [| [] |]; discriminate.
    + destruct y as [| [] |]; try discriminate. destruct z as [| [] |]; try discriminate.
      reflexivity.
  - destruct y as [| s2 | m2 e2]; [discriminate | |].
    + destruct s2; [discriminate |]. destruct z as [| [] |]; try discriminate. reflexivity.
    + destruct z as [| s3 | m3 e3]; [discriminate | |].
      * destruct s3; [discriminate | reflexivity].
      * set (k := Z.min e1 (Z.min e2 e3)).
        apply (leb_fin m1 e1 m2 e2 k) in H1; [| lia | lia].
        apply (leb_fin m2 e2 m3 e3 k) in H2; [| lia | lia].
        apply (leb_fin m1 e1 m3 e3 k); lia.
Qed.

(** the order is total away from NaN *)
Lemma compare_fin_antisym (m1 e1 m2 e2 : Z) :
  compare_fin m2 e2 m1 e1 = CompOpp (compare_fin m1 e1 m2 e2).
Proof.
  rewrite (compare_fin_scaled m1 e1 m2 e2 (Z.min e1 e2)) by lia.
  rewrite (compare_fin_scaled m2 e2 m1 e1 (Z.min e1 e2)) by lia.
  apply Z.compare_antisym.
Qed.

Lemma ltb_false_leb (x y : float) : x <> NaN -> y <> NaN -> ltb x y = false -> leb y x = true.
Proof.
  intros Hx Hy. unfold ltb, leb.
  destruct x as [| s1 | m1 e1], y as [| s2 | m2 e2]; try congruence; simpl.
  - destruct s1, s2; congruence.
  - destruct s1; congruence.
  - destruct s2; congruence.
  - rewrite (compare_fin_antisym m1 e1 m2 e2).
    destruct (compare_fin m1 e1 m2 e2); simpl; congruence.
Qed.

Lemma leb_ltb_false (x y : float) : leb x y = true -> ltb y x = false.
Proof.
  unfold ltb, leb.
  destruct x as [| s1 | m1 e1], y as [| s2 | m2 e2]; try discriminate; simpl.
  - destruct s1, s2; congruence.
  - destruct s1; congruence.
  - destruct s2; congruence.
  - rewrite (compare_fin_antisym m1 e1 m2 e2).
    destruct (compare_fin m1 e1 m2 e2); simpl; congruence.
Qed.

Lemma leb_zero_nonneg (x : float) : nonneg x -> leb (Fin 0 0) x = true.
Proof.
  destruct x as [| s | m e]; simpl; [tauto | intros ->; reflexivity |].
  intros Hm. apply (leb_fin 0 0 m e (Z.min 0 e)); [lia | lia |].
  assert (0 < 2 ^ (e - Z.min 0 e)) by (apply pow2_pos; lia). nia.
Qed.

Lemma nonneg_leb (x y : float) : nonneg x -> leb x y = true -> nonneg y.
Proof.
  intros Hx Hle.
  destruct y as [| s2 | m2 e2].
  - destruct x as [| [] |]; discriminate.
  - destruct s2; [| reflexivity]. destruct x as [| [] |]; simpl in *; discriminate.
  - destruct x as [| s1 | m1 e1]; [contradiction | |].
    + simpl in Hx. subst s1. discriminate.
    + simpl in *. apply (leb_fin m1 e1 m2 e2 (Z.min e1 e2)) in Hle; [| lia | lia].
      assert (0 < 2 ^ (e1 - Z.min e1 e2)) by (apply pow2_pos; lia).
      assert (0 < 2 ^ (e2 - Z.min e1 e2)) by (apply pow2_pos; lia).
      nia.
Qed.

(** *** [round_pos] and [round_ratio] are monotone *)

Lemma finish_nonneg (m e : Z) : 0 <= m -> nonneg (finish m e).
Proof.
  intros Hm. unfold finish.
  destruct (Z.eqb_spec m (2 ^ 53)) as [-> | Hne].
  - simpl. destruct (emax_fin <? e + 1); simpl; [reflexivity | lia].
  - destruct (Z.eqb_spec m 0); [simpl; lia |].
    destruct (emax_fin <? e); simpl; [reflexivity | lia].
Qed.

Lemma finish_mono (m1 e1 m2 e2 : Z) :
  0 <= m1 <= 2 ^ 53 -> 0 <= m2 <= 2 ^ 53 ->
  emin <= e1 -> emin <= e2 ->
  (emin < e1 -> 2 ^ 52 <= m1) ->
  m1 * 2 ^ (e1 - emin) <= m2 * 2 ^ (e2 - emin) ->
  leb (finish m1 e1) (finish m2 e2) = true.
Proof.
  intros B1 B2 E1 E2 N1 Hle.
  (* the renormalised pairs have the same values *)
  assert (R : forall m e, 0 <= m <= 2 ^ 53 -> emin <= e ->
            exists m' e', finish m e =
              (if m' =? 0 then Fin 0 0 else if emax_fin <? e' then Inf false else Fin m' e')
              /\ 0 <= m' < 2 ^ 53 /\ emin <= e' /\ e <= e' <= e + 1
              /\ m' * 2 ^ (e' - emin) = m * 2 ^ (e - emin)
              /\ (2 ^ 52 <= m -> 2 ^ 52 <= m')).
  { intros m e B E. unfold finish. destruct (Z.eqb_spec m (2 ^ 53)) as [-> | Hne].
    - exists (2 ^ 52), (e + 1). repeat split; try lia.
      replace (e + 1 - emin) with (1 + (e - emin)) by lia.
      rewrite pow2_add by lia. lia.
    - exists m, e. repeat split; lia. }
  destruct (R m1 e1 B1 E1) as (m1' & e1' & F1 & B1' & E1' & G1 & V1 & K1).
  destruct (R m2 e2 B2 E2) as (m2' & e2' & F2 & B2' & E2' & G2 & V2 & K2).
  rewrite F1, F2. rewrite <- V1, <- V2 in Hle. clear F1 F2 V1 V2 R.
  assert (P1 : 0 < 2 ^ (e1' - emin)) by (apply pow2_pos; lia).
  assert (P2 : 0 < 2 ^ (e2' - emin)) by (apply pow2_pos; lia).
  destruct (Z.eqb_spec m1' 0) as [Z1 | Z1].
  { apply leb_zero_nonneg. destruct (m2' =? 0); [simpl; lia |].
    destruct (emax_fin <? e2'); simpl; [reflexivity | lia]. }
  assert (Z2 : m2' <> 0) by nia.
  destruct (Z.eqb_spec m2' 0) as [? | _]; [contradiction |].
  destruct (Z.ltb_spec emax_fin e2') as [O2 | O2].
  { destruct (emax_fin <? e1'); reflexivity. }
  destruct (Z.ltb_spec emax_fin e1') as [O1 | O1].
  { exfalso.
    assert (M1 : 2 ^ 52 <= m1') by (apply K1, N1; unfold emax_fin, emin in *; lia).
    assert (Hp : 2 ^ (e1' - emin) = 2 ^ (e1' - e2') * 2 ^ (e2' - emin)).
    { rewrite <- pow2_add by lia. f_equal. lia. }
    assert (2 <= 2 ^ (e1' - e2')).
    { change 2 with (2 ^ 1) at 1. apply pow2_le. lia. }
    nia. }
  apply (leb_fin m1' e1' m2' e2' emin); lia.
Qed.

Lemma round_pos_nonneg (n d : Z) : 0 < n -> 0 < d -> nonneg (round_pos n d).
Proof.
  intros Hn Hd. rewrite round_pos_finish. apply finish_nonneg.
  apply (round_sig_bounds n d Hn Hd).
Qed.

Lemma round_pos_mono (n1 d1 n2 d2 : Z) :
  0 < n1 -> 0 < d1 -> 0 < d2 -> n1 * d2 <= n2 * d1 ->
  leb (round_pos n1 d1) (round_pos n2 d2) = true.
Proof.
  intros Hn1 Hd1 Hd2 Hle. assert (Hn2 : 0 < n2) by nia.
  rewrite !round_pos_finish.
  destruct (round_sig_bounds n1 d1 Hn1 Hd1) as [B1 N1].
  destruct (round_sig_bounds n2 d2 Hn2 Hd2) as [B2 _].
  apply finish_mono; try assumption; try apply round_exp_ge.
  apply round_sig_mono; assumption.
Qed.

Lemma round_ratio_nonneg (n d : Z) : 0 <= n -> 0 < d -> nonneg (round_ratio n d).
Proof.
  intros Hn Hd. unfold round_ratio.
  destruct (Z.compare_spec n 0); [simpl; lia | lia |].
  apply round_pos_nonneg; lia.
Qed.

(** correct rounding is monotone: a smaller ratio rounds to a smaller float *)
Lemma round_ratio_mono (n1 d1 n2 d2 : Z) :
  0 <= n1 -> 0 < d1 -> 0 < d2 -> n1 * d2 <= n2 * d1 ->
  leb (round_ratio n1 d1) (round_ratio n2 d2) = true.
Proof.
  intros Hn1 Hd1 Hd2 Hle.
  assert (Hn2 : 0 <= n2) by nia.
  unfold round_ratio at 1. destruct (Z.compare_spec n1 0) as [E | L | G]; [| lia |].
  - apply leb_zero_nonneg, round_ratio_nonneg; lia.
  - assert (0 < n2) by nia.
    unfold round_ratio. destruct (Z.compare_spec n2 0); [lia | lia |].
    apply round_pos_mono; lia.
Qed.

(** *** the arithmetic operations are monotone on non-negative floats *)

Lemma dy_num_eq (m e : Z) : dy_num m e = m * 2 ^ Z.max 0 e.
Proof.
  unfold dy_num. destruct (Z.ltb_spec e 0).
  - rewrite Z.max_l by lia. simpl. lia.
  - rewrite Z.max_r by lia. reflexivity.
Qed.

Lemma dy_den_eq (e : Z) : dy_den e = 2 ^ Z.max 0 (- e).
Proof.
  unfold dy_den. destruct (Z.ltb_spec e 0).
  - rewrite Z.max_r by lia. reflexivity.
  - rewrite Z.max_l by lia. reflexivity.
Qed.

Lemma dy_den_pos (e : Z) : 0 < dy_den e.
Proof. rewrite dy_den_eq. apply pow2_pos. lia. Qed.

(** the ratios of two dyadic numbers compare as the numbers *)
Lemma dyadic_cross (m1 e1 m2 e2 : Z) :
  leb (Fin m1 e1) (Fin m2 e2) = true <->
  dy_num m1 e1 * dy_den e2 <= dy_num m2 e2 * dy_den e1.
Proof.
  set (k := - (Z.max 0 (- e1) + Z.max 0 (- e2))).
  rewrite (leb_fin m1 e1 m2 e2 k) by lia.
  rewrite !dy_num_eq, !dy_den_eq, <- !Z.mul_assoc, <- !pow2_add by lia.
  replace (e1 - k) with (Z.max 0 e1 + Z.max 0 (- e2)) by lia.
  replace (e2 - k) with (Z.max 0 e2 + Z.max 0 (- e1)) by lia.
  reflexivity.
Qed.

Lemma round_dyadic_nonneg (m e : Z) : 0 <= m -> nonneg (round_dyadic m e).
Proof.
  intros Hm. apply round_ratio_nonneg; [| apply dy_den_pos].
  rewrite dy_num_eq. apply Z.mul_nonneg_nonneg; [lia | apply Z.lt_le_incl, pow2_pos; lia].
Qed.

Lemma round_dyadic_mono (m1 e1 m2 e2 : Z) :
  0 <= m1 -> leb (Fin m1 e1) (Fin m2 e2) = true ->
  leb (round_dyadic m1 e1) (round_dyadic m2 e2) = true.
Proof.
  intros Hm Hle. apply round_ratio_mono; try apply dy_den_pos.
  - rewrite dy_num_eq. apply Z.mul_nonneg_nonneg; [lia | apply Z.lt_le_incl, pow2_pos; lia].
  - apply dyadic_cross. exact Hle.
Qed.

Lemma mul_fin_mono (m1 e1 m2 e2 m1' e1' m2' e2' : Z) :
  0 <= m1 -> 0 <= m2 ->
  leb (Fin m1 e1) (Fin m1' e1') = true -> leb (Fin m2 e2) (Fin m2' e2') = true ->
  leb (mul (Fin m1 e1) (Fin m2 e2)) (mul (Fin m1' e1') (Fin m2' e2')) = true.
Proof.
  intros H1 H2 L1 L2. simpl. apply round_dyadic_mono; [nia |].
  set (k1 := Z.min e1 e1'). set (k2 := Z.min e2 e2').
  apply (leb_fin _ _ _ _ k1) in L1; [| lia | lia].
  apply (leb_fin _ _ _ _ k2) in L2; [| lia | lia].
  apply (leb_fin _ _ _ _ (k1 + k2)); [lia | lia |].
  replace (e1 + e2 - (k1 + k2)) with ((e1 - k1) + (e2 - k2)) by lia.
  replace (e1' + e2' - (k1 + k2)) with ((e1' - k1) + (e2' - k2)) by lia.
  rewrite !pow2_add by lia.
  assert (0 < 2 ^ (e1 - k1)) by (apply pow2_pos; lia).
  assert (0 < 2 ^ (e2 - k2)) by (apply pow2_pos; lia).
  assert (0 < 2 ^ (e1' - k1)) by (apply pow2_pos; lia).
  assert (0 < 2 ^ (e2' - k2)) by (apply pow2_pos; lia).
  set (a := m1 * 2 ^ (e1 - k1)) in *. set (a' := m1' * 2 ^ (e1' - k1)) in *.
  set (b := m2 * 2 ^ (e2 - k2)) in *. set (b' := m2' * 2 ^ (e2' - k2)) in *.
  assert (0 <= a) by (subst a; nia). assert (0 <= b) by (subst b; nia).
  replace (m1 * m2 * (2 ^ (e1 - k1) * 2 ^ (e2 - k2))) with (a * b) by (subst a b; ring).
  replace (m1' * m2' * (2 ^ (e1' - k1) * 2 ^ (e2' - k2))) with (a' * b') by (subst a' b'; ring).
  nia.
Qed.

Lemma add_fin_mono (m1 e1 m2 e2 m1' e1' m2' e2' : Z) :
  0 <= m1 -> 0 <= m2 ->
  leb (Fin m1 e1) (Fin m1' e1') = true -> leb (Fin m2 e2) (Fin m2' e2') = true ->
  leb (add (Fin m1 e1) (Fin m2 e2)) (add (Fin m1' e1') (Fin m2' e2')) = true.
Proof.
  intros H1 H2 L1 L2. simpl.
  set (e := Z.min e1 e2). set (e' := Z.min e1' e2').
  set (k := Z.min e e').
  assert (P : forall a b, 0 <= a -> 0 <= b -> 2 ^ a * 2 ^ b = 2 ^ (a + b)).
  { intros. symmetry. apply pow2_add; lia. }
  apply round_dyadic_mono.
  - assert (0 < 2 ^ (e1 - e)) by (apply pow2_pos; lia).
    assert (0 < 2 ^ (e2 - e)) by (apply pow2_pos; lia). nia.
  - apply (leb_fin _ _ _ _ k) in L1; [| lia | lia].
    apply (leb_fin _ _ _ _ k) in L2; [| lia | lia].
    apply (leb_fin _ _ _ _ k); [lia | lia |].
    rewrite !Z.mul_add_distr_r, <- !Z.mul_assoc, !P by lia.
    replace (e1 - e + (e - k)) with (e1 - k) by lia.
    replace (e2 - e + (e - k)) with (e2 - k) by lia.
    replace (e1' - e' + (e' - k)) with (e1' - k) by lia.
    replace (e2' - e' + (e' - k)) with (e2' - k) by lia.
    lia.
Qed.

Lemma nonneg_finite (x c : float) :
  nonneg x -> finite c -> leb x c = true -> exists m e, x = Fin m e /\ 0 <= m.
Proof.
  intros Hx Hc Hle. destruct c as [| | mc ec]; try contradiction.
  destruct x as [| s | m e]; [contradiction | | eauto].
  simpl in Hx. subst s. discriminate.
Qed.

Lemma mul_nonneg (x y : float) : nonneg x -> nonneg y -> finite x -> finite y -> nonneg (mul x y).
Proof.
  destruct x as [| | m1 e1], y as [| | m2 e2]; simpl; try tauto.
  intros. apply round_dyadic_nonneg. nia.
Qed.

Lemma add_nonneg (x y : float) : nonneg x -> nonneg y -> nonneg (add x y).
Proof.
  destruct x as [| s1 | m1 e1], y as [| s2 | m2 e2]; simpl; try tauto.
  - intros -> ->. reflexivity.
  - intros H1 H2. apply round_dyadic_nonneg.
    assert (0 < 2 ^ (e1 - Z.min e1 e2)) by (apply pow2_pos; lia).
    assert (0 < 2 ^ (e2 - Z.min e1 e2)) by (apply pow2_pos; lia). nia.
Qed.

(** the bounds used below: a non-negative float under a finite one *)
Lemma mul_le (x y cx cy : float) :
  nonneg x -> nonneg y -> finite cx -> finite cy ->
  leb x cx = true -> leb y cy = true ->
  leb (mul x y) (mul cx cy) = true.
Proof.
  intros Nx Ny Fx Fy Lx Ly.
  destruct (nonneg_finite x cx Nx Fx Lx) as (m1 & e1 & -> & H1).
  destruct (nonneg_finite y cy Ny Fy Ly) as (m2 & e2 & -> & H2).
  destruct cx as [| | m1' e1'], cy as [| | m2' e2']; try contradiction.
  apply mul_fin_mono; assumption.
Qed.

Lemma add_le (x y cx cy : float) :
  nonneg x -> nonneg y -> finite cx -> finite cy ->
  leb x cx = true -> leb y cy = true ->
  leb (add x y) (add cx cy) = true.
Proof.
  intros Nx Ny Fx Fy Lx Ly.
  destruct (nonneg_finite x cx Nx Fx Lx) as (m1 & e1 & -> & H1).
  destruct (nonneg_finite y cy Ny Fy Ly) as (m2 & e2 & -> & H2).
  destruct cx as [| | m1' e1'], cy as [| | m2' e2']; try contradiction.
  apply add_fin_mono; assumption.
Qed.

(** lower bounds: the smaller operands are finite and non-negative *)
Lemma mul_ge (x y cx cy : float) :
  nonneg cx -> nonneg cy -> finite x -> finite y ->
  leb cx x = true -> leb cy y = true ->
  leb (mul cx cy) (mul x y) = true.
Proof. intros. apply mul_le; assumption. Qed.

(** [round(x, ndigits)] is monotone *)
Lemma round_digits_nonneg (nd : Z) (x : float) : 0 <= nd -> nonneg x -> nonneg (round_digits nd x).
Proof.
  intros Hnd. destruct x as [| s | m e]; simpl; try tauto.
  intros Hm. assert (Hp : 0 < 10 ^ nd) by (apply Z.pow_pos_nonneg; lia).
  destruct (Z.leb_spec 0 m); [| lia].
  apply round_ratio_nonneg; [| exact Hp].
  apply round_half_even_nonneg; [| apply dy_den_pos].
  rewrite dy_num_eq. apply Z.mul_nonneg_nonneg; [nia | apply Z.lt_le_incl, pow2_pos; lia].
Qed.

Lemma round_digits_fin_mono (nd m1 e1 m2 e2 : Z) :
  0 <= nd -> 0 <= m1 -> leb (Fin m1 e1) (Fin m2 e2) = true ->
  leb (round_digits nd (Fin m1 e1)) (round_digits nd (Fin m2 e2)) = true.
Proof.
  intros Hnd Hm Hle. assert (Hp : 0 < 10 ^ nd) by (apply Z.pow_pos_nonneg; lia).
  assert (Hm2 : 0 <= m2).
  { pose proof (nonneg_leb (Fin m1 e1) (Fin m2 e2) Hm Hle) as H. exact H. }
  simpl. destruct (Z.leb_spec 0 m1); [| lia]. destruct (Z.leb_spec 0 m2); [| lia].
  apply round_ratio_mono; [| exact Hp | exact Hp |].
  - apply round_half_even_nonneg; [| apply dy_den_pos].
    rewrite dy_num_eq. apply Z.mul_nonneg_nonneg; [nia | apply Z.lt_le_incl, pow2_pos; lia].
  - apply Z.mul_le_mono_nonneg_r; [lia |].
    apply round_half_even_mono; try apply dy_den_pos.
    apply dyadic_cross.
    set (k := Z.min e1 e2).
    apply (leb_fin _ _ _ _ k) in Hle; [| lia | lia].
    apply (leb_fin _ _ _ _ k); [lia | lia |].
    assert (0 < 2 ^ (e1 - k)) by (apply pow2_pos; lia).
    assert (0 < 2 ^ (e2 - k)) by (apply pow2_pos; lia).
    nia.
Qed.

Lemma round_digits_le (nd : Z) (x c : float) :
  0 <= nd -> nonneg x -> finite c -> leb x c = true ->
  leb (round_digits nd x) (round_digits nd c) = true.
Proof.
  intros Hnd Nx Fc Hle.
  destruct (nonneg_finite x c Nx Fc Hle) as (m & e & -> & Hm).
  destruct c as [| | mc ec]; try contradiction.
  apply round_digits_fin_mono; assumption.
Qed.

Lemma bounded_intro (x c : float) : nonneg x -> finite c -> leb x c = true -> bounded x c.
Proof.
  intros Nx Fc Hle. destruct (nonneg_finite x c Nx Fc Hle) as (m & e & -> & Hm).
  repeat split; assumption.
Qed.

Lemma bounded_weaken (x c c' : float) : bounded x c -> finite c' -> leb c c' = true -> bounded x c'.
Proof.
  intros (Nx & Fx & Fc & Hle) Fc' Hcc. repeat split; try assumption.
  exact (leb_trans _ _ _ Hle Hcc).
Qed.

Lemma bounded_zero (c : float) : nonneg c -> finite c -> bounded (Fin 0 0) c.
Proof.
  intros Nc Fc. repeat split; try assumption; [simpl; lia | apply leb_zero_nonneg; exact Nc].
Qed.

Lemma bounded_nonneg (x c : float) : bounded x c -> nonneg c.
Proof. intros (Nx & _ & _ & Hle). exact (nonneg_leb _ _ Nx Hle). Qed.

Lemma bounded_add (x y cx cy : float) :
  bounded x cx -> bounded y cy -> finite (add cx cy) -> bounded (add x y) (add cx cy).
Proof.
  intros (Nx & Fx & Fcx & Lx) (Ny & Fy & Fcy & Ly) Fc.
  apply bounded_intro; [apply add_nonneg; assumption | exact Fc |].
  apply add_le; assumption.
Qed.

Lemma bounded_mul (x y cx cy : float) :
  bounded x cx -> bounded y cy -> finite (mul cx cy) -> bounded (mul x y) (mul cx cy).
Proof.
  intros (Nx & Fx & Fcx & Lx) (Ny & Fy & Fcy & Ly) Fc.
  apply bounded_intro; [apply mul_nonneg; assumption | exact Fc |].
  apply mul_le; assumption.
Qed.

Lemma bounded_round_digits (nd : Z) (x c : float) :
  0 <= nd -> bounded x c -> finite (round_digits nd c) ->
  bounded (round_digits nd x) (round_digits nd c).
Proof.
  intros Hnd (Nx & Fx & Fc & Lx) Fr.
  apply bounded_intro; [apply round_digits_nonneg; assumption | exact Fr |].
  apply round_digits_le; assumption.
Qed.

Lemma bounded_round_ratio (n d p q : Z) :
  0 <= n -> 0 < d -> 0 < q -> n * q <= p * d -> finite (round_ratio p q) ->
  bounded (round_ratio n d) (round_ratio p q).
Proof.
  intros Hn Hd Hq Hle Fc.
  apply bounded_intro; [apply round_ratio_nonneg; assumption | exact Fc |].
  apply round_ratio_mono; assumption.
Qed.

(** an integer quotient at most [p / q] *)
Lemma bounded_int_truediv (a b p q : Z) (r : float) :
  int_truediv a b = Ok r ->
  0 <= a -> 0 < b -> 0 < q -> a * q <= p * b -> finite (round_ratio p q) ->
  bounded r (round_ratio p q).
Proof.
  intros Hdiv Ha Hb Hq Hle Fc.
  pose proof (bounded_round_ratio a b p q Ha Hb Hq Hle Fc) as Hb'.
  unfold int_truediv in Hdiv.
  destruct (Z.eqb_spec b 0); [lia |]. destruct (Z.ltb_spec 0 b); [| lia].
  destruct (round_ratio a b) as [| s | m e]; try discriminate.
  inversion Hdiv. subst r. exact Hb'.
Qed.

(** subtraction of a smaller finite float *)
Lemma sub_fin_mono (m1 e1 m2 e2 c ec : Z) :
  leb (Fin c ec) (Fin m1 e1) = true -> leb (Fin m1 e1) (Fin m2 e2) = true ->
  leb (sub (Fin m1 e1) (Fin c ec)) (sub (Fin m2 e2) (Fin c ec)) = true.
Proof.
  intros Hc Hle. unfold sub. simpl.
  set (k := Z.min (Z.min e1 e2) ec).
  apply (leb_fin _ _ _ _ k) in Hc; [| lia | lia].
  apply (leb_fin _ _ _ _ k) in Hle; [| lia | lia].
  assert (P : forall a b, 0 <= a -> 0 <= b -> 2 ^ a * 2 ^ b = 2 ^ (a + b)).
  { intros. symmetry. apply pow2_add; lia. }
  assert (S1 : (m1 * 2 ^ (e1 - Z.min e1 ec) + - c * 2 ^ (ec - Z.min e1 ec)) * 2 ^ (Z.min e1 ec - k)
               = m1 * 2 ^ (e1 - k) - c * 2 ^ (ec - k)).
  { rewrite Z.mul_add_distr_r, <- !Z.mul_assoc, !P by lia.
    replace (e1 - Z.min e1 ec + (Z.min e1 ec - k)) with (e1 - k) by lia.
    replace (ec - Z.min e1 ec + (Z.min e1 ec - k)) with (ec - k) by lia. lia. }
  assert (S2 : (m2 * 2 ^ (e2 - Z.min e2 ec) + - c * 2 ^ (ec - Z.min e2 ec)) * 2 ^ (Z.min e2 ec - k)
               = m2 * 2 ^ (e2 - k) - c * 2 ^ (ec - k)).
  { rewrite Z.mul_add_distr_r, <- !Z.mul_assoc, !P by lia.
    replace (e2 - Z.min e2 ec + (Z.min e2 ec - k)) with (e2 - k) by lia.
    replace (ec - Z.min e2 ec + (Z.min e2 ec - k)) with (ec - k) by lia. lia. }
  apply round_dyadic_mono.
  - assert (0 < 2 ^ (Z.min e1 ec - k)) by (apply pow2_pos; lia). nia.
  - apply (leb_fin _ _ _ _ k); [lia | lia |]. rewrite S1, S2. lia.
Qed.

Lemma sub_fin_nonneg (m e c ec : Z) :
  leb (Fin c ec) (Fin m e) = true -> nonneg (sub (Fin m e) (Fin c ec)).
Proof.
  intros Hc. unfold sub. simpl. apply round_dyadic_nonneg.
  apply (leb_fin _ _ _ _ (Z.min e ec)) in Hc; [| lia | lia]. lia.
Qed.

(** [lo <= x <= hi] gives [lo - c <= x - c <= hi - c], for [c <= lo] *)
Lemma sub_between (x lo hi c : float) :
  finite x -> finite lo -> finite hi -> finite c ->
  leb c lo = true -> leb lo x = true -> leb x hi = true ->
  nonneg (sub x c) /\ leb (sub lo c) (sub x c) = true /\ leb (sub x c) (sub hi c) = true.
Proof.
  destruct x as [| | m e], lo as [| | ml el], hi as [| | mh eh], c as [| | mc ec];
    try contradiction. intros _ _ _ _ Hc Hlo Hhi.
  pose proof (leb_trans _ _ _ Hc Hlo) as Hcx.
  split; [apply sub_fin_nonneg; exact Hcx |].
  split; apply sub_fin_mono; assumption.
Qed.

End Float64Facts.

(** ** [LanguageDetector.calculate_complexity] *)

Section Complexity.
Import Float64 Float64Facts.

Lemma count_lines_from_true (s : string) : (1 <= Str.count_lines_from true s)%nat.
Proof.
  induction s as [| c r IH]; simpl; [lia |].
  destruct (Str.is_linebreak c); [| exact IH].
  destruct r as [| d r']; [lia |].
  destruct ((Str.code c =? 13) && (Str.code d =? 10))%N; lia.
Qed.

Lemma count_lines_nonempty (s : string) : s <> "" -> (1 <= Str.count_lines s)%nat.
Proof.
  destruct s as [| c r]; [congruence | intros _].
  unfold Str.count_lines. simpl.
  destruct (Str.is_linebreak c); [| apply count_lines_from_true].
  destruct r as [| d r']; [lia |].
  destruct ((Str.code c =? 13) && (Str.code d =? 10))%N; lia.
Qed.

Lemma re_count_all_nonneg `{Engine} (patterns : list string) (flags : list re_flag) (text : string) :
  0 <= re_count_all patterns flags text.
Proof.
  unfold re_count_all.
  assert (G : forall acc, 0 <= acc ->
            0 <= fold_left (fun acc p => acc + re_count p flags text) patterns acc).
  { induction patterns as [| p ps IH]; simpl; intros acc Hacc; [exact Hacc |].
    apply IH. unfold re_count. lia. }
  apply G. lia.
Qed.

(** a quotient below [2^1023] is a finite non-negative float *)
Lemma int_truediv_finite (a b : Z) :
  0 <= a -> 0 < b -> a < 2 ^ 1023 * b ->
  exists m e, int_truediv a b = Ok (Fin m e) /\ 0 <= m.
Proof.
  intros Ha Hb Hlt. unfold int_truediv.
  destruct (Z.eqb_spec b 0); [lia |]. destruct (Z.ltb_spec 0 b); [| lia].
  pose proof (round_ratio_nonneg a b Ha Hb) as Hn.
  assert (Hle : leb (round_ratio a b) (round_ratio (2 ^ 1023) 1) = true).
  { apply round_ratio_mono; lia. }
  assert (E : round_ratio (2 ^ 1023) 1 = Fin (2 ^ 52) 971) by (vm_compute; reflexivity).
  rewrite E in Hle.
  destruct (nonneg_finite _ (Fin (2 ^ 52) 971) Hn I Hle) as (m & e & -> & Hm).
  exists m, e. split; [reflexivity | exact Hm].
Qed.

Lemma min_range (x lo hi : float) :
  x <> NaN -> finite hi -> leb lo x = true -> leb lo hi = true ->
  leb lo (min x hi) = true /\ leb (min x hi) hi = true.
Proof.
  intros Hx Hhi L1 L2. unfold min.
  destruct (ltb hi x) eqn:Hlt.
  - split; [exact L2 |]. apply leb_refl. destruct hi; [contradiction | congruence | congruence].
  - split; [exact L1 |]. apply ltb_false_leb; [| exact Hx | exact Hlt].
    destruct hi; [contradiction | congruence | congruence].
Qed.


(** the value of [calculate_complexity] when the quotient cannot overflow *)
Lemma calculate_complexity_spec `{Engine} (content language : string) :
  complexity_count content language < 2 ^ 1023 ->
  exists v,
    LanguageDetector.calculate_complexity content language = Ok v
    /\ leb (lit 1 1) v = true /\ leb v (lit 10 1) = true
    /\ (Str.strip content = "" -> v = lit 1 1)
    /\ (Str.strip content <> "" ->
        exists ratio,
          int_truediv (complexity_count content language)
                      (Z.of_nat (Str.count_lines content)) = Ok ratio
          /\ v = min (add (lit 1 1) (mul ratio (lit 9 1))) (lit 10 1))
    /\ (Config.lookup language LanguageDetector.complexity_indicators = None ->
        complexity_patterns language = complexity_patterns "python").
Proof.
  intros Hcount.
  assert (Hfallback : Config.lookup language LanguageDetector.complexity_indicators = None ->
                      complexity_patterns language = complexity_patterns "python").
  { intros E. unfold complexity_patterns. rewrite E. reflexivity. }
  unfold LanguageDetector.calculate_complexity.
  destruct (String.eqb_spec content "") as [-> | Hne].
  { exists (lit 1 1). simpl. repeat split; try reflexivity; try exact Hfallback.
    intros Hs. exfalso. apply Hs. reflexivity. }
  destruct (String.eqb_spec (Str.strip content) "") as [Hs | Hs].
  { exists (lit 1 1). simpl. repeat split; try reflexivity; try exact Hfallback.
    intros Hs'. contradiction. }
  cbn [orb].
  pose proof (count_lines_nonempty content Hne) as Hlines.
  destruct (Z.eqb_spec (Z.of_nat (Str.count_lines content)) 0) as [E0 | _]; [lia |].
  fold (complexity_patterns language). fold (complexity_count content language).
  pose proof (re_count_all_nonneg (complexity_patterns language) [IGNORECASE] content) as Hpos.
  fold (complexity_count content language) in Hpos.
  destruct (int_truediv_finite (complexity_count content language)
              (Z.of_nat (Str.count_lines content)) Hpos ltac:(lia) ltac:(nia))
    as (m & e & Hdiv & Hm).
  rewrite Hdiv. cbn [mbind py_bind].
  set (base := add (lit 1 1) (mul (Fin m e) (lit 9 1))).
  assert (Hmul : nonneg (mul (Fin m e) (lit 9 1))).
  { apply mul_nonneg; [exact Hm | apply round_ratio_nonneg; lia | exact I | exact I]. }
  assert (Hbase_nn : nonneg base).
  { apply add_nonneg; [apply round_ratio_nonneg; lia | exact Hmul]. }
  assert (Hbase : leb (lit 1 1) base = true).
  { unfold base. destruct (mul (Fin m e) (lit 9 1)) as [| s | m' e'] eqn:Em.
    - contradiction.
    - simpl in Hmul. subst s. reflexivity.
    - change (lit 1 1) with (add (Fin (2 ^ 52) (-52)) (Fin 0 0)) at 1.
      change (lit 1 1) with (Fin (2 ^ 52) (-52)).
      apply add_fin_mono; [lia | lia | apply leb_refl; discriminate |].
      apply leb_zero_nonneg. exact Hmul. }
  assert (Hnan : base <> NaN) by (destruct base; [contradiction | discriminate | discriminate]).
  destruct (min_range base (lit 1 1) (lit 10 1) Hnan I Hbase eq_refl) as [R1 R2].
  exists (min base (lit 10 1)). repeat split; try assumption.
  - intros Hs'. contradiction.
  - intros _. exists (Fin m e). split; reflexivity.
Qed.

(** [calculate_complexity] returns a float between 1.0 and 10.0: 1.0 for
    content that is empty or only whitespace, and otherwise
    [min(1.0 + (matches / lines) * 9.0, 10.0)] in binary64 arithmetic, where
    a language without an entry of its own is counted with the Python
    patterns.  The match count is taken below [2^1023], as it is for any
    list that fits in memory; the quotient then does not overflow. *)
Theorem calculate_complexity_range `{Engine} (content language : string) :
  complexity_count content language < 2 ^ 1023 ->
  exists v,
    LanguageDetector.calculate_complexity content language = Ok v
    /\ leb (lit 1 1) v = true /\ leb v (lit 10 1) = true
    /\ (Str.strip content = "" -> v = lit 1 1)
    /\ (Str.strip content <> "" ->
        exists ratio,
          int_truediv (complexity_count content language)
                      (Z.of_nat (Str.count_lines content)) = Ok ratio
          /\ v = min (add (lit 1 1) (mul ratio (lit 9 1))) (lit 10 1))
    /\ (Config.lookup language LanguageDetector.complexity_indicators = None ->
        complexity_patterns language = complexity_patterns "python").
Proof. apply calculate_complexity_spec. Qed.

Lemma complexity_patterns_length (language : string) :
  (List.length (complexity_patterns language) <= 10)%nat.
Proof.
  unfold complexity_patterns, LanguageDetector.complexity_indicators, Config.lookup.
  repeat (destruct (String.eqb language _); [simpl; lia |]).
  simpl. lia.
Qed.

Lemma re_count_all_le `{Engine} (patterns : list string) (flags : list re_flag)
    (text : string) (B : Z) :
  (forall pattern, re_count pattern flags text < B) ->
  re_count_all patterns flags text <= Z.of_nat (List.length patterns) * B.
Proof.
  intros HB. unfold re_count_all.
  assert (G : forall acc,
            fold_left (fun acc p => acc + re_count p flags text) patterns acc
            <= acc + Z.of_nat (List.length patterns) * B).
  { induction patterns as [| p ps IH]; intros acc; [simpl; lia |].
    cbn [fold_left List.length]. specialize (IH (acc + re_count p flags text)).
    specialize (HB p). lia. }
  specialize (G 0). lia.
Qed.

(** C7: [calculate_complexity] returns a float between 1.0 and 10.0, for
    every content and every language: exactly 1.0 for content that is empty
    or only whitespace, and otherwise
    [min(1.0 + (matches / lines) * 9.0, 10.0)] in binary64 arithmetic, where
    a language without an entry of its own is counted with the Python
    patterns.  Each list that [re.findall] returns is taken to be shorter
    than [2^63], as every list of the interpreter is. *)
Theorem calculate_complexity_contract `{Engine} (content language : string) :
  (forall pattern,
     Z.of_nat (List.length (re_findall pattern [IGNORECASE] content)) < 2 ^ 63) ->
  exists v,
    LanguageDetector.calculate_complexity content language = Ok v
    /\ leb (lit 1 1) v = true /\ leb v (lit 10 1) = true
    /\ (Str.strip content = "" -> v = lit 1 1)
    /\ (Str.strip content <> "" ->
        exists ratio,
          int_truediv (complexity_count content language)
                      (Z.of_nat (Str.count_lines content)) = Ok ratio
          /\ v = min (add (lit 1 1) (mul ratio (lit 9 1))) (lit 10 1))
    /\ (Config.lookup language LanguageDetector.complexity_indicators = None ->
        complexity_patterns language = complexity_patterns "python").
Proof.
  intros Hlists. apply calculate_complexity_spec.
  pose proof (re_count_all_le (complexity_patterns language) [IGNORECASE] content (2 ^ 63) Hlists)
    as Hle.
  pose proof (complexity_patterns_length language) as Hlen.
  unfold complexity_count.
  assert (Z.of_nat (List.length (complexity_patterns language)) * 2 ^ 63 <= 10 * 2 ^ 63) by nia.
  assert (10 * 2 ^ 63 < 2 ^ 1023) by (vm_compute; reflexivity).
  lia.
Qed.

End Complexity.

Lemma calculate_complexity_range_witness :
  exists v,
    @LanguageDetector.calculate_complexity SampleEngine.engine sample_source "python" = Ok v
    /\ Float64.leb (Float64.lit 1 1) v = true /\ Float64.leb v (Float64.lit 10 1) = true.
Proof.
  destruct (@calculate_complexity_range SampleEngine.engine sample_source "python")
    as (v & Hv & H1 & H2 & _).
  - vm_compute. reflexivity.
  - exists v. repeat split; assumption.
Defined.

(** two lines of JavaScript with one arrow function: one match for two
    lines, so 1.0 + 0.5 * 9.0 = 5.5 *)
Lemma calculate_complexity_contract_witness :
  @LanguageDetector.calculate_complexity SampleEngine.engine arrow_source "javascript"
  = Ok (Float64.lit 55 10)
  /\ Float64.leb (Float64.lit 1 1) (Float64.lit 55 10) = true
  /\ Float64.leb (Float64.lit 55 10) (Float64.lit 10 1) = true.
Proof.
  destruct (@calculate_complexity_contract SampleEngine.engine arrow_source "javascript")
    as (v & Hv & H1 & H2 & _).
  - intros pattern. unfold re_findall, SampleEngine.engine.
    destruct (Str.contains pattern arrow_source); vm_compute; reflexivity.
  - assert (E : @LanguageDetector.calculate_complexity SampleEngine.engine arrow_source
                  "javascript" = Ok (Float64.lit 55 10)) by (vm_compute; reflexivity).
    rewrite E in Hv. inversion Hv. subst v. split; [exact E | split; assumption].
Defined.

(** ** [LanguageDetector.detect_languages] *)

(** one step of a [py] computation that is known to return, without
    unfolding the continuation *)
Ltac step_py :=
  match goal with
  | |- (?c ≫= _) = _ -> _ =>
      destruct c as [? | ?]; cbn [mbind py_bind]; [| discriminate]
  end.

Section Languages.
Import Float64 Float64Facts LanguageDetector.

Lemma bump_keys (language : string) (size : Z) (c : bool) (d : list (string * lang_stats)) (k : string) :
  k ∈ fmap fst (bump language size c d) -> k = language \/ k ∈ fmap fst d.
Proof.
  induction d as [| [l st] r IH]; simpl.
  - intros Hk. apply list_elem_of_singleton in Hk. left. exact Hk.
  - destruct (String.eqb_spec l language) as [-> | Hne]; simpl; intros Hk.
    + right. exact Hk.
    + apply elem_of_cons in Hk as [-> | Hk]; [right; left |].
      destruct (IH Hk) as [-> | Hin]; [left; reflexivity | right; right; exact Hin].
Qed.

Lemma bump_NoDup (language : string) (size : Z) (c : bool) (d : list (string * lang_stats)) :
  NoDup (fmap fst d) -> NoDup (fmap fst (bump language size c d)).
Proof.
  induction d as [| [l st] r IH]; simpl; intros Hnd.
  - apply NoDup_singleton.
  - apply NoDup_cons in Hnd as [Hl Hr].
    destruct (String.eqb_spec l language) as [-> | Hne]; simpl.
    + apply NoDup_cons. split; assumption.
    + apply NoDup_cons. split; [| apply IH; exact Hr].
      intros Hin. destruct (bump_keys _ _ _ _ _ Hin) as [-> | Hin']; [congruence | contradiction].
Qed.

Lemma bump_sum (f : lang_stats -> Z) (delta : Z) (language : string) (size : Z) (c : bool)
    (d : list (string * lang_stats)) :
  (forall st, f (add_file size c st) = f st + delta) -> f (mkStats 0 0 0 0) = 0 ->
  sum_by f (bump language size c d) = sum_by f d + delta.
Proof.
  intros Hadd H0. induction d as [| [l st] r IH]; simpl.
  - rewrite Hadd, H0. lia.
  - destruct (String.eqb_spec l language) as [-> | Hne]; simpl.
    + rewrite Hadd. lia.
    + rewrite IH. lia.
Qed.

Lemma add_file_ok (size : Z) (c : bool) (st : lang_stats) :
  10 <= size ->
  (0 <= ls_size st /\ 0 <= ls_count st /\ 0 <= ls_code_size st /\ 0 <= ls_code_count st
   /\ (ls_code_count st = 0 -> ls_code_size st = 0)) ->
  stats_ok (add_file size c st).
Proof.
  intros Hs (H1 & H2 & H3 & H4 & H5). unfold stats_ok, add_file. simpl.
  destruct c; repeat split; try lia.
Qed.

Lemma bump_ok (language : string) (size : Z) (c : bool) (d : list (string * lang_stats)) :
  10 <= size ->
  Forall (fun kv => stats_ok kv.2) d ->
  Forall (fun kv => stats_ok kv.2) (bump language size c d).
Proof.
  intros Hs. induction d as [| [l st] r IH]; simpl; intros Hd.
  - apply Forall_cons. split; [| apply Forall_nil; exact I]. simpl.
    apply add_file_ok; [exact Hs |]. simpl. lia.
  - apply Forall_cons in Hd as [Hst Hr].
    destruct (String.eqb_spec l language) as [-> | Hne].
    + apply Forall_cons. split; [| exact Hr]. simpl in *.
      apply add_file_ok; [exact Hs |]. unfold stats_ok in Hst. intuition lia.
    + apply Forall_cons. split; [exact Hst | apply IH; exact Hr].
Qed.

Section Scan.
Context `{Engine}.

Lemma scan_file_ok (acc acc' : lang_acc) (file_item : FileRecord) :
  acc_ok acc -> scan_file acc file_item = Ok acc' -> acc_ok acc'.
Proof.
  intros Hok. unfold scan_file.
  destruct (get_size file_item) as [| size |]; try discriminate.
  destruct (Z.ltb_spec size 10) as [Hs | Hs]; [intros [= <-]; exact Hok |].
  do 3 step_py.
  match goal with |- context [Str.mem ?e code_extensions] => set (c := Str.mem e code_extensions) end.
  intros [= <-].
  destruct Hok as [K S Z1 Z2 Z3 Z4].
  constructor; cbn [language_stats total_size total_count total_code_size total_code_count].
  - apply bump_NoDup. exact K.
  - apply bump_ok; assumption.
  - rewrite (bump_sum ls_size size); [lia | reflexivity | reflexivity].
  - rewrite (bump_sum ls_count 1); [lia | reflexivity | reflexivity].
  - destruct c.
    + rewrite (bump_sum ls_code_size size); [lia | reflexivity | reflexivity].
    + rewrite (bump_sum ls_code_size 0); [lia | intros; simpl; lia | reflexivity].
  - destruct c.
    + rewrite (bump_sum ls_code_count 1); [lia | reflexivity | reflexivity].
    + rewrite (bump_sum ls_code_count 0); [lia | intros; simpl; lia | reflexivity].
Qed.

Lemma scan_files_ok (files : list FileRecord) (acc acc' : lang_acc) :
  acc_ok acc -> scan_files acc files = Ok acc' -> acc_ok acc'.
Proof.
  revert acc. induction files as [| f r IH]; simpl; intros acc Hok.
  - intros [= <-]. exact Hok.
  - destruct (scan_file acc f) as [acc1 | ?] eqn:E; [| discriminate].
    cbn [mbind py_bind]. apply IH. exact (scan_file_ok _ _ _ Hok E).
Qed.

End Scan.

Lemma acc_ok_empty : acc_ok (mkAcc [] 0 0 0 0).
Proof. constructor; simpl; try reflexivity; [apply NoDup_nil; exact I | apply Forall_nil; exact I]. Qed.

(** one entry is at most the total, two entries with different keys
    together are at most the total *)
Lemma sum_by_nonneg (f : lang_stats -> Z) (d : list (string * lang_stats)) :
  Forall (fun kv => 0 <= f kv.2) d -> 0 <= sum_by f d.
Proof.
  induction 1 as [| kv r Hkv _ IH]; simpl; lia.
Qed.

Lemma sum_by_one (f : lang_stats -> Z) (d : list (string * lang_stats)) (l : string) (st : lang_stats) :
  Forall (fun kv => 0 <= f kv.2) d -> (l, st) ∈ d -> f st <= sum_by f d.
Proof.
  induction 1 as [| kv r Hkv Hr IH]; intros Hin.
  - apply elem_of_nil in Hin. contradiction.
  - pose proof (sum_by_nonneg f r Hr). simpl.
    apply elem_of_cons in Hin as [<- | Hin]; [simpl; lia |].
    specialize (IH Hin). lia.
Qed.

Lemma sum_by_two (f : lang_stats -> Z) (d : list (string * lang_stats))
    (l1 l2 : string) (st1 st2 : lang_stats) :
  Forall (fun kv => 0 <= f kv.2) d -> (l1, st1) ∈ d -> (l2, st2) ∈ d -> l1 <> l2 ->
  f st1 + f st2 <= sum_by f d.
Proof.
  induction 1 as [| kv r Hkv Hr IH]; intros H1 H2 Hne.
  - apply elem_of_nil in H1. contradiction.
  - simpl. apply elem_of_cons in H1 as [<- | H1], H2 as [E2 | H2].
    + inversion E2. congruence.
    + pose proof (sum_by_one f r l2 st2 Hr H2). simpl. lia.
    + subst kv. pose proof (sum_by_one f r l1 st1 Hr H1). simpl. lia.
    + specialize (IH H1 H2 Hne). lia.
Qed.

(** with distinct keys an entry is found by its key *)
Lemma lookup_NoDup {A} (d : list (string * A)) (k : string) (v : A) :
  NoDup (fmap fst d) -> (k, v) ∈ d -> Config.lookup k d = Some v.
Proof.
  induction d as [| [k' v'] r IH]; simpl; intros Hnd Hin.
  - apply elem_of_nil in Hin. contradiction.
  - apply NoDup_cons in Hnd as [Hk Hr].
    apply elem_of_cons in Hin as [E | Hin].
    + inversion E. subst. rewrite String.eqb_refl. reflexivity.
    + destruct (String.eqb_spec k k') as [-> | Hne]; [| apply IH; assumption].
      exfalso. apply Hk. apply list_elem_of_fmap. exists (k', v). split; [reflexivity | exact Hin].
Qed.

End Languages.

Section Entries.
Import Float64 Float64Facts LanguageDetector.

Lemma finite_add_inv (x y : float) : finite (add x y) -> finite x /\ finite y.
Proof.
  destruct x as [| s | m e], y as [| t | m' e']; simpl; try tauto.
  destruct (Bool.eqb s t); simpl; tauto.
Qed.

Lemma finite_mul_inv (x y : float) : finite (mul x y) -> finite x /\ finite y.
Proof.
  destruct x as [| s | m e], y as [| t | m' e']; simpl; try tauto.
  - destruct (m' =? 0); simpl; tauto.
  - destruct (m =? 0); simpl; tauto.
Qed.

Lemma finite_round_digits_inv (nd : Z) (x : float) : finite (round_digits nd x) -> finite x.
Proof. destruct x; simpl; tauto. Qed.

Lemma bounded_refl (c : float) : nonneg c -> finite c -> bounded c c.
Proof.
  intros Nc Fc. repeat split; try assumption. apply leb_refl.
  destruct c; [contradiction | contradiction | discriminate].
Qed.

Lemma bounded_lit (n d : Z) : 0 <= n -> 0 < d -> finite (lit n d) -> bounded (lit n d) (lit n d).
Proof. intros. apply bounded_refl; [apply round_ratio_nonneg; assumption | assumption]. Qed.

Lemma bounded_round_to (nd : Z) (x c U : float) :
  0 <= nd -> bounded x c -> finite (round_digits nd c) -> finite U ->
  leb (round_digits nd c) U = true -> bounded (round_digits nd x) U.
Proof.
  intros Hnd Hb Fr FU Hle.
  exact (bounded_weaken _ _ _ (bounded_round_digits nd x c Hnd Hb Fr) FU Hle).
Qed.

(** a share of at most [P] percent *)
Lemma percentage_bounded (part whole P : Z) (v : float) :
  percentage part whole = Ok v ->
  0 <= part -> 0 <= P -> (0 < whole -> part * 100 <= P * whole) ->
  finite (pct_of P) ->
  bounded v (pct_of P).
Proof.
  unfold percentage, pct_of. intros Hv Hpart HP Hshare Hfin.
  destruct (finite_mul_inv _ _ Hfin) as [Fr F100].
  destruct (Z.ltb_spec 0 whole) as [Hw | Hw].
  - destruct (int_truediv part whole) as [r |] eqn:Er; [| discriminate].
    cbn [mbind py_bind] in Hv. inversion Hv. subst v.
    apply bounded_mul; [| | exact Hfin].
    + apply (bounded_int_truediv part whole P 100 r Er); try lia; try exact Fr;
        apply Hshare; lia.
    + apply bounded_refl; [apply round_ratio_nonneg; lia | exact F100].
  - inversion Hv. subst v. apply bounded_zero; [| exact Hfin].
    apply mul_nonneg; try assumption; apply round_ratio_nonneg; lia.
Qed.

Lemma weighted_plain_bounded (sp cp A B : float) :
  bounded sp A -> bounded cp B -> finite (weighted_plain A B) ->
  bounded (weighted_plain sp cp) (weighted_plain A B).
Proof.
  intros Hs Hc Hfin. unfold weighted_plain in *.
  destruct (finite_add_inv _ _ Hfin) as [F1 F2].
  destruct (finite_mul_inv _ _ F1) as [_ L1]. destruct (finite_mul_inv _ _ F2) as [_ L2].
  apply bounded_add; [| | exact Hfin].
  - apply bounded_mul; [exact Hs | apply bounded_lit; [lia | lia | exact L1] | exact F1].
  - apply bounded_mul; [exact Hc | apply bounded_lit; [lia | lia | exact L2] | exact F2].
Qed.

Lemma weighted_code_bounded (sp cp csp ccp A B C D : float) :
  bounded sp A -> bounded cp B -> bounded csp C -> bounded ccp D ->
  finite (weighted_code A B C D) ->
  bounded (weighted_code sp cp csp ccp) (weighted_code A B C D).
Proof.
  intros Hs Hc Hcs Hcc Hfin. unfold weighted_code in *.
  destruct (finite_add_inv _ _ Hfin) as [F123 F4].
  destruct (finite_add_inv _ _ F123) as [F12 F3].
  destruct (finite_add_inv _ _ F12) as [F1 F2].
  destruct (finite_mul_inv _ _ F1) as [_ L1]. destruct (finite_mul_inv _ _ F2) as [_ L2].
  destruct (finite_mul_inv _ _ F3) as [_ L3]. destruct (finite_mul_inv _ _ F4) as [_ L4].
  apply bounded_add; [| | exact Hfin].
  - apply bounded_add; [| | exact F123].
    + apply bounded_add; [| | exact F12].
      * apply bounded_mul; [exact Hs | apply bounded_lit; [lia | lia | exact L1] | exact F1].
      * apply bounded_mul; [exact Hc | apply bounded_lit; [lia | lia | exact L2] | exact F2].
    + apply bounded_mul; [exact Hcs | apply bounded_lit; [lia | lia | exact L3] | exact F3].
  - apply bounded_mul; [exact Hcc | apply bounded_lit; [lia | lia | exact L4] | exact F4].
Qed.

(** the two shapes of a weighted percentage *)
Lemma weighted_percentage_inv (acc : lang_acc) (stats : lang_stats) (w : float) :
  weighted_percentage acc stats = Ok w ->
  exists sp cp,
    percentage (ls_size stats) (total_size acc) = Ok sp
    /\ percentage (ls_count stats) (total_count acc) = Ok cp
    /\ ((0 < total_code_size acc /\ 0 < ls_code_size stats
         /\ exists r ccp,
              int_truediv (ls_code_size stats) (total_code_size acc) = Ok r
              /\ percentage (ls_code_count stats) (total_code_count acc) = Ok ccp
              /\ w = weighted_code sp cp (mul r (of_small 100)) ccp)
        \/ w = weighted_plain sp cp).
Proof.
  unfold weighted_percentage. intros Hw.
  destruct (percentage (ls_size stats) (total_size acc)) as [sp |]; [| discriminate].
  cbn [mbind py_bind] in Hw.
  destruct (percentage (ls_count stats) (total_count acc)) as [cp |]; [| discriminate].
  cbn [mbind py_bind] in Hw.
  exists sp, cp. split; [reflexivity |]. split; [reflexivity |].
  destruct (Z.ltb_spec 0 (total_code_size acc)) as [H1 | H1];
    destruct (Z.ltb_spec 0 (ls_code_size stats)) as [H2 | H2]; cbn [andb] in Hw;
    try (right; inversion Hw; reflexivity).
  left. split; [exact H1 |]. split; [exact H2 |].
  destruct (int_truediv (ls_code_size stats) (total_code_size acc)) as [r |]; [| discriminate].
  cbn [mbind py_bind] in Hw.
  destruct (percentage (ls_code_count stats) (total_code_count acc)) as [ccp |]; [| discriminate].
  cbn [mbind py_bind] in Hw.
  exists r, ccp. inversion Hw. repeat split; reflexivity.
Qed.

Lemma language_entry_inv (acc : lang_acc) (language : string) (stats : lang_stats) (v : float) :
  language_entry acc language stats = Ok (Some v) ->
  exists w, weighted_percentage acc stats = Ok w
            /\ (v = round_digits 1 w \/ v = round_digits 1 (mul w (lit 7 10))).
Proof.
  unfold language_entry. intros Hv.
  destruct (weighted_percentage acc stats) as [w |]; [| discriminate].
  cbn [mbind py_bind] in Hv. exists w. split; [reflexivity |].
  destruct (geb w (lit 3 1)); [| discriminate].
  destruct (_ && _); inversion Hv; [right | left]; reflexivity.
Qed.

(** an entry of a language whose share of the bytes is at most [PS] percent
    and whose share of the files is at most [PC] percent *)
Lemma language_entry_le (acc : lang_acc) (language : string) (stats : lang_stats)
    (v : float) (PS PC : Z) (U : float) :
  0 <= ls_size stats -> 0 <= ls_count stats ->
  0 <= ls_code_size stats -> 0 <= ls_code_count stats ->
  (0 < total_size acc -> ls_size stats * 100 <= PS * total_size acc) ->
  (0 < total_count acc -> ls_count stats * 100 <= PC * total_count acc) ->
  ls_code_size stats <= total_code_size acc ->
  ls_code_count stats <= total_code_count acc ->
  0 <= PS -> 0 <= PC ->
  language_entry acc language stats = Ok (Some v) ->
  finite U ->
  (0 < ls_code_size stats ->
   fits (weighted_code (pct_of PS) (pct_of PC) (pct_of 100) (pct_of 100)) U) ->
  fits (weighted_plain (pct_of PS) (pct_of PC)) U ->
  bounded v U /\ exists w, nonneg w /\ finite w /\ v = round_digits 1 w.
Proof.
  intros Hs Hc Hcs Hcc HPS HPC Hcsle Hccle HPS0 HPC0 Hentry FU Hcode Hplain.
  destruct (language_entry_inv _ _ _ _ Hentry) as (w & Hw & Hv).
  destruct (weighted_percentage_inv _ _ _ Hw) as (sp & cp & Hsp & Hcp & Hshape).
  assert (Hmain : exists W, bounded w W /\ fits W U).
  { destruct Hshape as [(Htcs & Hlcs & r & ccp & Hr & Hccp & ->) | ->].
    - specialize (Hcode Hlcs). exists (weighted_code (pct_of PS) (pct_of PC) (pct_of 100) (pct_of 100)).
      split; [| exact Hcode].
      destruct Hcode as (F1 & _).
      apply finite_round_digits_inv in F1.
      pose proof F1 as F1'. unfold weighted_code in F1'.
      destruct (finite_add_inv _ _ F1') as [F123 F4].
      destruct (finite_add_inv _ _ F123) as [F12 F3].
      destruct (finite_add_inv _ _ F12) as [Fa Fb].
      destruct (finite_mul_inv _ _ Fa) as [FA _]. destruct (finite_mul_inv _ _ Fb) as [FB _].
      destruct (finite_mul_inv _ _ F3) as [FC _].
      apply weighted_code_bounded; [| | | | exact F1].
      + apply (percentage_bounded _ _ PS _ Hsp); assumption.
      + apply (percentage_bounded _ _ PC _ Hcp); assumption.
      + unfold pct_of in *. destruct (finite_mul_inv _ _ FC) as [Fr F100].
        apply bounded_mul; [| | exact FC].
        * apply (bounded_int_truediv _ _ 100 100 r Hr); try lia. exact Fr.
        * apply bounded_refl; [apply round_ratio_nonneg; lia | exact F100].
      + apply (percentage_bounded _ _ 100 _ Hccp); try lia. exact FC.
    - exists (weighted_plain (pct_of PS) (pct_of PC)). split; [| exact Hplain].
      destruct Hplain as (F1 & _).
      apply finite_round_digits_inv in F1.
      pose proof F1 as F1'. unfold weighted_plain in F1'.
      destruct (finite_add_inv _ _ F1') as [Fa Fb].
      destruct (finite_mul_inv _ _ Fa) as [FA _]. destruct (finite_mul_inv _ _ Fb) as [FB _].
      apply weighted_plain_bounded; [| | exact F1].
      + apply (percentage_bounded _ _ PS _ Hsp); assumption.
      + apply (percentage_bounded _ _ PC _ Hcp); assumption. }
  destruct Hmain as (W & HwW & (F1 & F2 & L1 & L2)).
  destruct Hv as [-> | ->].
  - split; [apply (bounded_round_to 1 w W U); try assumption; lia |].
    exists w. destruct HwW as (Nw & Fw & _). repeat split; assumption.
  - assert (Hb7 : bounded (mul w (lit 7 10)) (mul W (lit 7 10))).
    { pose proof (finite_round_digits_inv _ _ F2) as F2'.
      destruct (finite_mul_inv _ _ F2') as [_ L7].
      apply bounded_mul; [exact HwW | apply bounded_lit; [lia | lia | exact L7] | exact F2']. }
    split; [apply (bounded_round_to 1 _ _ U Z.le_0_1 Hb7); assumption |].
    exists (mul w (lit 7 10)). destruct Hb7 as (N7 & F7 & _). repeat split; assumption.
Qed.

End Entries.

Section Balance.
Import Float64 Float64Facts LanguageDetector.
Context `{Engine}.

Lemma entry_facts (acc : lang_acc) (l : string) (st : lang_stats) :
  acc_ok acc -> (l, st) ∈ language_stats acc ->
  stats_ok st /\ ls_size st <= total_size acc /\ ls_count st <= total_count acc
  /\ ls_code_size st <= total_code_size acc /\ ls_code_count st <= total_code_count acc.
Proof.
  intros [K S Z1 Z2 Z3 Z4] Hin.
  assert (Hst : stats_ok st).
  { rewrite Forall_forall in S. exact (S _ Hin). }
  split; [exact Hst |].
  rewrite <- Z1, <- Z2, <- Z3, <- Z4.
  repeat split; apply (sum_by_one _ _ l); try exact Hin;
    (eapply Forall_impl; [exact S |]); intros kv (A & B & C & D & _); simpl; lia.
Qed.

Lemma entry_pair (acc : lang_acc) (l1 l2 : string) (st1 st2 : lang_stats) :
  acc_ok acc -> (l1, st1) ∈ language_stats acc -> (l2, st2) ∈ language_stats acc -> l1 <> l2 ->
  ls_size st1 + ls_size st2 <= total_size acc
  /\ ls_count st1 + ls_count st2 <= total_count acc.
Proof.
  intros [K S Z1 Z2 Z3 Z4] H1 H2 Hne. rewrite <- Z1, <- Z2.
  split; apply (sum_by_two _ _ l1 l2); try assumption;
    (eapply Forall_impl; [exact S |]); intros kv (A & B & C & D & _); simpl; lia.
Qed.

Lemma entry_unique (acc : lang_acc) (l : string) (st1 st2 : lang_stats) :
  acc_ok acc -> (l, st1) ∈ language_stats acc -> (l, st2) ∈ language_stats acc -> st1 = st2.
Proof.
  intros Hok H1 H2.
  pose proof (lookup_NoDup _ _ _ (ok_keys _ Hok) H1) as E1.
  pose proof (lookup_NoDup _ _ _ (ok_keys _ Hok) H2) as E2.
  congruence.
Qed.

(** every entry is a percentage, rounded to one decimal *)
Lemma entry_of_range (acc : lang_acc) (kv : string * float) :
  acc_ok acc -> entry_of acc kv ->
  bounded kv.2 (of_small 100) /\ exists w, nonneg w /\ finite w /\ kv.2 = round_digits 1 w.
Proof.
  intros Hok (st & Hin & Hentry).
  destruct (entry_facts acc _ st Hok Hin) as ((A & B & C & D & _) & S1 & S2 & S3 & S4).
  apply (language_entry_le acc kv.1 st kv.2 100 100); try lia; try assumption.
  - exact I.
  - intros _. vm_compute. repeat split; reflexivity.
  - vm_compute. repeat split; reflexivity.
Qed.

(** the entry of a language with at most 52 percent of the bytes and 77
    percent of the files is at most 80 *)
Lemma entry_of_minor (acc : lang_acc) (l : string) (st : lang_stats) (v : float) :
  acc_ok acc -> (l, st) ∈ language_stats acc ->
  language_entry acc l st = Ok (Some v) ->
  ls_size st * 100 <= 52 * total_size acc -> ls_count st * 100 <= 77 * total_count acc ->
  bounded v (of_small 80).
Proof.
  intros Hok Hin Hentry H52 H77.
  destruct (entry_facts acc _ st Hok Hin) as ((A & B & C & D & _) & S1 & S2 & S3 & S4).
  apply (language_entry_le acc l st v 52 77); try lia; try assumption.
  - exact I.
  - intros _. vm_compute. repeat split; reflexivity.
  - vm_compute. repeat split; reflexivity.
Qed.

(** an entry above 70 of a language without code files: the language has
    more than 48 percent of the bytes and more than 23 percent of the files *)
Lemma entry_of_dominant (acc : lang_acc) (l : string) (st : lang_stats) (v : float) :
  acc_ok acc -> (l, st) ∈ language_stats acc ->
  language_entry acc l st = Ok (Some v) ->
  ls_code_count st = 0 -> int_ltb 70 v = true ->
  48 * total_size acc < ls_size st * 100 /\ 23 * total_count acc < ls_count st * 100.
Proof.
  intros Hok Hin Hentry Hcc Hgt.
  destruct (entry_facts acc _ st Hok Hin) as ((A & B & C & D & E) & S1 & S2 & S3 & S4).
  specialize (E Hcc).
  assert (Hno : forall U, bounded v U -> leb U (Fin 70 0) = true -> False).
  { intros U (_ & _ & _ & HU) H70. pose proof (leb_trans _ _ _ HU H70) as Hle.
    apply leb_ltb_false in Hle. unfold int_ltb, compare_int in Hgt. unfold ltb in Hle.
    destruct (compare (Fin 70 0) v) as [[] |]; discriminate. }
  split.
  - destruct (Z.lt_ge_cases (48 * total_size acc) (ls_size st * 100)) as [Hlt | Hge]; [exact Hlt |].
    exfalso. apply (Hno (of_small 70)); [| vm_compute; reflexivity].
    apply (language_entry_le acc l st v 48 100); try lia; try assumption.
    + exact I.
    + vm_compute. repeat split; reflexivity.
  - destruct (Z.lt_ge_cases (23 * total_count acc) (ls_count st * 100)) as [Hlt | Hge]; [exact Hlt |].
    exfalso. apply (Hno (of_small 70)); [| vm_compute; reflexivity].
    apply (language_entry_le acc l st v 100 23); try lia; try assumption.
    + exact I.
    + vm_compute. repeat split; reflexivity.
Qed.

End Balance.

Section Rebalance.
Import Float64 Float64Facts LanguageDetector.
Context `{Engine}.

Lemma language_percentages_entries (acc : lang_acc) (d : list (string * lang_stats))
    (ps : list (string * float)) :
  language_percentages acc d = Ok ps ->
  Forall (fun kv => exists stats, (kv.1, stats) ∈ d
                                  /\ language_entry acc kv.1 stats = Ok (Some kv.2)) ps.
Proof.
  revert ps. induction d as [| [l st] r IH]; simpl; intros ps Hps.
  - inversion Hps. apply Forall_nil. exact I.
  - destruct (language_entry acc l st) as [e |] eqn:He; [| discriminate].
    cbn [mbind py_bind] in Hps.
    destruct (language_percentages acc r) as [rest |]; [| discriminate].
    cbn [mbind py_bind] in Hps. inversion Hps. subst ps.
    assert (Hrest : Forall (fun kv => exists stats, (kv.1, stats) ∈ (l, st) :: r
                              /\ language_entry acc kv.1 stats = Ok (Some kv.2)) rest).
    { eapply Forall_impl; [apply IH; reflexivity |].
      intros kv (stats & Hin & Hentry). exists stats. split; [right; exact Hin | exact Hentry]. }
    destruct e as [v |]; [| exact Hrest].
    apply Forall_cons. split; [| exact Hrest].
    exists st. split; [left | exact He].
Qed.

Lemma insert_desc_elem (x y : string * float) (l : list (string * float)) :
  y ∈ insert_desc x l <-> y = x \/ y ∈ l.
Proof.
  induction l as [| z r IH]; simpl.
  - rewrite list_elem_of_singleton, elem_of_nil. tauto.
  - destruct (ltb x.2 z.2); rewrite !elem_of_cons; [rewrite IH |]; tauto.
Qed.

Lemma sort_desc_elem (y : string * float) (l : list (string * float)) :
  y ∈ sort_desc l <-> y ∈ l.
Proof.
  unfold sort_desc. induction l as [| x r IH]; simpl; [reflexivity |].
  rewrite insert_desc_elem, IH, elem_of_cons. reflexivity.
Qed.

Lemma sort_desc_Forall (P : string * float -> Prop) (l : list (string * float)) :
  Forall P l -> Forall P (sort_desc l).
Proof.
  rewrite !Forall_forall. intros Hl y Hy. apply Hl, sort_desc_elem, Hy.
Qed.

Lemma update_elem {A} (k : string) (f : A -> A) (d : list (string * A)) (x : string * A) :
  x ∈ update k f d -> x ∈ d \/ exists v, (k, v) ∈ d /\ x = (k, f v).
Proof.
  induction d as [| [k' v] r IH]; simpl; intros Hx.
  - left. exact Hx.
  - destruct (String.eqb_spec k' k) as [-> | Hne].
    + apply elem_of_cons in Hx as [-> | Hx].
      * right. exists v. split; [left | reflexivity].
      * left. right. exact Hx.
    + apply elem_of_cons in Hx as [-> | Hx]; [left; left |].
      destruct (IH Hx) as [Hin | (v' & Hin & ->)].
      * left. right. exact Hin.
      * right. exists v'. split; [right; exact Hin | reflexivity].
Qed.

Lemma ltb_leb_trans (x y z : float) : ltb x y = true -> leb y z = true -> ltb x z = true.
Proof.
  intros Hxy Hyz.
  destruct (ltb x z) eqn:Hxz; [reflexivity | exfalso].
  assert (Hx : x <> NaN) by (destruct x; [discriminate | discriminate | discriminate]).
  assert (Hz : z <> NaN).
  { destruct z; [| discriminate | discriminate]. destruct y as [| [] |]; discriminate. }
  pose proof (ltb_false_leb x z Hx Hz Hxz) as Hzx.
  pose proof (leb_trans _ _ _ Hyz Hzx) as Hyx.
  apply leb_ltb_false in Hyx. congruence.
Qed.

Lemma int_ltb_ltb (z : Z) (y : float) : int_ltb z y = ltb (Fin z 0) y.
Proof. reflexivity. Qed.

(** a percentage above 70 is at least 70.1, so the redistribution is the
    integer 20 *)
Lemma redistribution_dominant (top w : float) :
  nonneg w -> finite w -> top = round_digits 1 w ->
  bounded top (of_small 100) -> int_ltb 70 top = true ->
  redistribution top = inl 20
  /\ bounded (sub top (of_small 20)) (of_small 80).
Proof.
  intros Nw Fw -> Hb Hgt.
  destruct w as [| | m e]; try contradiction. simpl in Nw.
  assert (Hlo : leb (round_ratio 701 10) (round_digits 1 (Fin m e)) = true).
  { unfold round_digits in *. destruct (Z.leb_spec 0 m); [| lia].
    set (k := round_half_even (dy_num (m * 10 ^ 1) e) (dy_den e)) in *.
    assert (Hk0 : 0 <= k).
    { apply round_half_even_nonneg; [| apply dy_den_pos].
      rewrite dy_num_eq. apply Z.mul_nonneg_nonneg; [lia | apply Z.lt_le_incl, pow2_pos; lia]. }
    destruct (Z.le_gt_cases k 700) as [Hk | Hk].
    - exfalso.
      assert (Hle : leb (round_ratio k (10 ^ 1)) (round_ratio 700 10) = true).
      { apply round_ratio_mono; lia. }
      assert (H70 : leb (round_ratio 700 10) (Fin 70 0) = true) by (vm_compute; reflexivity).
      pose proof (leb_trans _ _ _ Hle H70) as Hle'. apply leb_ltb_false in Hle'.
      rewrite int_ltb_ltb in Hgt. congruence.
    - apply round_ratio_mono; lia. }
  set (top := round_digits 1 (Fin m e)) in *.
  destruct Hb as (Ntop & Ftop & _ & Hhi).
  assert (F701 : finite (round_ratio 701 10)) by (vm_compute; exact I).
  split.
  - unfold redistribution.
    destruct (sub_between top (round_ratio 701 10) (of_small 100) (of_small 50))
      as (_ & Hd & _); try assumption; try exact I; [vm_compute; reflexivity |].
    assert (H20 : ltb (Fin 20 0) (sub (round_ratio 701 10) (of_small 50)) = true)
      by (vm_compute; reflexivity).
    pose proof (ltb_leb_trans _ _ _ H20 Hd) as Hlt.
    rewrite int_ltb_ltb, Hlt. reflexivity.
  - destruct (sub_between top (round_ratio 701 10) (of_small 100) (of_small 20))
      as (Nn & _ & Hup); try assumption; try exact I; [vm_compute; reflexivity |].
    apply bounded_intro; [exact Nn | exact I |].
    apply (leb_trans _ _ _ Hup). vm_compute. reflexivity.
Qed.

Lemma filter_keys_NoDup {A} (p : string * A -> bool) (d : list (string * A)) :
  NoDup (fmap fst d) -> NoDup (List.map fst (List.filter p d)).
Proof.
  induction d as [| [k v] r IH]; simpl; intros Hnd; [apply NoDup_nil; exact I |].
  apply NoDup_cons in Hnd as [Hk Hr].
  destruct (p (k, v)); simpl; [| apply IH; exact Hr].
  apply NoDup_cons. split; [| apply IH; exact Hr].
  intros Hin. apply Hk. clear -Hin.
  induction r as [| [k' v'] r IH]; simpl in *; [exact Hin |].
  destruct (p (k', v')); simpl in *.
  - apply elem_of_cons in Hin as [-> | Hin]; [left | right; apply IH; exact Hin].
  - right. apply IH. exact Hin.
Qed.

Lemma filter_keys_elem {A} (p : string * A -> bool) (d : list (string * A)) (k : string) :
  k ∈ List.map fst (List.filter p d) -> exists v, (k, v) ∈ d /\ p (k, v) = true.
Proof.
  induction d as [| [k' v'] r IH]; simpl; intros Hin.
  - apply elem_of_nil in Hin. contradiction.
  - destruct (p (k', v')) eqn:Hp; simpl in Hin.
    + apply elem_of_cons in Hin as [-> | Hin].
      * exists v'. split; [left | exact Hp].
      * destruct (IH Hin) as (v & Hv & Hpv). exists v. split; [right; exact Hv | exact Hpv].
    + destruct (IH Hin) as (v & Hv & Hpv). exists v. split; [right; exact Hv | exact Hpv].
Qed.

(** one round of the boosting loop *)
Lemma boost_step (lang : string) (rem : list string) (boost : float)
    (d : list (string * float)) :
  lang ∉ rem -> bounded boost (of_small 20) ->
  boost_inv (lang :: rem) d ->
  boost_inv rem (update lang (fun v => add v boost) d).
Proof.
  intros Hfresh Hboost Hinv. unfold boost_inv in *.
  rewrite Forall_forall in Hinv. apply Forall_forall. intros x Hx.
  destruct (update_elem _ _ _ _ Hx) as [Hin | (v & Hin & ->)].
  - destruct (Hinv x Hin) as [H100 H80]. split; [exact H100 |].
    intros Hr. apply H80. right. exact Hr.
  - destruct (Hinv _ Hin) as [_ H80]. simpl in *. split; [| intros Hr; contradiction].
    specialize (H80 ltac:(left)).
    apply (bounded_weaken _ (add (of_small 80) (of_small 20))); [| exact I | vm_compute; reflexivity].
    apply bounded_add; [exact H80 | exact Hboost | exact I].
Qed.

Lemma boost_loop (rem : list string) (boost : float) (d : list (string * float)) :
  NoDup rem -> bounded boost (of_small 20) -> boost_inv rem d ->
  boost_inv [] (fold_left (fun d lang => update lang (fun v => add v boost) d) rem d).
Proof.
  intros Hnd Hboost. revert d. induction rem as [| lang rem IH]; simpl; intros d Hinv.
  - exact Hinv.
  - apply NoDup_cons in Hnd as [Hfresh Hnd]. apply IH; [exact Hnd |].
    apply boost_step; assumption.
Qed.

(** the final balancing step keeps every value between 0 and 100 *)
Lemma rebalance_range (acc : lang_acc) (sorted balanced : list (string * float)) :
  acc_ok acc -> Forall (entry_of acc) sorted ->
  rebalance acc sorted = Ok balanced ->
  Forall (fun kv => bounded kv.2 (of_small 100)) balanced.
Proof.
  intros Hok Hentries Hreb.
  assert (Hall : Forall (fun kv => bounded kv.2 (of_small 100)) sorted).
  { eapply Forall_impl; [exact Hentries |]. intros kv Hkv.
    exact (proj1 (entry_of_range acc kv Hok Hkv)). }
  unfold rebalance in Hreb.
  destruct sorted as [| [top_lang top_percentage] rest] eqn:Es; [inversion Hreb; apply Forall_nil; exact I |].
  rewrite <- Es in *.
  destruct (int_ltb 70 top_percentage) eqn:Hgt; cbn [andb] in Hreb;
    [| inversion Hreb; subst balanced; exact Hall].
  destruct (Z.eqb_spec (default 0 (ls_code_count <$> Config.lookup top_lang (language_stats acc))) 0)
    as [Hcc | Hcc]; [| inversion Hreb; subst balanced; exact Hall].
  (* the top entry and its statistics *)
  assert (Htop : entry_of acc (top_lang, top_percentage)).
  { rewrite Forall_forall in Hentries. apply Hentries. rewrite Es. left. }
  destruct Htop as (stT & HinT & HentryT). simpl in HinT, HentryT.
  rewrite (lookup_NoDup _ _ _ (ok_keys _ Hok) HinT) in Hcc. simpl in Hcc.
  destruct (entry_of_range acc (top_lang, top_percentage) Hok) as (HbT & w & Nw & Fw & Hw).
  { exists stT. split; assumption. }
  simpl in HbT, Hw.
  destruct (redistribution_dominant top_percentage w Nw Fw Hw HbT Hgt) as [Hred Hnew].
  rewrite Hred in Hreb. cbn [redistribution_float] in Hreb.
  destruct (entry_of_dominant acc top_lang stT top_percentage Hok HinT HentryT Hcc Hgt)
    as [Hsize Hcount].
  set (code_languages :=
         List.map fst
           (List.filter
              (fun ls : string * lang_stats =>
                 (0 <? ls_code_count ls.2)
                 && bool_decide (is_Some (Config.lookup ls.1 sorted)))
              (language_stats acc))) in *.
  set (lowered := update top_lang (fun _ => sub top_percentage (of_small 20)) sorted) in *.
  assert (Hlow : boost_inv code_languages lowered).
  { unfold boost_inv. apply Forall_forall. intros x Hx.
    destruct (update_elem _ _ _ _ Hx) as [Hin | (v & Hin & ->)].
    - rewrite Forall_forall in Hall, Hentries. split; [apply Hall; exact Hin |].
      intros Hcode.
      destruct (filter_keys_elem _ _ _ Hcode) as (stL & HinL & Hp).
      apply andb_prop in Hp as [Hp _]. apply Z.ltb_lt in Hp. simpl in Hp.
      destruct (Hentries x Hin) as (st' & Hin' & Hentry').
      assert (st' = stL) by (exact (entry_unique acc _ _ _ Hok Hin' HinL)). subst st'.
      assert (Hne : top_lang <> x.1).
      { intros E. rewrite <- E in HinL.
        assert (stT = stL) by (exact (entry_unique acc _ _ _ Hok HinT HinL)). subst stL. lia. }
      destruct (entry_pair acc _ _ _ _ Hok HinT HinL Hne) as [P1 P2].
      apply (entry_of_minor acc x.1 stL x.2 Hok HinL Hentry'); lia.
    - simpl. split; [| intros _; exact Hnew].
      apply (bounded_weaken _ _ _ Hnew); [exact I | vm_compute; reflexivity]. }
  assert (Hzero : forall d, boost_inv [] d -> Forall (fun kv => bounded kv.2 (of_small 100)) d).
  { intros d Hd. eapply Forall_impl; [exact Hd |]. intros kv [Hkv _]. exact Hkv. }
  assert (Hweak : boost_inv [] lowered).
  { eapply Forall_impl; [exact Hlow |]. intros kv [Hkv _]. split; [exact Hkv |].
    intros Hin. apply elem_of_nil in Hin. contradiction. }
  destruct code_languages as [| lang0 langs] eqn:Ecl.
  { inversion Hreb. subst balanced. apply Hzero. exact Hweak. }
  rewrite <- Ecl in *.
  destruct (boost_per_lang (inl 20) (Z.of_nat (length code_languages))) as [boost |] eqn:Eb;
    [| discriminate].
  cbn [mbind py_bind] in Hreb. inversion Hreb. subst balanced.
  apply Hzero. apply boost_loop; [| | exact Hlow].
  - apply filter_keys_NoDup. exact (ok_keys _ Hok).
  - simpl in Eb.
    assert (Hlen : 0 < Z.of_nat (length code_languages)) by (rewrite Ecl; simpl; lia).
    change (of_small 20) with (round_ratio 20 1).
    apply (bounded_int_truediv 20 _ 20 1 boost Eb); try lia. exact I.
Qed.

Lemma rebalance_anti_domination (acc : lang_acc) (sorted balanced : list (string * float)) :
  acc_ok acc -> Forall (entry_of acc) sorted ->
  rebalance acc sorted = Ok balanced ->
  anti_domination acc sorted balanced.
Proof.
  intros Hok Hentries Hreb. unfold rebalance in Hreb. unfold anti_domination.
  destruct sorted as [| [top_lang top] rest] eqn:Es; [inversion Hreb; reflexivity |].
  rewrite <- Es in *.
  fold (top_code_count acc top_lang) in Hreb.
  destruct (int_ltb 70 top && (top_code_count acc top_lang =? 0)) eqn:Hcond;
    [| inversion Hreb; reflexivity].
  apply andb_prop in Hcond as [Hgt Hcc].
  assert (Htop : entry_of acc (top_lang, top)).
  { rewrite Forall_forall in Hentries. apply Hentries. rewrite Es. left. }
  destruct (entry_of_range acc (top_lang, top) Hok Htop) as (HbT & w & Nw & Fw & Hw).
  simpl in HbT, Hw.
  destruct (redistribution_dominant top w Nw Fw Hw HbT Hgt) as [Hred _].
  split; [exact Hred |].
  rewrite Hred in Hreb. cbn [redistribution_float boost_per_lang] in Hreb.
  fold (code_languages_of acc sorted) in Hreb. cbv zeta.
  destruct (code_languages_of acc sorted) as [| lang0 langs] eqn:Ecl.
  - inversion Hreb. reflexivity.
  - destruct (int_truediv 20 (Z.of_nat (length (lang0 :: langs)))) as [boost |] eqn:Eb;
      [| discriminate].
    cbn [mbind py_bind] in Hreb. inversion Hreb. exists boost. split; reflexivity.
Qed.

Lemma bounded_in_range (v : float) : bounded v (of_small 100) -> in_range v.
Proof.
  intros (Nv & _ & _ & Hle). split; [apply leb_zero_nonneg; exact Nv | exact Hle].
Qed.

(** C4: every percentage in the map that [detect_languages] returns lies
    between 0 and 100, for every list of files, also after the
    anti-domination correction: a top language above 70 without code files
    gives up [min(top - 50, 20)], which is 20, and every language with code
    files that is present in the map gets an equal share of it; the values
    are between 0 and 100 right after the correction, and again after they
    are rounded and sorted. *)
Theorem detect_languages_range (files : list FileRecord) (result : list (string * float)) :
  detect_languages files = Ok result ->
  Forall (fun kv => in_range kv.2) result
  /\ exists acc percentages balanced,
       scan_files (mkAcc [] 0 0 0 0) files = Ok acc
       /\ language_percentages acc (language_stats acc) = Ok percentages
       /\ anti_domination acc (sort_desc percentages) balanced
       /\ Forall (fun kv => in_range kv.2) balanced
       /\ result = sort_desc (List.map (fun kv => (kv.1, round_digits 1 kv.2)) balanced).
Proof.
  unfold detect_languages. intros Hres.
  destruct (scan_files (mkAcc [] 0 0 0 0) files) as [acc |] eqn:Escan; [| discriminate].
  cbn [mbind py_bind] in Hres.
  pose proof (scan_files_ok files _ _ acc_ok_empty Escan) as Hok.
  destruct (language_percentages acc (language_stats acc)) as [ps |] eqn:Eps; [| discriminate].
  cbn [mbind py_bind] in Hres.
  destruct (rebalance acc (sort_desc ps)) as [balanced |] eqn:Ereb; [| discriminate].
  cbn [mbind py_bind] in Hres. inversion Hres. subst result.
  pose proof (language_percentages_entries _ _ _ Eps) as Hentries.
  pose proof (sort_desc_Forall _ _ Hentries) as Hsorted.
  pose proof (rebalance_range acc (sort_desc ps) balanced Hok Hsorted Ereb) as Hbal.
  split.
  - apply sort_desc_Forall. apply Forall_forall. intros x Hx.
    apply list_elem_of_In, in_map_iff in Hx as (kv & <- & Hkv). apply list_elem_of_In in Hkv.
    rewrite Forall_forall in Hbal. specialize (Hbal kv Hkv). simpl.
    apply bounded_in_range.
    apply (bounded_round_to 1 kv.2 (of_small 100)); try assumption; try exact I; try lia.
    vm_compute. reflexivity.
  - exists acc, ps, balanced.
    split; [reflexivity |]. split; [exact Eps |].
    split; [exact (rebalance_anti_domination acc (sort_desc ps) balanced Hok Hsorted Ereb) |].
    split; [| reflexivity].
    eapply Forall_impl; [exact Hbal |]. intros kv Hkv. apply bounded_in_range. exact Hkv.
Qed.

End Rebalance.

(** a Markdown guide with 79.3 percent dominates one Python file with 50.4:
    it gives up 20 and the only language with code files gets them all *)
Lemma detect_languages_range_witness :
  @LanguageDetector.detect_languages SampleEngine.engine dominated_files
  = Ok [("python", Float64.lit 704 10); ("markdown", Float64.lit 593 10)]
  /\ in_range (Float64.lit 704 10) /\ in_range (Float64.lit 593 10).
Proof.
  assert (E : @LanguageDetector.detect_languages SampleEngine.engine dominated_files
              = Ok [("python", Float64.lit 704 10); ("markdown", Float64.lit 593 10)])
    by (vm_compute; reflexivity).
  destruct (@detect_languages_range SampleEngine.engine dominated_files _ E) as [Hrange _].
  split; [exact E |].
  apply Forall_cons in Hrange as [H1 Hrange]. apply Forall_cons in Hrange as [H2 _].
  split; [exact H1 | exact H2].
Defined.

(** ** Further properties of the pipeline *)

(** *** [validate_file_path] *)

Lemma validate_false_unsafe (p : string) :
  ValidationUtils.validate_file_path (PyStr p) = Ok false -> unsafe_path p.
Proof.
  unfold ValidationUtils.validate_file_path, unsafe_path.
  destruct p as [| a r] eqn:Ep; [intros _; left; reflexivity |].
  rewrite <- Ep. assert (T : truthy (PyStr p) = true) by (subst p; reflexivity).
  rewrite T. cbn [negb].
  destruct (Str.contains ".." p) eqn:E1; [intros _; right; left; reflexivity |].
  destruct (Str.startswith p "/") eqn:E2; [intros _; do 3 right; left; reflexivity |].
  destruct ((1 <? String.length p)%nat && bool_decide (Str.nth 1 p = Some ":"%char)) eqn:E3.
  { intros _. do 6 right. apply andb_prop in E3 as [_ E3].
    apply bool_decide_eq_true in E3. exact E3. }
  destruct (Str.contains Str.backslash p) eqn:E4; [intros _; do 2 right; left; reflexivity |].
  destruct (Str.startswith p "./" || Str.contains "/./" p) eqn:E5; [| discriminate].
  intros _. apply orb_prop in E5 as [E5 | E5].
  - do 4 right. left. exact E5.
  - do 5 right. left. exact E5.
Qed.

(** [validate_file_path] accepts a [str] exactly when it is not empty, holds
    neither [".."] nor a backslash nor ["/./"], starts with neither ["/"]
    nor ["./"] and has no [":"] as its second character; it never raises on
    a [str], rejects [None], and raises on an [int] other than 0. *)
Theorem validate_file_path_decides (p : string) :
  (unsafe_path p -> ValidationUtils.validate_file_path (PyStr p) = Ok false)
  /\ (~ unsafe_path p -> ValidationUtils.validate_file_path (PyStr p) = Ok true)
  /\ ValidationUtils.validate_file_path PyNone = Ok false
  /\ (forall z, z <> 0 -> ValidationUtils.validate_file_path (PyInt z) = Raise TypeError).
Proof.
  split; [apply validate_unsafe |]. split; [| split; [reflexivity |]].
  - intros Hsafe.
    destruct (ValidationUtils.validate_file_path (PyStr p)) as [[|] | e] eqn:V.
    + reflexivity.
    + exfalso. apply Hsafe. apply validate_false_unsafe. exact V.
    + unfold ValidationUtils.validate_file_path in V.
      destruct (negb (truthy (PyStr p))); discriminate.
  - intros z Hz. unfold ValidationUtils.validate_file_path. simpl.
    destruct (Z.eqb_spec z 0); [contradiction | reflexivity].
Qed.

(** *** [prioritize_files]: the order of the output *)

Lemma insert_by_priority_sorted (x : FileRecord) (l : list FileRecord) :
  StronglySorted (fun a b => get_priority b <= get_priority a) l ->
  StronglySorted (fun a b => get_priority b <= get_priority a)
    (FilePrioritizer.insert_by_priority x l).
Proof.
  induction 1 as [| y r Hr IH Hy]; simpl.
  - apply SSorted_cons; [apply SSorted_nil | apply Forall_nil; exact I].
  - destruct (Z.ltb_spec (get_priority x) (get_priority y)) as [Hlt | Hge].
    + apply SSorted_cons; [exact IH |].
      apply Forall_forall. intros z Hz.
      rewrite insert_by_priority_perm in Hz.
      apply elem_of_cons in Hz as [-> | Hz]; [lia |].
      rewrite Forall_forall in Hy. exact (Hy z Hz).
    + apply SSorted_cons; [apply SSorted_cons; assumption |].
      apply Forall_cons. split; [lia |].
      eapply Forall_impl; [exact Hy |]. intros z Hz. simpl in Hz. lia.
Qed.

Lemma sort_by_priority_sorted (l : list FileRecord) :
  StronglySorted (fun a b => get_priority b <= get_priority a)
    (FilePrioritizer.sort_by_priority l).
Proof.
  unfold FilePrioritizer.sort_by_priority. induction l as [| x r IH]; simpl.
  - apply SSorted_nil.
  - apply insert_by_priority_sorted. exact IH.
Qed.

(** the output of [prioritize_files] is in descending order of priority *)
Theorem prioritize_files_sorted `{Engine} (files : list FileRecord)
    (target : option string) (out : list FileRecord) :
  FilePrioritizer.prioritize_files files target = Ok out ->
  StronglySorted (fun a b => get_priority b <= get_priority a) out.
Proof.
  intros Hout. destruct (prioritize_files_target files target out Hout) as [t ->].
  apply sort_by_priority_sorted.
Qed.

Lemma prioritize_files_sorted_witness :
  exists out,
    @FilePrioritizer.prioritize_files SampleEngine.engine sample_batch (Some "python") = Ok out
    /\ StronglySorted (fun a b => get_priority b <= get_priority a) out.
Proof.
  eexists. split; [vm_compute; reflexivity |].
  apply (@prioritize_files_sorted SampleEngine.engine sample_batch (Some "python")).
  vm_compute. reflexivity.
Defined.

(** *** [detect_languages]: small files *)

Section SmallFiles.
Context `{Engine}.

Lemma scan_file_small (acc : LanguageDetector.lang_acc) (f : FileRecord) (z : Z) :
  get_size f = PyInt z -> z < 10 -> LanguageDetector.scan_file acc f = Ok acc.
Proof.
  intros Hs Hz. unfold LanguageDetector.scan_file. rewrite Hs.
  destruct (Z.ltb_spec z 10); [reflexivity | lia].
Qed.

Lemma scan_files_small (before after : list FileRecord) (f : FileRecord) (z : Z)
    (acc : LanguageDetector.lang_acc) :
  get_size f = PyInt z -> z < 10 ->
  LanguageDetector.scan_files acc (before ++ f :: after)
  = LanguageDetector.scan_files acc (before ++ after).
Proof.
  intros Hs Hz. revert acc. induction before as [| g r IH]; intros acc; simpl.
  - rewrite (scan_file_small acc f z Hs Hz). reflexivity.
  - destruct (LanguageDetector.scan_file acc g) as [acc' | e]; [| reflexivity].
    cbn [mbind py_bind]. apply IH.
Qed.

(** a file of fewer than ten bytes does not count: with or without it, at
    any place of the list, [detect_languages] and [detect_primary_language]
    give the same result, whatever its path and content are *)
Theorem detect_languages_skips_small_files (before after : list FileRecord)
    (f : FileRecord) (z : Z) :
  get_size f = PyInt z -> z < 10 ->
  LanguageDetector.detect_languages (before ++ f :: after)
  = LanguageDetector.detect_languages (before ++ after)
  /\ LanguageDetector.detect_primary_language (before ++ f :: after)
     = LanguageDetector.detect_primary_language (before ++ after).
Proof.
  intros Hs Hz.
  assert (E : LanguageDetector.detect_languages (before ++ f :: after)
              = LanguageDetector.detect_languages (before ++ after)).
  { unfold LanguageDetector.detect_languages.
    rewrite (scan_files_small before after f z _ Hs Hz). reflexivity. }
  split; [exact E |].
  unfold LanguageDetector.detect_primary_language. rewrite E. reflexivity.
Qed.

End SmallFiles.

Lemma detect_languages_skips_small_files_witness :
  @LanguageDetector.detect_languages SampleEngine.engine
    ([file "docs/guide.md" "# Guide" 9000] ++ file "x.rb" "puts 1" 6 :: [file "main.py" "import os" 100])
  = @LanguageDetector.detect_languages SampleEngine.engine dominated_files.
Proof.
  exact (proj1 (@detect_languages_skips_small_files SampleEngine.engine
                  [file "docs/guide.md" "# Guide" 9000] [file "main.py" "import os" 100]
                  (file "x.rb" "puts 1" 6) 6 eq_refl ltac:(lia))).
Defined.

(** *** [detect_languages] returns on well-typed records *)

Section Totality.
Import Float64 Float64Facts LanguageDetector.
Context `{Engine}.

Lemma scan_file_returns (acc : lang_acc) (f : FileRecord) :
  well_typed f -> exists acc', scan_file acc f = Ok acc'.
Proof.
  intros ((p & Hp) & (z & Hz) & (c & Hc)). unfold scan_file. rewrite Hp, Hz, Hc.
  destruct (z <? 10); [eauto |].
  unfold detect_language_by_extension_val, suffix_val, detect_language_by_content_val.
  destruct (negb (truthy (PyStr p))); cbn [mbind py_bind];
    destruct (_ && _); cbn [mbind py_bind]; eauto.
Qed.

Lemma scan_files_returns (files : list FileRecord) (acc : lang_acc) :
  Forall well_typed files -> exists acc', scan_files acc files = Ok acc'.
Proof.
  intros Hall. revert acc. induction Hall as [| f r Hf _ IH]; intros acc; simpl; [eauto |].
  destruct (scan_file_returns acc f Hf) as [acc1 ->]. cbn [mbind py_bind]. apply IH.
Qed.

(** a quotient of a part by its whole is a float *)
Lemma int_truediv_returns (a b : Z) :
  0 <= a -> 0 < b -> a <= 20 * b -> exists r, int_truediv a b = Ok r.
Proof.
  intros Ha Hb Hab.
  destruct (int_truediv_finite a b Ha Hb) as (m & e & E & _); [| eauto].
  assert (20 < 2 ^ 1023) by (vm_compute; reflexivity). nia.
Qed.

Lemma percentage_returns (part whole : Z) :
  0 <= part <= whole -> exists v, percentage part whole = Ok v.
Proof.
  intros Hp. unfold percentage. destruct (Z.ltb_spec 0 whole); [| eauto].
  destruct (int_truediv_returns part whole) as [r ->]; try lia. cbn [mbind py_bind]. eauto.
Qed.

Lemma language_entry_returns (acc : lang_acc) (l : string) (st : lang_stats) :
  acc_ok acc -> (l, st) ∈ language_stats acc ->
  exists e, language_entry acc l st = Ok e.
Proof.
  intros Hok Hin.
  destruct (entry_facts acc l st Hok Hin) as ((A & B & C & D & _) & S1 & S2 & S3 & S4).
  unfold language_entry, weighted_percentage.
  destruct (percentage_returns (ls_size st) (total_size acc)) as [sp ->]; [lia |].
  cbn [mbind py_bind].
  destruct (percentage_returns (ls_count st) (total_count acc)) as [cp ->]; [lia |].
  cbn [mbind py_bind].
  destruct ((0 <? total_code_size acc) && (0 <? ls_code_size st)) eqn:Hc.
  - apply andb_prop in Hc as [Hc1 Hc2]. apply Z.ltb_lt in Hc1.
    destruct (int_truediv_returns (ls_code_size st) (total_code_size acc)) as [r ->]; try lia.
    cbn [mbind py_bind].
    destruct (percentage_returns (ls_code_count st) (total_code_count acc)) as [ccp ->]; [lia |].
    cbn [mbind py_bind]. destruct (geb _ _); eauto.
  - cbn [mbind py_bind]. destruct (geb _ _); eauto.
Qed.

Lemma language_percentages_returns (acc : lang_acc) (d : list (string * lang_stats)) :
  acc_ok acc -> (forall kv, kv ∈ d -> kv ∈ language_stats acc) ->
  exists ps, language_percentages acc d = Ok ps.
Proof.
  intros Hok. induction d as [| [l st] r IH]; intros Hsub; simpl; [eauto |].
  destruct (language_entry_returns acc l st Hok) as [e ->]; [apply Hsub; left |].
  cbn [mbind py_bind].
  destruct IH as [rest ->]; [intros kv Hkv; apply Hsub; right; exact Hkv |].
  cbn [mbind py_bind]. eauto.
Qed.

Lemma rebalance_returns (acc : lang_acc) (sorted : list (string * float)) :
  acc_ok acc -> Forall (entry_of acc) sorted ->
  exists balanced, rebalance acc sorted = Ok balanced.
Proof.
  intros Hok Hentries. unfold rebalance.
  destruct sorted as [| [top_lang top] rest] eqn:Es; [eauto |].
  rewrite <- Es in *.
  destruct (int_ltb 70 top) eqn:Hgt; cbn [andb]; [| eauto].
  destruct (_ =? 0); [| eauto].
  assert (Htop : entry_of acc (top_lang, top)).
  { rewrite Forall_forall in Hentries. apply Hentries. rewrite Es. left. }
  destruct (entry_of_range acc (top_lang, top) Hok Htop) as (HbT & w & Nw & Fw & Hw).
  simpl in HbT, Hw.
  destruct (redistribution_dominant top w Nw Fw Hw HbT Hgt) as [-> _].
  cbn [redistribution_float boost_per_lang].
  match goal with |- context [match ?l with [] => _ | _ :: _ => _ end] =>
    destruct l as [| lang0 langs] eqn:Ecl end; [eauto |].
  destruct (int_truediv_returns 20 (Z.of_nat (length (lang0 :: langs)))) as [boost ->];
    [lia | simpl; lia | simpl; lia |].
  cbn [mbind py_bind]. eauto.
Qed.

(** [detect_languages] raises nothing on a list of well-typed records: no
    division by zero, no overflow, no missing key *)
Theorem detect_languages_returns (files : list FileRecord) :
  Forall well_typed files ->
  exists result, detect_languages files = Ok result.
Proof.
  intros Hall. unfold detect_languages.
  destruct (scan_files_returns files (mkAcc [] 0 0 0 0) Hall) as [acc Escan].
  rewrite Escan. cbn [mbind py_bind].
  pose proof (scan_files_ok files _ _ acc_ok_empty Escan) as Hok.
  destruct (language_percentages_returns acc (language_stats acc) Hok) as [ps Eps];
    [intros kv Hkv; exact Hkv |].
  rewrite Eps. cbn [mbind py_bind].
  pose proof (sort_desc_Forall _ _ (language_percentages_entries _ _ _ Eps)) as Hsorted.
  destruct (rebalance_returns acc (sort_desc ps) Hok Hsorted) as [balanced ->].
  cbn [mbind py_bind]. eauto.
Qed.

End Totality.

Lemma detect_languages_returns_witness :
  Forall well_typed dominated_files
  /\ exists result,
       @LanguageDetector.detect_languages SampleEngine.engine dominated_files = Ok result.
Proof.
  assert (Hall : Forall well_typed dominated_files).
  { repeat constructor; eexists; reflexivity. }
  split; [exact Hall |].
  exact (@detect_languages_returns SampleEngine.engine dominated_files Hall).
Defined.

(** *** [_apply_basic_filtering] *)

Lemma filtering_sublist (files valid : list FileRecord) :
  FileProcessor._apply_basic_filtering files = Ok valid -> valid `sublist_of` files.
Proof.
  revert valid. induction files as [| g files IH]; intros valid Hv; simpl in Hv.
  - injection Hv as <-. apply sublist_nil_l.
  - destruct (FileProcessor.passes_basic_filter g) as [keep | e]; simpl in Hv; [| discriminate].
    destruct (FileProcessor._apply_basic_filtering files) as [rest | e]; simpl in Hv;
      [| discriminate].
    injection Hv as <-. destruct keep.
    + apply sublist_skip. apply IH. reflexivity.
    + apply sublist_cons. apply IH. reflexivity.
Qed.

Lemma filtering_all_pass (files : list FileRecord) :
  Forall (fun f => FileProcessor.passes_basic_filter f = Ok true) files ->
  FileProcessor._apply_basic_filtering files = Ok files.
Proof.
  induction 1 as [| f files Hf _ IH]; simpl; [reflexivity |].
  rewrite Hf. simpl. rewrite IH. reflexivity.
Qed.

(** the basic filter keeps the order of the input and invents nothing, and
    filtering its output again changes nothing *)
Theorem basic_filtering_idempotent (files valid : list FileRecord) :
  FileProcessor._apply_basic_filtering files = Ok valid ->
  valid `sublist_of` files
  /\ FileProcessor._apply_basic_filtering valid = Ok valid.
Proof.
  intros Hv. split; [exact (filtering_sublist files valid Hv) |].
  apply filtering_all_pass. apply Forall_forall. intros f Hf.
  apply list_elem_of_In in Hf. exact (proj2 (filtering_In files valid f Hv Hf)).
Qed.

Lemma basic_filtering_idempotent_witness :
  FileProcessor._apply_basic_filtering mixed_files = Ok [file "src/ok.py" "x = 1" 5]
  /\ [file "src/ok.py" "x = 1" 5] `sublist_of` mixed_files
  /\ FileProcessor._apply_basic_filtering [file "src/ok.py" "x = 1" 5]
     = Ok [file "src/ok.py" "x = 1" 5].
Proof.
  assert (Hv : FileProcessor._apply_basic_filtering mixed_files
               = Ok [file "src/ok.py" "x = 1" 5]) by (vm_compute; reflexivity).
  split; [exact Hv |]. exact (basic_filtering_idempotent mixed_files _ Hv).
Defined.

(** *** [process_files]: what is selected *)

Section EndToEnd.
Context `{Engine}.

(** scoring copies the record: path, size and content stay as they are *)
Lemma prioritize_one_fields (t : string) (f : FileRecord) :
  f_path (FilePrioritizer.prioritize_one t f) = f_path f
  /\ f_size (FilePrioritizer.prioritize_one t f) = f_size f
  /\ f_content (FilePrioritizer.prioritize_one t f) = f_content f.
Proof.
  unfold FilePrioritizer.prioritize_one.
  destruct (FilePrioritizer._calculate_priority_score f t) as [e | x] eqn:He;
    [| repeat split; reflexivity].
  revert He. unfold FilePrioritizer._calculate_priority_score.
  destruct (negb (truthy (get_path f))); [intros [= <-]; repeat split; reflexivity |].
  destruct (get_path f) as [| z | path]; try discriminate.
  do 5 step_bind. intros [= <-]. repeat split; reflexivity.
Qed.

Lemma tiers_In (files : list FileRecord) (r : FileRecord) :
  In r (List.concat (FileProcessor._group_by_priority_tiers files)) -> In r files.
Proof.
  unfold FileProcessor._group_by_priority_tiers. simpl. rewrite !in_app_iff.
  intros [Hr | [Hr | [Hr | [Hr | []]]]]; apply filter_In in Hr; tauto.
Qed.

(** every record that [process_files] selects is an input record that passed
    the basic filter, with its path, size and content unchanged, and the
    selection fits the two budgets of the context when they are not
    negative *)
Theorem process_files_selection (files : list FileRecord)
    (context : option FileProcessor.Context) (selected : list FileRecord)
    (info : FileProcessor.analysis_info) :
  FileProcessor.process_files files context = Ok (selected, info) ->
  let ctx := default FileProcessor.empty_context context in
  (forall r, In r selected ->
     exists f, In f files /\ FileProcessor.passes_basic_filter f = Ok true
               /\ f_path r = f_path f /\ f_size r = f_size f /\ f_content r = f_content f)
  /\ (0 <= size_limit_of ctx ->
      exists total, FileProcessor.sum_sizes selected = Ok total /\ total <= size_limit_of ctx)
  /\ (0 <= count_limit_of ctx -> Z.of_nat (List.length selected) <= count_limit_of ctx).
Proof.
  intros Hp ctx. unfold FileProcessor.process_files in Hp. fold ctx in Hp.
  destruct (FileProcessor._apply_basic_filtering files) as [valid |] eqn:Ev; [| discriminate].
  cbn [mbind py_bind] in Hp.
  destruct valid as [| v0 valid'] eqn:Evalid.
  { inversion Hp. subst selected. split; [intros r [] |]. split.
    - intros Hs. exists 0. split; [reflexivity | exact Hs].
    - intros Hc. simpl. exact Hc. }
  rewrite <- Evalid in *.
  destruct (LanguageDetector.detect_languages valid) as [languages |]; [| discriminate].
  cbn [mbind py_bind] in Hp.
  destruct (LanguageDetector.detect_frameworks valid _) as [frameworks |]; [| discriminate].
  cbn [mbind py_bind] in Hp.
  destruct (FilePrioritizer.prioritize_files valid _) as [prioritized |] eqn:Epr; [| discriminate].
  cbn [mbind py_bind] in Hp.
  destruct (FileProcessor._perform_smart_selection prioritized ctx) as [sel |] eqn:Esel;
    [| discriminate].
  cbn [mbind py_bind] in Hp.
  destruct (FileProcessor._generate_analysis_info _ _ _ _ _ _ _) as [i |]; [| discriminate].
  cbn [mbind py_bind] in Hp. inversion Hp. subst sel info. clear Hp.
  destruct (selection_within prioritized ctx selected Esel) as ((total & Hw) & Hsub).
  split; [| split].
  - intros r Hr.
    assert (Hr1 : In r prioritized).
    { apply tiers_In. apply list_elem_of_In.
      eapply elem_of_sublist; [apply list_elem_of_In; exact Hr | exact Hsub]. }
    destruct (prioritize_files_target valid _ prioritized Epr) as [t ->].
    apply list_elem_of_In in Hr1. rewrite sort_by_priority_perm in Hr1.
    apply list_elem_of_In in Hr1. apply in_map_iff in Hr1 as (f & <- & Hf).
    destruct (filtering_In files valid f Ev Hf) as [Hin Hpass].
    exists f. split; [exact Hin |]. split; [exact Hpass |]. apply prioritize_one_fields.
  - intros Hs. exists total. split; [exact (proj1 Hw) | exact (within_total _ _ _ _ Hs Hw)].
  - intros Hc. destruct (proj2 (proj2 Hw)) as [-> | Hlen]; [simpl; exact Hc | exact Hlen].
Qed.

End EndToEnd.

Lemma process_files_selection_witness :
  exists selected info,
    @FileProcessor.process_files SampleEngine.engine mixed_files None = Ok (selected, info)
    /\ List.map f_path selected = [Some (PyStr "src/ok.py")]
    /\ (forall r, In r selected ->
          exists f, In f mixed_files /\ FileProcessor.passes_basic_filter f = Ok true
                    /\ f_path r = f_path f /\ f_size r = f_size f /\ f_content r = f_content f).
Proof.
  eexists. eexists. split; [vm_compute; reflexivity |]. split; [reflexivity |].
  refine (proj1 (@process_files_selection SampleEngine.engine mixed_files None _ _ _)).
  vm_compute. reflexivity.
Defined.
